(** * Robottelo: page objects, CLI wrappers and data factory

    A shallow embedding of the decision logic of

    - [robottelo/ui/rhci.py]   (locator interpolation, wizard pages, the
      bounded wizard-completion loop),
    - [robottelo/cli/gpgkey.py] ([GPGKey.list], [GPGKey.exists]),
    - [lib/content.py]         (content-provider page object),
    - [robottelo/datafactory.py] ([datacheck], [invalid_values_list]),

    together with the properties the specification states about them.

    Python code that talks to a browser or to a command line tool is
    embedded in a small state-and-error monad that also records the
    interactions it performs, so that statements such as "no click happens
    after the failed assertion" are statements about the recorded trace. *)

From Stdlib Require Import ZArith List String Ascii Lia Bool DecimalString.
From stdpp Require Import gmap strings.
Import ListNotations.
Open Scope string_scope.
Open Scope list_scope.

(* ===================================================================== *)
(** * Python values, exceptions and effects                               *)
(* ===================================================================== *)

Module Py.

(** The exception classes the modelled code raises or catches. *)
Inductive exn_class : Type :=
  | Exception
  | AssertionError
  | AttributeError
  | KeyError
  | TypeError
  | ValueError
  | IndexError
  | WebDriverException
  | NoSuchElementException
  | TimeoutException
  | InvalidArgumentError.

#[global] Instance exn_class_eq_dec : EqDecision exn_class.
Proof. solve_decision. Defined.

(** Direct base class.  [NoSuchElementException] and [TimeoutException]
    derive from [WebDriverException] in selenium; everything derives from
    [Exception]. *)
Definition base_class (c : exn_class) : option exn_class :=
  match c with
  | Exception => None
  | NoSuchElementException | TimeoutException => Some WebDriverException
  | _ => Some Exception
  end.

(** [issubclass c d]: the class hierarchy above has depth two. *)
Definition issubclass (c d : exn_class) : bool :=
  bool_decide (c = d)
  || match base_class c with
     | None => false
     | Some p =>
         bool_decide (p = d)
         || match base_class p with
            | None => false
            | Some q => bool_decide (q = d)
            end
     end.

Record exn : Type := Exn { exn_cls : exn_class; exn_msg : string }.

Inductive outcome (A : Type) : Type :=
  | Ok (a : A)
  | Raise (e : exn).
Arguments Ok {A} a.
Arguments Raise {A} e.

Definition is_ok {A} (r : outcome A) : bool :=
  match r with Ok _ => true | Raise _ => false end.

(** The values that reach the modelled functions. *)
Inductive PyVal : Type :=
  | PNone
  | PBool (b : bool)
  | PInt (z : Z)
  | PStr (s : string).

#[global] Instance PyVal_eq_dec : EqDecision PyVal.
Proof. solve_decision. Defined.

(** Truth value testing. *)
Definition truthy (v : PyVal) : bool :=
  match v with
  | PNone => false
  | PBool b => b
  | PInt z => negb (z =? 0)%Z
  | PStr s => negb (String.eqb s "")
  end.

(** [a or b] *)
Definition py_or (a b : PyVal) : PyVal := if truthy a then a else b.

(** [str(v)] *)
Definition py_str (v : PyVal) : string :=
  match v with
  | PNone => "None"
  | PBool true => "True"
  | PBool false => "False"
  | PInt z => NilZero.string_of_int (Z.to_int z)
  | PStr s => s
  end.

(** ** The [%] operator on strings

    [py_format fmt args] is [fmt % args] on the fragment of format
    strings the sources use: those whose conversions are [%s] and [%%]
    (see [simple_format]).  Each [%s] consumes one argument; too few or too
    many arguments raise [TypeError], a [%] that ends the string raises
    [ValueError], as in Python.  The other conversions of Python ([%d],
    [%r], flags, widths, ...) are not modelled: the function stops on them
    with a [ValueError], which is what Python does for a character that is
    no conversion type only.  The properties below are stated for format
    strings of the fragment. *)
Fixpoint py_format (fmt : string) (args : list string) : outcome string :=
  match fmt with
  | EmptyString =>
      match args with
      | [] => Ok ""
      | _ :: _ =>
          Raise (Exn TypeError
                   "not all arguments converted during string formatting")
      end
  | String c rest =>
      if Ascii.eqb c "%"%char then
        match rest with
        | EmptyString => Raise (Exn ValueError "incomplete format")
        | String d rest' =>
            if Ascii.eqb d "s"%char then
              match args with
              | [] =>
                  Raise (Exn TypeError
                           "not enough arguments for format string")
              | a :: args' =>
                  match py_format rest' args' with
                  | Ok s => Ok (a +:+ s)
                  | Raise e => Raise e
                  end
              end
            else if Ascii.eqb d "%"%char then
              match py_format rest' args with
              | Ok s => Ok (String "%"%char s)
              | Raise e => Raise e
              end
            else Raise (Exn ValueError "unsupported format character")
        end
      else
        match py_format rest args with
        | Ok s => Ok (String c s)
        | Raise e => Raise e
        end
  end.

(** The fragment of format strings on which [py_format] is Python's [%]:
    every [%] starts a [%s] or a [%%], or is the last character. *)
Fixpoint simple_format (fmt : string) : bool :=
  match fmt with
  | EmptyString => true
  | String c rest =>
      if Ascii.eqb c "%"%char then
        match rest with
        | EmptyString => true
        | String d rest' =>
            (Ascii.eqb d "s"%char || Ascii.eqb d "%"%char)
            && simple_format rest'
        end
      else simple_format rest
  end.

(** A string without any [%], hence without conversion specifier. *)
Fixpoint no_percent (s : string) : bool :=
  match s with
  | EmptyString => true
  | String c rest => negb (Ascii.eqb c "%"%char) && no_percent rest
  end.

(** [needle in haystack] on strings. *)
Fixpoint str_contains (needle haystack : string) : bool :=
  String.prefix needle haystack
  || match haystack with
     | EmptyString => false
     | String _ rest => str_contains needle rest
     end.

(** ** Effects

    A computation runs in a world [W] (the browser session, the random
    source, ...), returns a value or raises, and emits the interactions it
    performed as a list of events of type [E]. *)
Definition M (W E A : Type) : Type := W -> outcome A * W * list E.

Definition ret {W E A} (a : A) : M W E A := fun w => (Ok a, w, []).

Definition raise {W E A} (e : exn) : M W E A := fun w => (Raise e, w, []).

Definition bind {W E A B} (m : M W E A) (f : A -> M W E B) : M W E B :=
  fun w =>
    match m w with
    | (Ok a, w1, t1) =>
        match f a w1 with
        | (r, w2, t2) => (r, w2, t1 ++ t2)
        end
    | (Raise e, w1, t1) => (Raise e, w1, t1)
    end.

(** [try: m / except: ...] with a bare [except]: the outcome becomes a
    value; what [m] did to the world before raising stays done. *)
Definition try_ {W E A} (m : M W E A) : M W E (outcome A) :=
  fun w => match m w with (r, w1, t1) => (Ok r, w1, t1) end.

(** [try: m / except C1: h1 / except C2: h2 ...]: the clauses are tried
    in order and the first one whose class the exception is an instance of
    handles it; an exception raised inside a handler propagates. *)
Fixpoint find_clause {H : Type} (e : exn) (clauses : list (exn_class * H))
    : option H :=
  match clauses with
  | [] => None
  | (C, h) :: rest =>
      if issubclass (exn_cls e) C then Some h else find_clause e rest
  end.

Definition try_except {W E A} (m : M W E A)
    (clauses : list (exn_class * (exn -> M W E A))) : M W E A :=
  fun w =>
    match m w with
    | (Ok a, w1, t1) => (Ok a, w1, t1)
    | (Raise e, w1, t1) =>
        match find_clause e clauses with
        | Some h =>
            match h e w1 with
            | (r, w2, t2) => (r, w2, t1 ++ t2)
            end
        | None => (Raise e, w1, t1)
        end
    end.

(** Lifting of a pure fallible computation. *)
Definition lift {W E A} (r : outcome A) : M W E A := fun w => (r, w, []).

Declare Scope py_scope.
Delimit Scope py_scope with py.
Notation "x <- c1 ;; c2" := (bind c1 (fun x => c2))
  (at level 100, c1 at next level, right associativity) : py_scope.
Notation "c1 ;; c2" := (bind c1 (fun _ => c2))
  (at level 100, right associativity) : py_scope.

End Py.

Import Py.
Open Scope py_scope.

(* ===================================================================== *)
(** * robottelo/ui/rhci.py                                                *)
(* ===================================================================== *)

Module Rhci.

(** A locator is a (strategy, expression) pair. *)
Definition Locator : Type := string * string.

(** Handle of an element of the page. *)
Definition WebElement : Type := nat.

(** What [robottelo.ui.base.Base] offers to the page object.  The class is
    not part of the modelled sources; its methods are the interface the
    wizard is written against.  [timeout] is the optional keyword argument,
    [None] when the call leaves it out. *)
Class Browser (W : Type) : Type := {
  base_click : Locator -> option nat -> W -> outcome unit * W;
  base_wait_until_element :
    Locator -> option nat -> W -> option WebElement * W;
  base_text_field_update : Locator -> PyVal -> W -> outcome unit * W;
  browser_refresh : W -> outcome unit * W;
  time_sleep : nat -> W -> W
}.

(** The interactions a wizard run performs, in order. *)
Inductive Event : Type :=
  | ESleep (secs : nat)
  | EClick (loc : Locator) (timeout : option nat) (ok : bool)
  | EWait (loc : Locator) (timeout : option nat) (found : bool)
  | ETextUpdate (loc : Locator) (value : PyVal) (ok : bool)
  | ERefresh (ok : bool).

Section Wizard.

Context {W : Type} `{Browser W}.

(** The locator registry [robottelo.ui.locators.locators]: a dictionary
    from names to locators, defined outside the modelled sources. *)
Variable locators : gmap string Locator.

(** [interp_loc(locator_name, interpolate_string)] *)
Definition interp_loc (locator_name : string) (interpolate_string : PyVal)
    : outcome Locator :=
  let interpolate_string := py_or interpolate_string (PStr "") in
  match locators !! locator_name with
  | None => Raise (Exn KeyError locator_name)
  | Some l =>
      match py_format (snd l) [py_str interpolate_string] with
      | Ok expr => Ok (fst l, expr)
      | Raise e => Raise e
      end
  end.

(** [locators[name]] *)
Definition locator (name : string) : M W Event Locator :=
  fun w =>
    match locators !! name with
    | Some l => (Ok l, w, [])
    | None => (Raise (Exn KeyError name), w, [])
    end.

(** [self.click(loc, timeout=...)] *)
Definition click (loc : Locator) (timeout : option nat) : M W Event unit :=
  fun w =>
    match base_click loc timeout w with
    | (r, w') => (r, w', [EClick loc timeout (is_ok r)])
    end.

(** [self.wait_until_element(loc, timeout=...)]: the element or [None]. *)
Definition wait_until_element (loc : Locator) (timeout : option nat)
    : M W Event (option WebElement) :=
  fun w =>
    match base_wait_until_element loc timeout w with
    | (e, w') => (Ok e, w', [EWait loc timeout (bool_decide (is_Some e))])
    end.

(** [self.text_field_update(loc, value)] *)
Definition text_field_update (loc : Locator) (value : PyVal)
    : M W Event unit :=
  fun w =>
    match base_text_field_update loc value w with
    | (r, w') => (r, w', [ETextUpdate loc value (is_ok r)])
    end.

(** [self.browser.refresh()] *)
Definition refresh : M W Event unit :=
  fun w =>
    match browser_refresh w with
    | (r, w') => (r, w', [ERefresh (is_ok r)])
    end.

(** [sleep(secs)] *)
Definition sleep (secs : nat) : M W Event unit :=
  fun w => (Ok tt, time_sleep secs w, [ESleep secs]).

(** [if value is not None: self.text_field_update(locators[name], value)] *)
Definition update_if_given (name : string) (value : PyVal)
    : M W Event unit :=
  match value with
  | PNone => ret tt
  | _ => l <- locator name ;; text_field_update l value
  end.

(** An optional field as the specification describes it: a non-fatal
    existence check under a five second timeout, and the entry of [value]
    only when the field is there. *)
Definition optional_field (name : string) (value : PyVal)
    : M W Event unit :=
  l <- locator name ;;
  e <- wait_until_element l (Some 5) ;;
  if bool_decide (is_Some e) then
    l <- locator name ;; text_field_update l value
  else ret tt.

(** [RHCI._page_rhev_configuration] *)
Definition _page_rhev_configuration
    (rhevm_adminpass datacenter_name cluster_name cpu_type : PyVal)
    : M W Event unit :=
  l <- locator "rhci.rhev_root_pass" ;;
  e <- wait_until_element l None ;;
  (if bool_decide (is_Some e) then
     l <- locator "rhci.rhev_root_pass" ;;
     text_field_update l rhevm_adminpass ;;
     l <- locator "rhci.confirm_rhev_root_pass" ;;
     e <- wait_until_element l (Some 5) ;;
     (if bool_decide (is_Some e) then
        l <- locator "rhci.confirm_rhev_root_pass" ;;
        text_field_update l rhevm_adminpass
      else ret tt) ;;
     l <- locator "rhci.rhevm_adminpass" ;;
     text_field_update l rhevm_adminpass ;;
     l <- locator "rhci.confirm_rhevm_adminpass" ;;
     e <- wait_until_element l (Some 5) ;;
     (if bool_decide (is_Some e) then
        l <- locator "rhci.confirm_rhevm_adminpass" ;;
        text_field_update l rhevm_adminpass
      else ret tt) ;;
     update_if_given "rhci.datacenter_name" datacenter_name ;;
     update_if_given "rhci.cluster_name" cluster_name ;;
     update_if_given "rhci.cpu_type" cpu_type
   else ret tt) ;;
  l <- locator "rhci.next" ;;
  click l None.

(** [RHCI._page_cloudforms_configuration] *)
Definition _page_cloudforms_configuration (cfme_install_locator : Locator)
    (cfme_root_password cfme_admin_password : PyVal) : M W Event unit :=
  e <- wait_until_element cfme_install_locator None ;;
  (if bool_decide (is_Some e) then click cfme_install_locator None
   else ret tt) ;;
  l <- locator "rhci.next" ;;
  click l None ;;
  l <- locator "rhci.cfme_root_password" ;;
  wait_until_element l None ;;
  l <- locator "rhci.cfme_root_password" ;;
  text_field_update l cfme_root_password ;;
  l <- locator "rhci.confirm_cfme_root_password" ;;
  e <- wait_until_element l (Some 5) ;;
  (if bool_decide (is_Some e) then
     l <- locator "rhci.confirm_cfme_root_password" ;;
     text_field_update l cfme_root_password
   else ret tt) ;;
  l <- locator "rhci.cfme_admin_password" ;;
  text_field_update l cfme_admin_password ;;
  l <- locator "rhci.confirm_cfme_admin_password" ;;
  e <- wait_until_element l (Some 5) ;;
  (if bool_decide (is_Some e) then
     l <- locator "rhci.confirm_cfme_admin_password" ;;
     text_field_update l cfme_admin_password
   else ret tt) ;;
  l <- locator "rhci.next" ;;
  click l None.

(** The inner loop of [_page_review_deployment]:
<<
    success = False
    attempts = 0
    while attempts < 40 and not success:
        try:
            self.browser.refresh()
            success = True
        except:
            sleep(15)
            attempts += 1
>>
    [remaining] is [40 - attempts]; leaving the loop with [success = True]
    is the [Ok] branch. *)
Fixpoint refresh_retry (remaining : nat) : M W Event unit :=
  match remaining with
  | O => ret tt
  | S remaining' =>
      r <- try_ refresh ;;
      match r with
      | Ok _ => ret tt
      | Raise _ => sleep 15 ;; refresh_retry remaining'
      end
  end.

(** The outer loop of [_page_review_deployment],
    [for __ in range(n): ... else: raise Exception(...)], with [n] the
    number of iterations still to run.  [break] is the [Ok] branch; the
    [else] clause runs when the range is used up. *)
Fixpoint completion_loop (n : nat) : M W Event unit :=
  match n with
  | O => raise (Exn Exception "Next button never became available to click")
  | S n' =>
      sleep 90 ;;
      r <- try_ (l <- locator "rhci.next" ;; click l None) ;;
      match r with
      | Ok _ => ret tt
      | Raise _ => refresh_retry 40 ;; completion_loop n'
      end
  end.

(** [RHCI._page_review_deployment] *)
Definition _page_review_deployment : M W Event unit :=
  l <- locator "rhci.deploy" ;;
  click l (Some 300) ;;
  completion_loop 240.

End Wizard.

(** ** Counting the interactions of a run *)

Definition is_sleep (secs : nat) (e : Event) : bool :=
  match e with ESleep s => Nat.eqb s secs | _ => false end.

Definition is_click (e : Event) : bool :=
  match e with EClick _ _ _ => true | _ => false end.

Definition is_click_ok (e : Event) : bool :=
  match e with EClick _ _ ok => ok | _ => false end.

Definition is_refresh (e : Event) : bool :=
  match e with ERefresh _ => true | _ => false end.

Definition is_refresh_failed (e : Event) : bool :=
  match e with ERefresh ok => negb ok | _ => false end.

Definition is_text_update_on (loc : Locator) (e : Event) : bool :=
  match e with
  | ETextUpdate l _ _ => bool_decide (l = loc)
  | _ => false
  end.

Definition count (p : Event -> bool) (tr : list Event) : nat :=
  length (List.filter p tr).

(** ** A scripted browser

    The fake browser of the specification's scenarios: clicks and refreshes
    answer from a script (one entry per call, [true] for success), and fall
    back to a default answer once the script is used up; an element is
    present when [fk_present] says so; text entry succeeds. *)
Record Fake : Type := {
  fk_clicks : list bool;
  fk_click_default : bool;
  fk_refreshes : list bool;
  fk_refresh_default : bool;
  fk_present : Locator -> bool
}.

Definition fake_answer (ok : bool) (e : exn) : outcome unit :=
  if ok then Ok tt else Raise e.

Definition fake_click (loc : Locator) (timeout : option nat) (f : Fake)
    : outcome unit * Fake :=
  match fk_clicks f with
  | [] =>
      (fake_answer (fk_click_default f)
         (Exn NoSuchElementException "element not found"), f)
  | ok :: rest =>
      (fake_answer ok (Exn NoSuchElementException "element not found"),
       {| fk_clicks := rest;
          fk_click_default := fk_click_default f;
          fk_refreshes := fk_refreshes f;
          fk_refresh_default := fk_refresh_default f;
          fk_present := fk_present f |})
  end.

Definition fake_refresh (f : Fake) : outcome unit * Fake :=
  match fk_refreshes f with
  | [] =>
      (fake_answer (fk_refresh_default f)
         (Exn WebDriverException "connection refused"), f)
  | ok :: rest =>
      (fake_answer ok (Exn WebDriverException "connection refused"),
       {| fk_clicks := fk_clicks f;
          fk_click_default := fk_click_default f;
          fk_refreshes := rest;
          fk_refresh_default := fk_refresh_default f;
          fk_present := fk_present f |})
  end.

#[global] Instance fake_browser : Browser Fake := {
  base_click := fake_click;
  base_wait_until_element loc timeout f :=
    (if fk_present f loc then Some 0 else None, f);
  base_text_field_update loc value f := (Ok tt, f);
  browser_refresh := fake_refresh;
  time_sleep secs f := f
}.

(** A registry for the scenarios; the expressions are illustrative. *)
Definition sample_locators : gmap string Locator :=
  list_to_map
    [ ("rhci.next", ("xpath", "//button[contains(., 'Next')]"));
      ("rhci.deploy", ("xpath", "//button[contains(., 'Deploy')]"));
      ("rhci.env_path", ("xpath", "//label[contains(., '%s')]"));
      ("rhci.rhev_root_pass", ("id", "rhev_root_pass"));
      ("rhci.confirm_rhev_root_pass", ("id", "confirm_rhev_root_pass"));
      ("rhci.rhevm_adminpass", ("id", "rhevm_adminpass"));
      ("rhci.confirm_rhevm_adminpass", ("id", "confirm_rhevm_adminpass"));
      ("rhci.datacenter_name", ("id", "datacenter_name"));
      ("rhci.cluster_name", ("id", "cluster_name"));
      ("rhci.cpu_type", ("id", "cpu_type"));
      ("rhci.cfme_root_password", ("id", "cfme_root_password"));
      ("rhci.confirm_cfme_root_password", ("id", "confirm_cfme_root_password"));
      ("rhci.cfme_admin_password", ("id", "cfme_admin_password"));
      ("rhci.confirm_cfme_admin_password",
        ("id", "confirm_cfme_admin_password")) ].

Definition sample_next : Locator :=
  ("xpath", "//button[contains(., 'Next')]").

(** The events of [k] failed refreshes, each followed by its back-off. *)
Fixpoint failed_refreshes (k : nat) : list Event :=
  match k with
  | O => []
  | S k' => ERefresh false :: ESleep 15 :: failed_refreshes k'
  end.

Definition exhausted : exn :=
  Exn Exception "Next button never became available to click".

(** The control never becomes available and every
    refresh succeeds at once. *)
Definition never_available : Fake :=
  {| fk_clicks := []; fk_click_default := false;
     fk_refreshes := []; fk_refresh_default := true;
     fk_present := fun _ => false |}.

(** Every click succeeds and the page shows what [pr] says. *)
Definition page_showing (pr : Locator -> bool) : Fake :=
  {| fk_clicks := []; fk_click_default := true;
     fk_refreshes := []; fk_refresh_default := true;
     fk_present := pr |}.

(** The control is absent three times, then present; every refresh
    succeeds at once. *)
Definition available_at_fourth : Fake :=
  {| fk_clicks := [false; false; false; true]; fk_click_default := false;
     fk_refreshes := []; fk_refresh_default := true;
     fk_present := fun _ => false |}.

End Rhci.

(** ** Placeholders of a locator expression *)

Module Placeholders.

(** Number of [%s] conversions of a format string, [None] when the string
    has a conversion other than [%s] and [%%] or ends in a single [%]. *)
Fixpoint placeholders (fmt : string) : option nat :=
  match fmt with
  | EmptyString => Some 0
  | String c rest =>
      if Ascii.eqb c "%"%char then
        match rest with
        | EmptyString => None
        | String d rest' =>
            if Ascii.eqb d "s"%char then S <$> placeholders rest'
            else if Ascii.eqb d "%"%char then placeholders rest'
            else None
        end
      else placeholders rest
  end.

(** The expression registered under [name], if there is one, is a format
    string of the fragment [simple_format]. *)
Definition simple_locator (locators : gmap string Rhci.Locator)
    (name : string) : bool :=
  match locators !! name with
  | Some l => simple_format (snd l)
  | None => true
  end.

End Placeholders.

(* ===================================================================== *)
(** * robottelo/ui/rhci.py: the other pages of the wizard                 *)
(* ===================================================================== *)

Module RhciPages.

Import Rhci.

Section Pages.

Context {W : Type} `{Browser W}.
Variable locators : gmap string Locator.

Abbreviation Act := (M W Event).

(** [for x in xs: body(x)] *)
Fixpoint for_each {A : Type} (xs : list A) (body : A -> Act unit)
    : Act unit :=
  match xs with
  | [] => ret tt
  | x :: rest => body x ;; for_each rest body
  end.

(** [self.click(locators[name])] *)
Definition click_named (name : string) : Act unit :=
  l <- locator locators name ;; click l None.

(** [self.text_field_update(locators[name], value)] *)
Definition update_named (name : string) (value : PyVal) : Act unit :=
  l <- locator locators name ;; text_field_update l value.

(** [RHCI._page_software_selection] *)
Definition _page_software_selection (products : list string) : Act unit :=
  for_each products
    (fun prod =>
       l <- lift (interp_loc locators "rhci.product_select" (PStr prod)) ;;
       click l None) ;;
  click_named "rhci.select".

(** [RHCI._page_satellite_configuration] *)
Definition _page_satellite_configuration (sat_name sat_desc : PyVal)
    : Act unit :=
  l <- locator locators "rhci.satellite_name" ;;
  e <- wait_until_element l None ;;
  (if bool_decide (is_Some e) then
     update_named "rhci.satellite_name" sat_name ;;
     update_named "rhci.satellite_description" sat_desc
   else ret tt) ;;
  click_named "rhci.next" ;;
  click_named "rhci.next".

(** [RHCI._page_lifecycle_environment] *)
Definition _page_lifecycle_environment (env_path_loc : Locator)
    (env_path update_lifecycle : PyVal) : Act unit :=
  l <- lift (interp_loc locators "rhci.update_lifecycle_select"
               update_lifecycle) ;;
  click l None ;;
  click_named "rhci.next".

(** [RHCI._page_access_insights] *)
Definition _page_access_insights (rhai_present_locator : Locator)
    (enable_access_insights : PyVal) : Act unit :=
  (if truthy enable_access_insights then
     click_named "rhci.enable_access_insights"
   else ret tt) ;;
  click_named "rhci.next".

(** [RHCI._page_discover_undercloud] *)
Definition _page_discover_undercloud
    (undercloud_address undercloud_user undercloud_pass : PyVal)
    : Act unit :=
  update_named "rhci.undercloud_ip" undercloud_address ;;
  update_named "rhci.undercloud_ssh_user" undercloud_user ;;
  update_named "rhci.undercloud_ssh_pass" undercloud_pass ;;
  click_named "rhci.detect_undercloud" ;;
  click_named "rhci.next".

(** [RHCI._page_assign_nodes] *)
Definition _page_assign_nodes : Act unit := click_named "rhci.next".

(** [RHCI._page_rhev_engine_selection] *)
Definition _page_rhev_engine_selection (rhevm_mac_loc : Locator)
    : Act unit :=
  click rhevm_mac_loc None ;;
  click_named "rhci.next".

(** [RHCI._page_rhev_hypervisor_selection] *)
Definition _page_rhev_hypervisor_selection (rhevh_mac_locs : list Locator)
    : Act unit :=
  for_each rhevh_mac_locs (fun rhevh_mac_loc => click rhevh_mac_loc None) ;;
  click_named "rhci.next".

(** [RHCI._page_rhev_storage_configuration].  The click on Next belongs to
    the branch of the data domain field. *)
Definition _page_rhev_storage_configuration
    (data_domain_name data_domain_address data_domain_share_path
     export_domain_name export_domain_address export_domain_share_path
       : PyVal)
    (rhev_storage_type_loc : Locator) : Act unit :=
  e <- wait_until_element rhev_storage_type_loc None ;;
  (if bool_decide (is_Some e) then click rhev_storage_type_loc None
   else ret tt) ;;
  l <- locator locators "rhci.data_domain_name" ;;
  e <- wait_until_element l None ;;
  if bool_decide (is_Some e) then
    update_named "rhci.data_domain_name" data_domain_name ;;
    update_named "rhci.data_domain_address" data_domain_address ;;
    update_named "rhci.data_domain_share_path" data_domain_share_path ;;
    l <- locator locators "rhci.export_domain_name" ;;
    e <- wait_until_element l (Some 5) ;;
    (if bool_decide (is_Some e) then
       update_named "rhci.export_domain_name" export_domain_name ;;
       update_named "rhci.export_domain_address" export_domain_address ;;
       update_named "rhci.export_domain_share_path"
         export_domain_share_path
     else ret tt) ;;
    click_named "rhci.next"
  else ret tt.

(** [RHCI._page_redhat_login] *)
Definition _page_redhat_login (rhsm_username rhsm_password : PyVal)
    : Act unit :=
  l <- locator locators "rhci.rhsm_username" ;;
  e <- wait_until_element l None ;;
  (if bool_decide (is_Some e) then
     update_named "rhci.rhsm_username" rhsm_username ;;
     update_named "rhci.rhsm_password" rhsm_password
   else ret tt) ;;
  click_named "rhci.next".

(** [RHCI._page_subscription_manager_apps] *)
Definition _page_subscription_manager_apps (rhsm_sat_radio_loc : Locator)
    : Act unit :=
  wait_until_element rhsm_sat_radio_loc None ;;
  click rhsm_sat_radio_loc None ;;
  click_named "rhci.next".

(** The body of the loop of [_page_select_subscriptions]:
<<
    if self.wait_until_element(sub_check_loc):
        self.click(sub_check_loc)
>>
*)
Definition check_subscription (sub_check_loc : Locator) : Act unit :=
  e <- wait_until_element sub_check_loc None ;;
  if bool_decide (is_Some e) then click sub_check_loc None else ret tt.

(** [RHCI._page_select_subscriptions] *)
Definition _page_select_subscriptions (sub_check_locs : list Locator)
    : Act unit :=
  for_each sub_check_locs check_subscription ;;
  click_named "rhci.next".

(** [RHCI._page_review_subscriptions] *)
Definition _page_review_subscriptions : Act unit := click_named "rhci.next".

End Pages.

(** Seconds slept during a run. *)
Fixpoint slept (tr : list Event) : Z :=
  match tr with
  | [] => 0
  | ESleep secs :: rest => Z.of_nat secs + slept rest
  | _ :: rest => slept rest
  end.

(** Nothing ever works: no click and no refresh succeeds. *)
Definition nothing_works : Fake :=
  {| fk_clicks := []; fk_click_default := false;
     fk_refreshes := []; fk_refresh_default := false;
     fk_present := fun _ => false |}.

(** The registry of the scenarios with the locators of the other pages;
    the expressions are illustrative. *)
Definition wizard_locators : gmap string Locator :=
  list_to_map
    [ ("rhci.product_select", ("xpath", "//span[@id='is_%s']"));
      ("rhci.select", ("xpath", "//button[.='Select']"));
      ("rhci.data_domain_name", ("id", "data_domain_name"));
      ("rhci.register_nodes", ("xpath", "//button[.='Register Nodes']"));
      ("rhci.node_add_node", ("xpath", "//a[.='Add Node']"));
      ("rhci.node_driver_select", ("id", "node_driver"));
      ("rhci.node_driver_dropdown_item", ("xpath", "//li[.='%s']"));
      ("rhci.node_ip_address", ("id", "node_ip_address"));
      ("rhci.node_ipmi_user", ("id", "node_ipmi_user"));
      ("rhci.node_ipmi_pass", ("id", "node_ipmi_pass"));
      ("rhci.node_nic_mac_address", ("id", "node_nic_mac_address"));
      ("node_register_nodes", ("xpath", "//button[.='Register']")) ]
  ∪ sample_locators.

(** The clicked locators of a run, in order. *)
Fixpoint clicked (tr : list Event) : list Locator :=
  match tr with
  | [] => []
  | EClick loc _ _ :: rest => loc :: clicked rest
  | _ :: rest => clicked rest
  end.

(** The locators awaited and found during a run, in order. *)
Fixpoint found_locators (tr : list Event) : list Locator :=
  match tr with
  | [] => []
  | EWait loc _ true :: rest => loc :: found_locators rest
  | _ :: rest => found_locators rest
  end.

End RhciPages.

(* ===================================================================== *)
(** * robottelo/ui/rhci.py: the whole wizard                              *)
(* ===================================================================== *)

Module RhciWizard.

Import Rhci RhciPages.

(** What a run of the whole wizard does: the interactions of the pages,
    the wait for a clickable element of the node registration, and the
    line printed by the setup type page. *)
Inductive Step : Type :=
  | Interaction (e : Event)
  | EWaitClickable (loc : Locator) (timeout : option nat) (found : bool)
  | EPrint (line : string).

(** [Base.wait_until_element_is_clickable], from [robottelo.ui.base]. *)
Class Clickable (W : Type) : Type := {
  base_wait_until_element_is_clickable :
    Locator -> option nat -> W -> option WebElement * W
}.

(** The arguments of [RHCI.create]. *)
Record CreateArgs : Type := {
  sat_name : PyVal;
  sat_desc : PyVal;
  products : list string;
  deploy_org : PyVal;
  env_path : PyVal;
  overcloud_nodes : list (gmap string PyVal);
  rhevh_macs : list PyVal;
  rhevm_mac : PyVal;
  undercloud_user : PyVal;
  undercloud_pass : PyVal;
  update_lifecycle : PyVal;
  rhevh_hostname : PyVal;
  rhevm_hostname : PyVal;
  rhevm_adminpass : PyVal;
  rhsm_username : PyVal;
  rhsm_password : PyVal;
  rhsm_satellite_uuid : PyVal;
  rhsm_subs : list PyVal;
  rhev_setup_type : PyVal;
  use_default_org_view : PyVal;
  enable_access_insights : PyVal;
  datacenter_name : PyVal;
  cluster_name : PyVal;
  cpu_type : PyVal;
  storage_type : PyVal;
  data_domain_name : PyVal;
  export_domain_name : PyVal;
  data_domain_address : PyVal;
  export_domain_address : PyVal;
  data_domain_share_path : PyVal;
  export_domain_share_path : PyVal;
  cfme_install_loc : PyVal;
  cfme_root_password : PyVal;
  cfme_admin_password : PyVal;
  undercloud_address : PyVal
}.

(** The locators [create] builds before it visits the first page. *)
Record DynamicLocators : Type := {
  env_path_loc : Locator;
  rhev_setup_loc : Locator;
  rhevm_mac_loc : Locator;
  rhevh_mac_locs : list Locator;
  rhev_storage_type_loc : Locator;
  cfme_install_locator : Locator;
  rhsm_sat_radio_loc : Locator;
  sub_check_locs : list Locator;
  rhai_present_locator : Locator
}.

(** [[f(x) for x in xs]] for an [f] that may raise. *)
Fixpoint map_outcome {A B : Type} (f : A -> outcome B) (xs : list A)
    : outcome (list B) :=
  match xs with
  | [] => Ok []
  | x :: rest =>
      match f x with
      | Raise e => Raise e
      | Ok y =>
          match map_outcome f rest with
          | Raise e => Raise e
          | Ok ys => Ok (y :: ys)
          end
      end
  end.

Section Wizard.

Context {W : Type} `{Browser W} `{Clickable W}.
Variable locators : gmap string Locator.

Abbreviation Run := (M W Step).

(** A page written against [Base], as part of the wizard. *)
Definition page {A : Type} (m : M W Event A) : Run A :=
  fun w =>
    match m w with
    | (r, w', t) => (r, w', List.map Interaction t)
    end.

(** [self.wait_until_element_is_clickable(loc, timeout=...)] *)
Definition wait_until_element_is_clickable (loc : Locator)
    (timeout : option nat) : Run (option WebElement) :=
  fun w =>
    match base_wait_until_element_is_clickable loc timeout w with
    | (e, w') =>
        (Ok e, w', [EWaitClickable loc timeout (bool_decide (is_Some e))])
    end.

(** [print line] *)
Definition print (line : string) : Run unit :=
  fun w => (Ok tt, w, [EPrint line]).

(** [node[key]] *)
Definition item (node : gmap string PyVal) (key : string)
    : M W Event PyVal :=
  match node !! key with
  | Some v => ret v
  | None => raise (Exn KeyError key)
  end.

(** [self.text_field_update(locators[name], node[key])] *)
Definition update_from (name : string) (node : gmap string PyVal)
    (key : string) : M W Event unit :=
  l <- locator locators name ;;
  v <- item node key ;;
  text_field_update l v.

(** The loop of [_page_register_nodes] over
    [enumerate(overcloud_nodes)], from [node_num] on. *)
Fixpoint register_each (node_num : nat) (nodes : list (gmap string PyVal))
    : M W Event unit :=
  match nodes with
  | [] => ret tt
  | node :: rest =>
      (if Nat.ltb 0 node_num then click_named locators "rhci.node_add_node"
       else ret tt) ;;
      click_named locators "rhci.node_driver_select" ;;
      driver <- item node "driver" ;;
      l <- lift (interp_loc locators "rhci.node_driver_dropdown_item"
                   driver) ;;
      click l None ;;
      update_from "rhci.node_ip_address" node "ip_address" ;;
      update_from "rhci.node_ipmi_user" node "username" ;;
      update_from "rhci.node_ipmi_pass" node "password" ;;
      update_from "rhci.node_nic_mac_address" node "mac_address" ;;
      register_each (S node_num) rest
  end.

(** [RHCI._page_register_nodes] *)
Definition _page_register_nodes (overcloud_nodes : list (gmap string PyVal))
    : Run unit :=
  page (click_named locators "rhci.register_nodes") ;;
  page (register_each 0 overcloud_nodes) ;;
  page (click_named locators "node_register_nodes") ;;
  l <- page (locator locators "rhci.next") ;;
  wait_until_element_is_clickable l (Some 30) ;;
  page (click_named locators "rhci.next").

(** [RHCI._page_rhev_setup_type] *)
Definition _page_rhev_setup_type (rhev_setup_loc : Locator)
    (rhev_setup_type : PyVal) : Run unit :=
  e <- page (wait_until_element rhev_setup_loc None) ;;
  if bool_decide (is_Some e) then
    page (click rhev_setup_loc None) ;;
    page (click_named locators "rhci.next")
  else
    line <- lift (py_format "Can't find locator for rhev_setup_type: %s"
                    [py_str rhev_setup_type]) ;;
    print line ;;
    page (click_named locators "rhci.next").

(** The block "Build up dynamic locators" of [create]. *)
Definition dynamic_locators (a : CreateArgs) : outcome DynamicLocators :=
  match interp_loc locators "rhci.env_path" (env_path a) with
  | Raise e => Raise e
  | Ok env_path_loc =>
  match interp_loc locators "rhci.rhev_setup_type" (rhev_setup_type a) with
  | Raise e => Raise e
  | Ok rhev_setup_loc =>
  match interp_loc locators "rhci.engine_mac_radio" (rhevm_mac a) with
  | Raise e => Raise e
  | Ok rhevm_mac_loc =>
  match map_outcome (interp_loc locators "rhci.hypervisor_mac_check")
          (rhevh_macs a) with
  | Raise e => Raise e
  | Ok rhevh_mac_locs =>
  match interp_loc locators "rhci.storage_type" (storage_type a) with
  | Raise e => Raise e
  | Ok rhev_storage_type_loc =>
  match interp_loc locators "rhci.cfme_install_on" (cfme_install_loc a) with
  | Raise e => Raise e
  | Ok cfme_install_locator =>
  match interp_loc locators "rhci.rhsm_satellite_radio"
          (rhsm_satellite_uuid a) with
  | Raise e => Raise e
  | Ok rhsm_sat_radio_loc =>
  match map_outcome (interp_loc locators "rhci.subscription_check")
          (rhsm_subs a) with
  | Raise e => Raise e
  | Ok sub_check_locs =>
  match interp_loc locators "rhci.active_view"
          (PStr "1D. Access Insights") with
  | Raise e => Raise e
  | Ok rhai_present_locator =>
      Ok {| env_path_loc := env_path_loc;
            rhev_setup_loc := rhev_setup_loc;
            rhevm_mac_loc := rhevm_mac_loc;
            rhevh_mac_locs := rhevh_mac_locs;
            rhev_storage_type_loc := rhev_storage_type_loc;
            cfme_install_locator := cfme_install_locator;
            rhsm_sat_radio_loc := rhsm_sat_radio_loc;
            sub_check_locs := sub_check_locs;
            rhai_present_locator := rhai_present_locator |}
  end end end end end end end end end.

(** [x in products] *)
Definition has_product (x : string) (a : CreateArgs) : bool :=
  existsb (String.eqb x) (products a).

(** [RHCI.create] *)
Definition create (a : CreateArgs) : Run unit :=
  d <- lift (dynamic_locators a) ;;
  page (_page_software_selection locators (products a)) ;;
  page (_page_satellite_configuration locators (sat_name a) (sat_desc a)) ;;
  page (_page_lifecycle_environment locators (env_path_loc d) (env_path a)
          (update_lifecycle a)) ;;
  page (_page_access_insights locators (rhai_present_locator d)
          (enable_access_insights a)) ;;
  (if has_product "openstack" a then
     page (_page_discover_undercloud locators (undercloud_address a)
             (undercloud_user a) (undercloud_pass a)) ;;
     _page_register_nodes (overcloud_nodes a) ;;
     page (_page_assign_nodes locators)
   else ret tt) ;;
  (if has_product "rhev" a then
     _page_rhev_setup_type (rhev_setup_loc d) (rhev_setup_type a) ;;
     page (_page_rhev_engine_selection locators (rhevm_mac_loc d)) ;;
     page (_page_rhev_hypervisor_selection locators (rhevh_mac_locs d)) ;;
     page (_page_rhev_configuration locators (rhevm_adminpass a)
             (datacenter_name a) (cluster_name a) (cpu_type a)) ;;
     page (_page_rhev_storage_configuration locators
             (data_domain_name a) (data_domain_address a)
             (data_domain_share_path a) (export_domain_name a)
             (export_domain_address a) (export_domain_share_path a)
             (rhev_storage_type_loc d))
   else ret tt) ;;
  (if has_product "cloudforms" a then
     page (_page_cloudforms_configuration locators (cfme_install_locator d)
             (cfme_root_password a) (cfme_admin_password a))
   else ret tt) ;;
  page (_page_redhat_login locators (rhsm_username a) (rhsm_password a)) ;;
  page (_page_subscription_manager_apps locators (rhsm_sat_radio_loc d)) ;;
  page (_page_select_subscriptions locators (sub_check_locs d)) ;;
  page (_page_review_subscriptions locators) ;;
  page (_page_review_deployment locators).

End Wizard.

(** The names of the locators [create] builds from one value each. *)
Definition dynamic_names : list string :=
  [ "rhci.env_path"; "rhci.rhev_setup_type"; "rhci.engine_mac_radio";
    "rhci.storage_type"; "rhci.cfme_install_on";
    "rhci.rhsm_satellite_radio"; "rhci.active_view" ].

(** The clicks on [loc] of a run of pages. *)
Definition clicks_on (loc : Locator) (tr : list Event) : nat :=
  length (List.filter (fun l => bool_decide (l = loc)) (clicked tr)).

(** A node with all its entries. *)
Definition complete_node (node : gmap string PyVal) : Prop :=
  is_Some (node !! "driver")
  /\ is_Some (node !! "ip_address")
  /\ is_Some (node !! "username")
  /\ is_Some (node !! "password")
  /\ is_Some (node !! "mac_address").

(** A call of [create] with nothing to install and every value left out. *)
Definition no_args : CreateArgs :=
  {| sat_name := PNone; sat_desc := PNone; products := [];
     deploy_org := PNone; env_path := PNone; overcloud_nodes := [];
     rhevh_macs := []; rhevm_mac := PNone; undercloud_user := PNone;
     undercloud_pass := PNone; update_lifecycle := PNone;
     rhevh_hostname := PNone; rhevm_hostname := PNone;
     rhevm_adminpass := PNone; rhsm_username := PNone;
     rhsm_password := PNone; rhsm_satellite_uuid := PNone;
     rhsm_subs := []; rhev_setup_type := PNone;
     use_default_org_view := PBool false;
     enable_access_insights := PBool false;
     datacenter_name := PNone; cluster_name := PNone; cpu_type := PNone;
     storage_type := PNone; data_domain_name := PNone;
     export_domain_name := PNone; data_domain_address := PNone;
     export_domain_address := PNone; data_domain_share_path := PNone;
     export_domain_share_path := PNone; cfme_install_loc := PNone;
     cfme_root_password := PNone; cfme_admin_password := PNone;
     undercloud_address := PNone |}.

(** The locators of the Add Node link and of the driver selection in
    [wizard_locators]. *)
Definition add_node : Locator := ("xpath", "//a[.='Add Node']").
Definition driver_select : Locator := ("id", "node_driver").

(** The locator of a driver in the drop-down list of [wizard_locators]. *)
Definition driver_item (driver : PyVal) : Locator :=
  ("xpath",
   "//li[.='" +:+ (if truthy driver then py_str driver else "") +:+ "']").

(** A node of the overcloud. *)
Definition sample_node (ip : string) : gmap string PyVal :=
  list_to_map
    [ ("driver", PStr "pxe_ssh"); ("ip_address", PStr ip);
      ("username", PStr "admin"); ("password", PStr "secret");
      ("mac_address", PStr "52:54:00:00:00:01") ].

#[global] Instance fake_clickable : Clickable Fake := {
  base_wait_until_element_is_clickable loc timeout f :=
    (if fk_present f loc then Some 0 else None, f)
}.

End RhciWizard.

(* ===================================================================== *)
(** * robottelo/cli/gpgkey.py                                             *)
(* ===================================================================== *)

Module Gpgkey.

(** A parsed CSV row: column name to cell. *)
Abbreviation Row := (gmap string string).

(** The result object of [Base.execute]. *)
Record Result (S : Type) : Type := {
  return_code : Z;
  stdout : S;
  stderr : string
}.
Arguments return_code {S} _.
Arguments stdout {S} _.
Arguments stderr {S} _.

(** [stdout] as [exists] leaves it: the (empty) list it received, or the
    one row it picked. *)
Inductive Stdout : Type :=
  | Rows (rows : list Row)
  | OneRow (row : Row).

(** Number of records an output holds. *)
Definition records (out : Stdout) : nat :=
  match out with
  | Rows rows => length rows
  | OneRow _ => 1
  end.

Definition dquote : ascii := "034"%char.

(** The format string of the search criteria: [%s:"%s"]. *)
Definition search_format : string :=
  "%s:" +:+ String dquote ("%s" +:+ String dquote "").

Section Cli.

(** [Base.execute(command, expect_csv=...)] and [Base._construct_command]
    belong to [robottelo.cli.base], outside the modelled sources.  With
    [expect_csv=True] the standard output comes back as a list of rows.
    [_construct_command] reads [cls.command_base] and [cls.command_sub],
    passed here as arguments. *)
Variable execute : string -> bool -> Result (list Row).
Variable _construct_command : string -> string -> gmap string PyVal -> string.

Definition command_base : string := "gpg".

(** The options [GPGKey.list] hands to [_construct_command]:
<<
    if options is None:
        options = {}
        options['per-page'] = 10000
    options['organization-id'] = organization_id
>>
    A dictionary given by the caller is updated in place; the callers
    modelled here do not look at it afterwards. *)
Definition list_options (organization_id : PyVal)
    (options : option (gmap string PyVal)) : gmap string PyVal :=
  let options :=
    match options with
    | None => <["per-page" := PInt 10000]> ∅
    | Some options => options
    end in
  <["organization-id" := organization_id]> options.

(** [GPGKey.list] *)
Definition GPGKey_list (organization_id : PyVal)
    (options : option (gmap string PyVal)) : Result (list Row) :=
  let command_sub := "list" in
  execute
    (_construct_command command_base command_sub
       (list_options organization_id options))
    true.

(** The options [GPGKey.exists] builds before calling [list]:
<<
    options = {}
    if tuple_search:
        search_criteria = "%s:\"%s\"" % (tuple_search[0], tuple_search[1])
        options["search"] = search_criteria
>>
*)
Definition exists_options (tuple_search : option (string * string))
    : outcome (gmap string PyVal) :=
  match tuple_search with
  | Some (key, value) =>
      match py_format search_format [key; value] with
      | Ok search_criteria => Ok (<["search" := PStr search_criteria]> ∅)
      | Raise e => Raise e
      end
  | None => Ok ∅
  end.

(** [GPGKey.exists] *)
Definition GPGKey_exists (organization_id : PyVal)
    (tuple_search : option (string * string)) : outcome (Result Stdout) :=
  match exists_options tuple_search with
  | Raise e => Raise e
  | Ok options =>
      let result := GPGKey_list organization_id (Some options) in
      Ok {| return_code := return_code result;
            stdout :=
              match stdout result with
              | [] => Rows []
              | row :: _ => OneRow row
              end;
            stderr := stderr result |}
  end.

End Cli.

End Gpgkey.

(* ===================================================================== *)
(** * lib/content.py                                                      *)
(* ===================================================================== *)

Module Content.

Definition WebElement : Type := nat.

(** What a Python variable of the page object may hold. *)
Inductive Obj : Type :=
  | ONone
  | OStr (s : string)
  | OElem (e : WebElement).

Definition of_element (o : option WebElement) : Obj :=
  match o with Some e => OElem e | None => ONone end.

(** The selenium driver and the helpers of [common] the page object is
    written against; none of them is part of the modelled sources.
    [drv_wait_until_element] is [common.wait_until_element(driver, xpath,
    By.XPATH)], which gives the element or [None]; [drv_hover e] is
    [ActionChains(driver).move_to_element(e).perform()]; [drv_repr e] is
    [repr(e)], which is [str(e)] as well, a [WebElement] having no
    [__str__] of its own. *)
Class Driver (W : Type) : Type := {
  drv_select_tab : string -> W -> bool * W;
  drv_wait_until_element : string -> W -> option WebElement * W;
  drv_find_elements_by_xpath : string -> W -> list WebElement;
  drv_find_element_by_xpath :
    WebElement -> string -> W -> outcome WebElement;
  drv_text : WebElement -> W -> string;
  drv_get_attribute : WebElement -> string -> W -> option string;
  drv_click : WebElement -> W -> outcome unit * W;
  drv_send_keys : WebElement -> Obj -> W -> outcome unit * W;
  drv_hover : option WebElement -> W -> outcome unit * W;
  drv_get : string -> W -> outcome unit * W;
  drv_current_url : W -> string;
  drv_base_url : string;
  drv_get_manifest_file : string -> string;
  drv_repr : WebElement -> string
}.

(** The constants of [locators], defined outside the modelled sources. *)
Record Locators : Type := {
  HEADER_CONTENT_MANAGEMENT : string;
  SUB_HEADER_CONTENT_PROVIDER : string;
  PROVIDER : string;
  CUSTOM_PROVIDERS : string;
  REDHAT_PROVIDERS : string;
  PROVIDERS : string;
  PROVIDER_BY_TITLE : string;
  PRODUCTS : string;
  PRODUCT : string;
  PRODUCT_ID : string;
  PROVIDER_NAME_FIELD : string;
  PROVIDER_DESCRIPTION_FIELD : string;
  PROVIDER_SAVE_BUTTON : string;
  PROVIDER_REMOVE_LINK : string;
  YES_BUTTON : string;
  NEW_PRODUCT_BUTTON : string;
  PRODUCT_NAME_FIELD : string;
  PRODUCT_DESCRIPTION_FIELD : string;
  PRODUCT_SAVE_BUTTON : string;
  PRODUCT_REMOVE_LINK : string;
  MANIFEST_FILE_FIELD : string;
  MANIFEST_FORCE_CHECKBOX : string;
  MANIFEST_SAVE_BUTTON : string;
  SUBSCRIPTIONS : string;
  ENABLE_REPOS_TAB : string;
  RHEL_PRODUCT : string;
  RHEL_PRODUCT_ID : string;
  RHEL_PRODUCT_VERSION : string;
  RHEL_PRODUCT_ARCH : string;
  RHEL_PRODUCT_REPO : string
}.

(** The interactions with the page, in order. *)
Inductive Event : Type :=
  | ETab (header : string) (ok : bool)
  | EWait (xpath : string) (found : bool)
  | EHover (r : outcome unit)
  | EClick (e : WebElement) (r : outcome unit)
  | ESendKeys (e : WebElement) (keys : Obj) (r : outcome unit)
  | EGet (url : string) (r : outcome unit).

(** [s.split(sep)] for a separator of one character. *)
Fixpoint split_on (sep : ascii) (s : string) : list string :=
  match s with
  | EmptyString => [""]
  | String c rest =>
      let parts := split_on sep rest in
      if Ascii.eqb c sep then "" :: parts
      else
        match parts with
        | [] => [String c ""]
        | p :: ps => String c p :: ps
        end
  end.

Section PageObject.

Context {W : Type} `{Driver W}.
Variable L : Locators.

Abbreviation Act := (M W Event).

(** *** Primitive steps *)

Definition select_tab (header : string) : Act bool :=
  fun w =>
    match drv_select_tab header w with
    | (ok, w') => (Ok ok, w', [ETab header ok])
    end.

Definition wait_until_element (xpath : string) : Act (option WebElement) :=
  fun w =>
    match drv_wait_until_element xpath w with
    | (e, w') => (Ok e, w', [EWait xpath (bool_decide (is_Some e))])
    end.

Definition hover (e : option WebElement) : Act unit :=
  fun w =>
    match drv_hover e w with
    | (r, w') => (r, w', [EHover r])
    end.

(** [o.click()]; calling it on [None] is an [AttributeError]. *)
Definition click (o : option WebElement) : Act unit :=
  match o with
  | None =>
      raise (Exn AttributeError "'NoneType' object has no attribute 'click'")
  | Some e =>
      fun w =>
        match drv_click e w with
        | (r, w') => (r, w', [EClick e r])
        end
  end.

(** [o.send_keys(keys)] *)
Definition send_keys (o : option WebElement) (keys : Obj) : Act unit :=
  match o with
  | None =>
      raise (Exn AttributeError
               "'NoneType' object has no attribute 'send_keys'")
  | Some e =>
      fun w =>
        match drv_send_keys e keys w with
        | (r, w') => (r, w', [ESendKeys e keys r])
        end
  end.

(** [o.get_attribute(name)] *)
Definition get_attribute (o : option WebElement) (name : string)
    : Act (option string) :=
  match o with
  | None =>
      raise (Exn AttributeError
               "'NoneType' object has no attribute 'get_attribute'")
  | Some e => fun w => (Ok (drv_get_attribute e name w), w, [])
  end.

Definition navigate (url : string) : Act unit :=
  fun w =>
    match drv_get url w with
    | (r, w') => (r, w', [EGet url r])
    end.

Definition current_url : Act string :=
  fun w => (Ok (drv_current_url w), w, []).

Definition find_elements_by_xpath (xpath : string) : Act (list WebElement) :=
  fun w => (Ok (drv_find_elements_by_xpath xpath w), w, []).

Definition find_element_by_xpath (e : WebElement) (xpath : string)
    : Act WebElement :=
  fun w => (drv_find_element_by_xpath e xpath w, w, []).

Definition text (e : WebElement) : Act string :=
  fun w => (Ok (drv_text e w), w, []).

(** [fmt % args] *)
Definition format (fmt : string) (args : list string) : Act string :=
  lift (py_format fmt args).

(** [str(o)] *)
Definition obj_str (o : Obj) : string :=
  match o with
  | ONone => "None"
  | OStr s => s
  | OElem e => drv_repr e
  end.

Definition opt_str (o : option string) : string :=
  match o with None => "None" | Some s => s end.

(** *** [robot.utils.asserts] *)

Definition fail (msg : string) : Act unit := raise (Exn AssertionError msg).

(** [fail_if_none(obj, msg)] fails with ['%s: is None' % msg]. *)
Definition fail_if_none {A} (o : option A) (msg : string) : Act unit :=
  match o with None => fail (msg +:+ ": is None") | Some _ => ret tt end.

(** [fail_unless_none(obj, msg)] fails with ['%s: %r is not None' % (msg,
    obj)]. *)
Definition fail_unless_none (o : option WebElement) (msg : string)
    : Act unit :=
  match o with
  | None => ret tt
  | Some e => fail (msg +:+ ": " +:+ drv_repr e +:+ " is not None")
  end.

Definition assert_true (b : bool) (msg : string) : Act unit :=
  if b then ret tt else fail msg.

(** *** The page object *)

(** [content.go_to_content_tab] *)
Definition go_to_content_tab : Act bool :=
  select_tab (HEADER_CONTENT_MANAGEMENT L).

(** The address the handler of [select_content_provider] falls back to:
<<
    if "custom" in content_provider_type:
        url = self.base.driver.current_url
    elif "redhat" in content_provider_type:
        url = "%s/redhat_provider" % self.base.driver.current_url
    elif "filters" in content_provider_type:
        url = "%s/filters" % self.base.base_url
    else:
        url = "%s/gpg_keys" % self.base.base_url
>>
*)
Definition fallback_url (content_provider_type : string) : Act string :=
  if str_contains "custom" content_provider_type then current_url
  else if str_contains "redhat" content_provider_type then
    url <- current_url ;; format "%s/redhat_provider" [url]
  else if str_contains "filters" content_provider_type then
    format "%s/filters" [drv_base_url]
  else format "%s/gpg_keys" [drv_base_url].

(** The body of the [try] block of [select_content_provider]: the native
    hover over the Content Providers link and click on the provider type.
    [move_to_element] returns the action chain itself, so the
    [fail_if_none] on [hover] cannot fire. *)
Definition native_interaction (content_provider_link : option WebElement)
    (content_provider_type : string) : Act unit :=
  hover content_provider_link ;;
  xpath <- format (PROVIDER L) [content_provider_type] ;;
  provider <- wait_until_element xpath ;;
  fail_if_none provider "Could not locate the content provider type." ;;
  click provider.

(** [content.select_content_provider] *)
Definition select_content_provider (content_provider_type : string)
    : Act unit :=
  content_provider_link <-
    wait_until_element (SUB_HEADER_CONTENT_PROVIDER L) ;;
  try_except
    (native_interaction content_provider_link content_provider_type)
    [ (WebDriverException,
       fun e => url <- fallback_url content_provider_type ;; navigate url);
      (NoSuchElementException,
       fun e =>
         msg <- format "Could not select the '%s' content type"
                  [content_provider_type] ;;
         fail msg) ].

(** [name in s]: the left operand has to be a string. *)
Definition obj_in (name : Obj) (s : string) : Act bool :=
  match name with
  | OStr n => ret (str_contains n s)
  | _ =>
      raise (Exn TypeError "'in <string>' requires string as left operand")
  end.

(** The loop of [_get_provider_by_name]. *)
Fixpoint provider_loop (name : Obj) (providers : list WebElement)
    : Act (option WebElement * option string) :=
  match providers with
  | [] => ret (None, None)
  | provider :: rest =>
      xpath <- format (PROVIDER_BY_TITLE L) [obj_str name] ;;
      we <- find_element_by_xpath provider xpath ;;
      t <- text we ;;
      found <- obj_in name t ;;
      if found then
        id <- get_attribute (Some provider) "id" ;;
        match id with
        | None =>
            raise (Exn AttributeError
                     "'NoneType' object has no attribute 'split'")
        | Some id => ret (Some we, Some (List.last (split_on "_" id) ""))
        end
      else provider_loop name rest
  end.

(** [content._get_provider_by_name] *)
Definition _get_provider_by_name (name : Obj)
    : Act (option WebElement * option string) :=
  providers <- find_elements_by_xpath (PROVIDERS L) ;;
  provider_loop name providers.

(** The loop of [_get_product_by_name]. *)
Fixpoint product_loop (name : Obj) (products : list WebElement)
    : Act (option WebElement * option string) :=
  match products with
  | [] => ret (None, None)
  | product :: rest =>
      we <- find_element_by_xpath product (PRODUCT L) ;;
      t <- text we ;;
      found <- obj_in name t ;;
      if found then
        we_id <- find_element_by_xpath product (PRODUCT_ID L) ;;
        url <- get_attribute (Some we_id) "data-url" ;;
        match url with
        | None =>
            raise (Exn AttributeError
                     "'NoneType' object has no attribute 'split'")
        | Some url =>
            match split_on "/" url !! 5 with
            | None => raise (Exn IndexError "list index out of range")
            | Some id => ret (Some we, Some id)
            end
        end
      else product_loop name rest
  end.

(** [content._get_product_by_name] *)
Definition _get_product_by_name (name : Obj)
    : Act (option WebElement * option string) :=
  products <- find_elements_by_xpath (PRODUCTS L) ;;
  product_loop name products.

(** [content.add_custom_provider].  The parameter [provider_name] is
    rebound to the Name field before it is typed, so what is typed and what
    is looked up afterwards is that element. *)
Definition add_custom_provider (provider_name : string) : Act unit :=
  tab <- go_to_content_tab ;;
  assert_true tab "Could not access the Content Management tab." ;;
  select_content_provider (CUSTOM_PROVIDERS L) ;;
  found <- _get_provider_by_name (OStr provider_name) ;;
  let '(provider, provider_id) := found in
  fail_unless_none provider "Found a provider with that name already." ;;
  new_provider_link <- wait_until_element "//a[@id='new']" ;;
  fail_if_none new_provider_link "Failed to locate the New Provider link." ;;
  click new_provider_link ;;
  provider_name <- wait_until_element (PROVIDER_NAME_FIELD L) ;;
  fail_if_none provider_name "Failed to locate the provider Name field." ;;
  send_keys provider_name (of_element provider_name) ;;
  provider_description <-
    wait_until_element (PROVIDER_DESCRIPTION_FIELD L) ;;
  fail_if_none provider_description
    "Failed to locate the provider Description field." ;;
  send_keys provider_description
    (OStr "Automatically created by Robottelo.") ;;
  provider_save <- wait_until_element (PROVIDER_SAVE_BUTTON L) ;;
  fail_if_none provider_save "Could not locate the Save button." ;;
  click provider_save ;;
  found <- _get_provider_by_name (of_element provider_name) ;;
  let '(provider, provider_id) := found in
  msg <- format "Could not locate the '%s' provider."
           [obj_str (of_element provider_name)] ;;
  fail_if_none provider msg.

(** [content.delete_custom_provider] *)
Definition delete_custom_provider (provider_name : string) : Act unit :=
  tab <- go_to_content_tab ;;
  assert_true tab "Could not access the Content Management tab." ;;
  select_content_provider (CUSTOM_PROVIDERS L) ;;
  found <- _get_provider_by_name (OStr provider_name) ;;
  let '(provider, provider_id) := found in
  msg <- format "Could not locate the '%s' provider." [provider_name] ;;
  fail_if_none provider msg ;;
  click provider ;;
  xpath <- format (PROVIDER_REMOVE_LINK L) [opt_str provider_id] ;;
  remove_link <- wait_until_element xpath ;;
  click remove_link ;;
  yes_button <- wait_until_element (YES_BUTTON L) ;;
  fail_if_none yes_button "Could not find the Yes button to remove role." ;;
  click yes_button ;;
  select_content_provider (CUSTOM_PROVIDERS L) ;;
  found <- _get_provider_by_name (OStr provider_name) ;;
  let '(provider, provider_id) := found in
  fail_unless_none provider "Found a provider with that name already.".

(** [content.add_product_to_provider] *)
Definition add_product_to_provider (provider_name product_name : string)
    : Act unit :=
  tab <- go_to_content_tab ;;
  assert_true tab "Could not access the Content Management tab." ;;
  select_content_provider (CUSTOM_PROVIDERS L) ;;
  found <- _get_provider_by_name (OStr provider_name) ;;
  let '(provider, provider_id) := found in
  msg <- format "Could not locate the '%s' provider." [provider_name] ;;
  fail_if_none provider msg ;;
  click provider ;;
  found <- _get_product_by_name (OStr product_name) ;;
  let '(product, product_id) := found in
  fail_unless_none product "Found a provider with that name already." ;;
  add_product_button <- wait_until_element (NEW_PRODUCT_BUTTON L) ;;
  fail_if_none add_product_button
    "Could not locate the Add Product button." ;;
  click add_product_button ;;
  product_name_field <- wait_until_element (PRODUCT_NAME_FIELD L) ;;
  send_keys product_name_field (OStr product_name) ;;
  product_description_field <-
    wait_until_element (PRODUCT_DESCRIPTION_FIELD L) ;;
  send_keys product_description_field
    (OStr "Automatically created by Robottelo.") ;;
  create_button <- wait_until_element (PRODUCT_SAVE_BUTTON L) ;;
  click create_button ;;
  found <- _get_product_by_name (OStr product_name) ;;
  let '(product, product_id) := found in
  msg <- format "Could not locate the '%s' product." [product_name] ;;
  fail_if_none product msg.

(** [content.delete_product_from_provider] *)
Definition delete_product_from_provider (provider_name product_name : string)
    : Act unit :=
  tab <- go_to_content_tab ;;
  assert_true tab "Could not access the Content Management tab." ;;
  select_content_provider (CUSTOM_PROVIDERS L) ;;
  found <- _get_provider_by_name (OStr provider_name) ;;
  let '(provider, provider_id) := found in
  msg <- format "Could not locate the '%s' provider." [provider_name] ;;
  fail_if_none provider msg ;;
  click provider ;;
  found <- _get_product_by_name (OStr product_name) ;;
  let '(product, product_id) := found in
  msg <- format "Could not locate the '%s' product." [product_name] ;;
  fail_if_none product msg ;;
  click product ;;
  xpath <- format (PRODUCT_REMOVE_LINK L) [opt_str provider_id] ;;
  remove_link <- wait_until_element xpath ;;
  fail_if_none remove_link "Failed to locate the Remove Product link." ;;
  click remove_link ;;
  yes_button <- wait_until_element (YES_BUTTON L) ;;
  fail_if_none yes_button "Could not find the Yes button to remove role." ;;
  click yes_button ;;
  found <- _get_product_by_name (OStr product_name) ;;
  let '(product, product_id) := found in
  fail_unless_none product "Found a provider with that name already.".

(** [content.red_hat_provider] *)
Definition red_hat_provider (manifest : string) (force : bool) : Act unit :=
  tab <- go_to_content_tab ;;
  assert_true tab "Could not access the Content Management tab." ;;
  select_content_provider (REDHAT_PROVIDERS L) ;;
  let manifest_file := drv_get_manifest_file manifest in
  manifest_field <- wait_until_element (MANIFEST_FILE_FIELD L) ;;
  fail_if_none manifest_field "Could not locate the manifest field." ;;
  send_keys manifest_field (OStr manifest_file) ;;
  (if force then
     force_checkbox <- wait_until_element (MANIFEST_FORCE_CHECKBOX L) ;;
     fail_if_none force_checkbox "Could not locate the Force checkbox." ;;
     click force_checkbox
   else ret tt) ;;
  submit_button <- wait_until_element (MANIFEST_SAVE_BUTTON L) ;;
  click submit_button ;;
  subscriptions <- wait_until_element (SUBSCRIPTIONS L) ;;
  fail_if_none subscriptions "Could not find a subscription.".

(** [content.enable_repository] *)
Definition enable_repository (product version arch component : string)
    : Act unit :=
  tab <- go_to_content_tab ;;
  assert_true tab "Could not access the Content Management tab." ;;
  select_content_provider (REDHAT_PROVIDERS L) ;;
  enable_repos_tab <- wait_until_element (ENABLE_REPOS_TAB L) ;;
  fail_if_none enable_repos_tab "Could not locate the Enable Repo tab." ;;
  click enable_repos_tab ;;
  xpath <- format (RHEL_PRODUCT L) [product] ;;
  product_span <- wait_until_element xpath ;;
  msg <- format "Could not locate the '%s' product." [product] ;;
  fail_if_none product_span msg ;;
  xpath <- format (RHEL_PRODUCT_ID L) [product] ;;
  product_node <- wait_until_element xpath ;;
  product_id <- get_attribute product_node "id" ;;
  click product_span ;;
  xpath <- format (RHEL_PRODUCT_VERSION L) [opt_str product_id; version] ;;
  version_span <- wait_until_element xpath ;;
  msg <- format "Could not locate the '%s' version." [version] ;;
  fail_if_none version_span msg ;;
  click version_span ;;
  xpath <- format (RHEL_PRODUCT_ARCH L) [opt_str product_id; version; arch] ;;
  arch_span <- wait_until_element xpath ;;
  msg <- format "Could not locate the '%s' arch." [arch] ;;
  fail_if_none arch_span msg ;;
  click arch_span ;;
  xpath <- format (RHEL_PRODUCT_REPO L)
             [opt_str product_id; version; arch; component] ;;
  repo <- wait_until_element xpath ;;
  msg <- format "Could not locate the repository '%s'." [component] ;;
  fail_if_none repo msg ;;
  click repo.

End PageObject.

(** ** A static page

    A page that answers every lookup from fixed tables and whose
    interactions have fixed outcomes; it does not change while it is used. *)
Record Page : Type := {
  pg_tab : bool;
  pg_present : list (string * WebElement);
  pg_elements : list (string * list WebElement);
  pg_children : list (WebElement * string * WebElement);
  pg_text : list (WebElement * string);
  pg_attributes : list (WebElement * string * string);
  pg_hover : outcome unit;
  pg_click : outcome unit;
  pg_url : string
}.

Fixpoint assoc {A : Type} (key : string) (table : list (string * A))
    : option A :=
  match table with
  | [] => None
  | (k, a) :: rest => if String.eqb k key then Some a else assoc key rest
  end.

Fixpoint assoc2 {A : Type} (e : WebElement) (key : string)
    (table : list (WebElement * string * A)) : option A :=
  match table with
  | [] => None
  | (e', k, a) :: rest =>
      if Nat.eqb e' e && String.eqb k key then Some a else assoc2 e key rest
  end.

Fixpoint text_of (e : WebElement) (table : list (WebElement * string))
    : string :=
  match table with
  | [] => ""
  | (e', s) :: rest => if Nat.eqb e' e then s else text_of e rest
  end.

#[global] Instance page_driver : Driver Page := {
  drv_select_tab header p := (pg_tab p, p);
  drv_wait_until_element xpath p := (assoc xpath (pg_present p), p);
  drv_find_elements_by_xpath xpath p :=
    match assoc xpath (pg_elements p) with Some l => l | None => [] end;
  drv_find_element_by_xpath e xpath p :=
    match assoc2 e xpath (pg_children p) with
    | Some c => Ok c
    | None => Raise (Exn NoSuchElementException xpath)
    end;
  drv_text e p := text_of e (pg_text p);
  drv_get_attribute e name p := assoc2 e name (pg_attributes p);
  drv_click e p := (pg_click p, p);
  drv_send_keys e keys p := (Ok tt, p);
  drv_hover e p := (pg_hover p, p);
  drv_get url p := (Ok tt, p);
  drv_current_url p := pg_url p;
  drv_base_url := "https://server.example.com";
  drv_get_manifest_file manifest := "/tmp/" +:+ manifest;
  drv_repr e := "<WebElement>"
}.

(** Locators for the scenarios; the expressions are illustrative. *)
Definition sample_locators : Locators :=
  {| HEADER_CONTENT_MANAGEMENT := "//a[.='Content Management']";
     SUB_HEADER_CONTENT_PROVIDER := "//a[.='Content Providers']";
     PROVIDER := "//a[contains(@href,'%s')]";
     CUSTOM_PROVIDERS := "custom";
     REDHAT_PROVIDERS := "redhat";
     PROVIDERS := "//div[contains(@id,'provider_')]";
     PROVIDER_BY_TITLE := ".//div[@title='%s']";
     PRODUCTS := "//div[contains(@id,'product_')]";
     PRODUCT := ".//span[@class='product']";
     PRODUCT_ID := ".//a[@data-url]";
     PROVIDER_NAME_FIELD := "//input[@id='provider_name']";
     PROVIDER_DESCRIPTION_FIELD := "//textarea[@id='provider_description']";
     PROVIDER_SAVE_BUTTON := "//input[@id='provider_save']";
     PROVIDER_REMOVE_LINK := "//a[@data-url='/providers/%s']";
     YES_BUTTON := "//button[.='Yes']";
     NEW_PRODUCT_BUTTON := "//a[@id='add_product']";
     PRODUCT_NAME_FIELD := "//input[@id='product_name']";
     PRODUCT_DESCRIPTION_FIELD := "//textarea[@id='product_description']";
     PRODUCT_SAVE_BUTTON := "//input[@id='product_save']";
     PRODUCT_REMOVE_LINK := "//a[@data-url='/providers/%s/products']";
     MANIFEST_FILE_FIELD := "//input[@id='provider_contents']";
     MANIFEST_FORCE_CHECKBOX := "//input[@id='force_import']";
     MANIFEST_SAVE_BUTTON := "//input[@id='upload_button']";
     SUBSCRIPTIONS := "//table[@id='redhatSubscriptionTable']";
     ENABLE_REPOS_TAB := "//a[.='Enable Repositories']";
     RHEL_PRODUCT := "//span[.='%s']";
     RHEL_PRODUCT_ID := "//span[.='%s']/..";
     RHEL_PRODUCT_VERSION := "//li[@id='%s']//span[.='%s']";
     RHEL_PRODUCT_ARCH := "//li[@id='%s']//li[.='%s']//span[.='%s']";
     RHEL_PRODUCT_REPO :=
       "//li[@id='%s']//li[.='%s']//li[.='%s']//label[.='%s']" |}.

(** The custom providers page listing the provider ACME (element 11 inside
    the block 10 with id [provider_39]); the remove link of the provider
    does not show up. *)
Definition page_without_remove_link : Page :=
  {| pg_tab := true;
     pg_present :=
       [ ("//a[.='Content Providers']", 1);
         ("//a[contains(@href,'custom')]", 2);
         ("//button[.='Yes']", 3) ];
     pg_elements := [ ("//div[contains(@id,'provider_')]", [10]) ];
     pg_children := [ (10, ".//div[@title='ACME']", 11) ];
     pg_text := [ (11, "ACME") ];
     pg_attributes := [ (10, "id", "provider_39") ];
     pg_hover := Ok tt;
     pg_click := Ok tt;
     pg_url := "https://server.example.com/providers" |}.


End Content.

(** ** Notions used to state properties of the page object *)

Module ContentNotions.

Import Content.

(** [c] occurs in [s]. *)
Fixpoint occurs (c : ascii) (s : string) : bool :=
  match s with
  | EmptyString => false
  | String d rest => Ascii.eqb d c || occurs c rest
  end.

(** The [AttributeError] of a click or of typing on [None]. *)
Definition null_call (e : exn) : Prop :=
  e = Exn AttributeError "'NoneType' object has no attribute 'click'"
  \/ e = Exn AttributeError "'NoneType' object has no attribute 'send_keys'".

(** [m] never ends in the [AttributeError] of an interaction with [None]. *)
Definition null_safe {W A : Type} (m : M W Event A) : Prop :=
  forall (w w' : W) (e : exn) (t : list Event),
    m w = (Raise e, w', t) -> ~ null_call e.

(** The [AttributeError] of a method the page object calls on an element
    it has waited for, when that element is [None]. *)
Definition none_call (e : exn) : Prop :=
  e = Exn AttributeError "'NoneType' object has no attribute 'click'"
  \/ e = Exn AttributeError "'NoneType' object has no attribute 'send_keys'"
  \/ e = Exn AttributeError
           "'NoneType' object has no attribute 'get_attribute'".

(** [m] never ends in an exception of the kind [P]. *)
Definition safe_for {W A : Type} (P : exn -> Prop) (m : M W Event A)
    : Prop :=
  forall (w w' : W) (e : exn) (t : list Event),
    m w = (Raise e, w', t) -> ~ P e.

(** The driver itself raises no exception of the kind [P]; it is free to
    raise anything else, whatever it is asked to do. *)
Definition driver_raises_no {W : Type} `{Driver W} (P : exn -> Prop)
    : Prop :=
  (forall e w x w', drv_click e w = (Raise x, w') -> ~ P x)
  /\ (forall e k w x w', drv_send_keys e k w = (Raise x, w') -> ~ P x)
  /\ (forall o w x w', drv_hover o w = (Raise x, w') -> ~ P x)
  /\ (forall u w x w', drv_get u w = (Raise x, w') -> ~ P x)
  /\ (forall e p w x, drv_find_element_by_xpath e p w = Raise x -> ~ P x).

(** A page on which everything asked for is found and every interaction
    succeeds, for the operations on the Red Hat provider. *)
Definition page_of_redhat : Page :=
  {| pg_tab := true;
     pg_present :=
       [ ("//a[.='Content Providers']", 1);
         ("//a[contains(@href,'redhat')]", 2);
         ("//a[.='Enable Repositories']", 3);
         ("//span[.='RHEL']", 4);
         ("//span[.='RHEL']/..", 5);
         ("//li[@id='rhel_7']//span[.='6Server']", 6);
         ("//li[@id='rhel_7']//li[.='6Server']//span[.='x86_64']", 7);
         ("//li[@id='rhel_7']//li[.='6Server']//li[.='x86_64']//label[.='os']",
          8) ];
     pg_elements := [];
     pg_children := [];
     pg_text := [];
     pg_attributes := [ (5, "id", "rhel_7") ];
     pg_hover := Ok tt;
     pg_click := Ok tt;
     pg_url := "https://server.example.com/providers" |}.

(** The Red Hat provider page without the button that submits the
    manifest. *)
Definition page_without_save_button : Page :=
  {| pg_tab := true;
     pg_present :=
       [ ("//a[.='Content Providers']", 1);
         ("//a[contains(@href,'redhat')]", 2);
         ("//input[@id='provider_contents']", 3);
         ("//input[@id='force_import']", 4) ];
     pg_elements := [];
     pg_children := [];
     pg_text := [];
     pg_attributes := [];
     pg_hover := Ok tt;
     pg_click := Ok tt;
     pg_url := "https://server.example.com/providers" |}.

(** The page of the provider ACME with the Add Product button, on which
    the form for the new product does not show up. *)
Definition page_without_product_form : Page :=
  {| pg_tab := true;
     pg_present :=
       [ ("//a[.='Content Providers']", 1);
         ("//a[contains(@href,'custom')]", 2);
         ("//a[@id='add_product']", 3) ];
     pg_elements := [ ("//div[contains(@id,'provider_')]", [10]) ];
     pg_children := [ (10, ".//div[@title='ACME']", 11) ];
     pg_text := [ (11, "ACME") ];
     pg_attributes := [ (10, "id", "provider_39") ];
     pg_hover := Ok tt;
     pg_click := Ok tt;
     pg_url := "https://server.example.com/providers" |}.

(** The products of a provider: Zoo, with the address of its edit form. *)
Definition page_with_product : Page :=
  {| pg_tab := true;
     pg_present := [];
     pg_elements := [ ("//div[contains(@id,'product_')]", [20]) ];
     pg_children :=
       [ (20, ".//span[@class='product']", 21);
         (20, ".//a[@data-url]", 22) ];
     pg_text := [ (21, "Zoo") ];
     pg_attributes :=
       [ (22, "data-url", "/cfse/providers/39/products/13/edit") ];
     pg_hover := Ok tt;
     pg_click := Ok tt;
     pg_url := "https://server.example.com/providers/39" |}.

(** The Red Hat provider page with the product RHEL but without the
    node that carries its id. *)
Definition page_without_product_node : Page :=
  {| pg_tab := true;
     pg_present :=
       [ ("//a[.='Content Providers']", 1);
         ("//a[contains(@href,'redhat')]", 2);
         ("//a[.='Enable Repositories']", 3);
         ("//span[.='RHEL']", 4) ];
     pg_elements := [];
     pg_children := [];
     pg_text := [];
     pg_attributes := [];
     pg_hover := Ok tt;
     pg_click := Ok tt;
     pg_url := "https://server.example.com/providers" |}.

(** The page of the provider ACME with its product Zoo, on which the link
    that removes the product does not show up. *)
Definition page_without_product_link : Page :=
  {| pg_tab := true;
     pg_present :=
       [ ("//a[.='Content Providers']", 1);
         ("//a[contains(@href,'custom')]", 2) ];
     pg_elements :=
       [ ("//div[contains(@id,'provider_')]", [10]);
         ("//div[contains(@id,'product_')]", [20]) ];
     pg_children :=
       [ (10, ".//div[@title='ACME']", 11);
         (20, ".//span[@class='product']", 21);
         (20, ".//a[@data-url]", 22) ];
     pg_text := [ (11, "ACME"); (21, "Zoo") ];
     pg_attributes :=
       [ (10, "id", "provider_39");
         (22, "data-url", "/cfse/providers/39/products/13/edit") ];
     pg_hover := Ok tt;
     pg_click := Ok tt;
     pg_url := "https://server.example.com/providers" |}.

(** A driver over static pages whose clicks succeed and whose hover needs
    an element to move to: on [None] it fails as the action chain does,
    reading the id of the element. *)
Definition strict_driver : Driver Page := {|
  drv_select_tab header p := (pg_tab p, p);
  drv_wait_until_element xpath p := (assoc xpath (pg_present p), p);
  drv_find_elements_by_xpath xpath p :=
    match assoc xpath (pg_elements p) with Some l => l | None => [] end;
  drv_find_element_by_xpath e xpath p :=
    match assoc2 e xpath (pg_children p) with
    | Some c => Ok c
    | None => Raise (Exn NoSuchElementException xpath)
    end;
  drv_text e p := text_of e (pg_text p);
  drv_get_attribute e name p := assoc2 e name (pg_attributes p);
  drv_click e p := (Ok tt, p);
  drv_send_keys e keys p := (Ok tt, p);
  drv_hover o p :=
    match o with
    | Some _ => (Ok tt, p)
    | None =>
        (Raise (Exn AttributeError
                  "'NoneType' object has no attribute 'id'"), p)
    end;
  drv_get url p := (Ok tt, p);
  drv_current_url p := pg_url p;
  drv_base_url := "https://server.example.com";
  drv_get_manifest_file manifest := "/tmp/" +:+ manifest;
  drv_repr e := "<WebElement>"
|}.

End ContentNotions.

(* ===================================================================== *)
(** * robottelo/datafactory.py                                            *)
(* ===================================================================== *)

Module Datafactory.

(** The random sources the module draws from: [fauxfactory.gen_string]
    (its length argument is optional), [fauxfactory.gen_integer], and the
    generator behind [random.choice] and [random.randint]. *)
Class Random (R : Type) : Type := {
  gen_string : string -> option Z -> R -> string * R;
  gen_integer : Z -> Z -> R -> Z * R;
  random_raw : R -> nat * R
}.

(** The module performs no interaction. *)
Definition Event : Type := Empty_set.

Definition tab : string := String "009"%char "".

Section Factory.

Context {R : Type} `{Random R}.

(** [settings.run_one_datapoint] *)
Variable run_one_datapoint : bool.

(** [robottelo.decorators.bz_bug_is_open] *)
Variable bz_bug_is_open : Z -> bool.

Abbreviation Gen := (M R Event).

(** [gen_string(str_type, length)] as a value of the data set. *)
Definition string_of (str_type : string) (length : option Z) : Gen PyVal :=
  fun r =>
    match gen_string str_type length r with
    | (s, r') => (Ok (PStr s), r', [])
    end.

(** [random.choice(seq)]: [IndexError] on an empty sequence. *)
Definition random_choice {A} (seq : list A) : Gen A :=
  match seq with
  | [] => raise (Exn IndexError "list index out of range")
  | x :: _ =>
      fun r =>
        match random_raw r with
        | (n, r') => (Ok (nth (n mod length seq) seq x), r', [])
        end
  end.

(** [random.randint(a, b)], that is [randrange(a, b + 1)]: a value of
    [a..b], [ValueError] when the range is empty. *)
Definition randint (a b : Z) : Gen Z :=
  if (b <? a)%Z then
    raise (Exn ValueError
             ("empty range for randrange() ("
              +:+ py_str (PInt a) +:+ "," +:+ py_str (PInt (b + 1))
              +:+ ", " +:+ py_str (PInt (b + 1 - a)) +:+ ")"))
  else
    fun r =>
      match random_raw r with
      | (n, r') => (Ok (a + Z.of_nat n mod (b - a + 1))%Z, r', [])
      end.

(** [datacheck], the decorator of every data creator. *)
Definition datacheck {A} (func : Gen (list A)) : Gen (list A) :=
  dataset <- func ;;
  if run_one_datapoint then
    x <- random_choice dataset ;; ret [x]
  else ret dataset.

(** The string types of [generate_strings_list], in the order of its
    comprehension. *)
Definition str_types : list string :=
  ["alpha"; "numeric"; "alphanumeric"; "latin1"; "utf8"; "cjk"; "html"].

(** The dictionary comprehension of [generate_strings_list]. *)
Fixpoint strings_dict (types : list string) (length : Z)
    : Gen (gmap string PyVal) :=
  match types with
  | [] => ret ∅
  | str_type :: rest =>
      s <- string_of str_type (Some length) ;;
      strings <- strings_dict rest length ;;
      ret (<[str_type := s]> strings)
  end.

(** [generate_strings_list], before decoration.  The values come in the
    order of the dictionary, which Python leaves open. *)
Definition generate_strings_list_func (length : option Z)
    (remove_str : option string) (bug_id : option Z) : Gen (list PyVal) :=
  length <-
    match length with
    | None => fun r => match gen_integer 3 30 r with
                       | (n, r') => (Ok n, r', [])
                       end
    | Some n => ret n
    end ;;
  strings <- strings_dict str_types length ;;
  strings <-
    match remove_str with
    | Some key =>
        if negb (String.eqb key "")
           && match bug_id with
              | None => true
              | Some id => bz_bug_is_open id
              end
        then
          match strings !! key with
          | None => raise (Exn KeyError key)
          | Some _ => ret (delete key strings)
          end
        else ret strings
    | None => ret strings
    end ;;
  ret ((map_to_list strings).*2).

(** [generate_strings_list] *)
Definition generate_strings_list (length : option Z)
    (remove_str : option string) (bug_id : option Z) : Gen (list PyVal) :=
  datacheck (generate_strings_list_func length remove_str bug_id).

(** [invalid_id_list] *)
Definition invalid_id_list : Gen (list PyVal) :=
  datacheck
    (s <- string_of "alpha" None ;;
     ret [s; PNone; PStr ""; PInt (-1)]).

(** [invalid_names_list] *)
Definition invalid_names_list : Gen (list PyVal) :=
  datacheck
    (s1 <- string_of "alphanumeric" (Some 300%Z) ;;
     s2 <- string_of "alpha" (Some 300%Z) ;;
     s3 <- string_of "cjk" (Some 300%Z) ;;
     s4 <- string_of "latin1" (Some 300%Z) ;;
     s5 <- string_of "numeric" (Some 300%Z) ;;
     s6 <- string_of "utf8" (Some 300%Z) ;;
     s7 <- string_of "html" (Some 300%Z) ;;
     ret [s1; s2; s3; s4; s5; s6; s7]).

(** [interface in ['api', 'cli', 'ui', None]] *)
Definition known_interface (interface : PyVal) : bool :=
  bool_decide (interface ∈ [PStr "api"; PStr "cli"; PStr "ui"; PNone]).

(** [invalid_values_list], before decoration. *)
Definition invalid_values_list_func (interface : PyVal) : Gen (list PyVal) :=
  if negb (known_interface interface) then
    raise (Exn InvalidArgumentError
             "Valid interface values are api, cli, ui only")
  else if bool_decide (interface = PStr "ui") then
    names <- invalid_names_list ;;
    ret ([PStr ""; PStr " "] ++ names)
  else
    names <- invalid_names_list ;;
    ret ([PStr ""; PStr " "; PStr tab] ++ names).

(** [invalid_values_list] *)
Definition invalid_values_list (interface : PyVal) : Gen (list PyVal) :=
  datacheck (invalid_values_list_func interface).

(** [valid_environments_list] *)
Definition valid_environments_list : Gen (list PyVal) :=
  datacheck
    (s1 <- string_of "alpha" None ;;
     s2 <- string_of "numeric" None ;;
     s3 <- string_of "alphanumeric" None ;;
     ret [s1; s2; s3]).

(** [gen_string(str_type, random.randint(1, upper))] *)
Definition string_up_to (str_type : string) (upper : Z) : Gen PyVal :=
  n <- randint 1 upper ;; string_of str_type (Some n).

(** [valid_hosts_list] *)
Definition valid_hosts_list (domain_length : Z) : Gen (list PyVal) :=
  datacheck
    (s1 <- string_up_to "alphanumeric" (255 - 6 - domain_length) ;;
     s2 <- string_up_to "alpha" (255 - 6 - domain_length) ;;
     s3 <- string_up_to "numeric" (255 - 6 - domain_length) ;;
     ret [s1; s2; s3]).

(** [valid_labels_list] *)
Definition valid_labels_list : Gen (list PyVal) :=
  datacheck
    (s1 <- string_up_to "alphanumeric" 128 ;;
     s2 <- string_up_to "alpha" 128 ;;
     ret [s1; s2]).

(** [valid_usernames_list] *)
Definition valid_usernames_list : Gen (list PyVal) :=
  datacheck
    (s1 <- string_of "latin1" None ;;
     s2 <- string_of "alpha" None ;;
     s3 <- string_of "alphanumeric" None ;;
     s4 <- string_of "numeric" None ;;
     ret [s1; s2; s3; s4]).

End Factory.

(** A deterministic random source for the scenarios: a counter; the
    generated string is its type. *)
#[global] Instance counter_random : Random nat := {
  gen_string str_type length n := (str_type, S n);
  gen_integer a b n := (a, S n);
  random_raw n := (n, S n)
}.

End Datafactory.

(* ===================================================================== *)
(** * Properties                                                          *)
(* ===================================================================== *)

Import Rhci.

Section CountFacts.

Lemma count_app (p : Event -> bool) (a b : list Event) :
  count p (a ++ b) = count p a + count p b.
Proof. unfold count. rewrite List.filter_app, length_app. reflexivity. Qed.

Lemma count_cons (p : Event -> bool) (e : Event) (a : list Event) :
  count p (e :: a) = (if p e then 1 else 0) + count p a.
Proof. unfold count. simpl. destruct (p e); reflexivity. Qed.

Lemma count_nil (p : Event -> bool) : count p [] = 0.
Proof. reflexivity. Qed.

End CountFacts.


Lemma count_failed_refreshes (p : Event -> bool) (k : nat) :
  count p (failed_refreshes k)
  = k * ((if p (ERefresh false) then 1 else 0)
         + (if p (ESleep 15) then 1 else 0)).
Proof.
  induction k as [|k IH]; [reflexivity|].
  simpl failed_refreshes. rewrite !count_cons, IH. lia.
Qed.

Section AnyBrowser.

Context {W : Type} `{Browser W}.
Variable locators : gmap string Locator.

(** Shape of a run of the inner loop: [k] failed refreshes with their
    back-off, then at most one successful refresh; the loop gives up only
    after using the whole budget. *)
Lemma refresh_retry_shape (n : nat) (w : W) :
  exists (k : nat) (ok : bool) (w' : W),
    refresh_retry n w
    = (Ok tt, w', failed_refreshes k ++ (if ok then [ERefresh true] else []))
    /\ k <= n /\ (ok = false -> k = n) /\ (ok = true -> k < n).
Proof.
  revert w. induction n as [|n IH]; intros w.
  - exists 0, false, w. repeat split; try lia; discriminate.
  - simpl. unfold bind, try_, refresh, sleep.
    destruct (browser_refresh w) as [r w1] eqn:E. destruct r as [[]|e]; simpl.
    + exists 0, true, w1. repeat split; try lia; discriminate.
    + destruct (IH (time_sleep 15 w1)) as (k & ok & w' & Hrun & Hk & Hf & Ht).
      rewrite Hrun. exists (S k), ok, w'. simpl.
      repeat split; try lia.
      * intros Hok. rewrite (Hf Hok). reflexivity.
      * intros Hok. specialize (Ht Hok). lia.
Qed.


Lemma completion_loop_S (n : nat) :
  completion_loop locators (S n)
  = (sleep 90 ;;
     r <- try_ (l <- locator locators "rhci.next" ;; click l None) ;;
     match r with
     | Ok _ => ret tt
     | Raise _ => refresh_retry 40 ;; completion_loop locators n
     end).
Proof. reflexivity. Qed.

Lemma completion_loop_step (n : nat) (w : W) :
  completion_loop locators (S n) w
  = match locators !! "rhci.next" with
    | None =>
        match refresh_retry 40 (time_sleep 90 w) with
        | (_, w1, t1) =>
            match completion_loop locators n w1 with
            | (r, w2, t2) => (r, w2, ESleep 90 :: t1 ++ t2)
            end
        end
    | Some l =>
        match base_click l None (time_sleep 90 w) with
        | (Ok _, w1) => (Ok tt, w1, [ESleep 90; EClick l None true])
        | (Raise _, w1) =>
            match refresh_retry 40 w1 with
            | (_, w2, t1) =>
                match completion_loop locators n w2 with
                | (r, w3, t2) =>
                    (r, w3, ESleep 90 :: EClick l None false :: t1 ++ t2)
                end
            end
        end
    end.
Proof.
  rewrite completion_loop_S. cbv [bind sleep try_ locator click].
  destruct (locators !! "rhci.next") as [l|].
  - destruct (base_click l None (time_sleep 90 w)) as [[[]|e] w1]; cbn [is_ok].
    + reflexivity.
    + destruct (refresh_retry_shape 40 w1) as (k & ok & w' & -> & _).
      destruct (completion_loop locators n w') as [[r w3] t2]. reflexivity.
  - destruct (refresh_retry_shape 40 (time_sleep 90 w))
      as (k & ok & w' & -> & _).
    destruct (completion_loop locators n w') as [[r w3] t2]. reflexivity.
Qed.

(** What the inner loop contributes to the counters of a run. *)
Lemma refresh_retry_counts (n : nat) (w : W) :
  match refresh_retry n w with
  | (r, _, tr) =>
      r = Ok tt
      /\ count (is_sleep 90) tr = 0
      /\ count is_click tr = 0
      /\ count is_click_ok tr = 0
      /\ count (is_sleep 15) tr = count is_refresh_failed tr
      /\ count is_refresh tr <= S (count is_refresh_failed tr)
      /\ count is_refresh_failed tr <= count is_refresh tr
      /\ count is_refresh tr <= n
      /\ (0 < n -> 1 <= count is_refresh tr)
  end.
Proof.
  destruct (refresh_retry_shape n w) as (k & ok & w' & -> & Hk & Hf & Ht).
  rewrite !count_app, !count_failed_refreshes.
  destruct ok; [specialize (Ht eq_refl) | specialize (Hf eq_refl)];
    cbn; repeat split; lia.
Qed.

(** The outer loop either breaks on its one successful click or uses all
    its [n] attempts and raises. *)
Lemma completion_loop_spec (n : nat) (w : W) :
  match completion_loop locators n w with
  | (r, _, tr) =>
      count (is_sleep 90) tr <= n
      /\ (is_Some (locators !! "rhci.next") ->
          count is_click tr = count (is_sleep 90) tr)
      /\ ((r = Ok tt /\ count is_click_ok tr = 1)
          \/ (r = Raise exhausted
              /\ count is_click_ok tr = 0
              /\ count (is_sleep 90) tr = n))
  end.
Proof.
  revert w. induction n as [|n IH]; intros w.
  - cbn. repeat split; try lia. right. auto.
  - rewrite completion_loop_step.
    destruct (locators !! "rhci.next") as [l|] eqn:Hl.
    + destruct (base_click l None (time_sleep 90 w)) as [[[]|e] w1].
      * cbn. repeat split; try lia. left. auto.
      * pose proof (refresh_retry_counts 40 w1) as Hr.
        destruct (refresh_retry 40 w1) as [[r1 w2] t1].
        specialize (IH w2).
        destruct (completion_loop locators n w2) as [[r w3] t2].
        destruct Hr as (_ & Hs & Hc & Hco & _).
        destruct IH as (IH1 & IH2 & IH3).
        rewrite !count_cons, !count_app, Hs, Hc, Hco. cbn [is_sleep is_click is_click_ok Nat.eqb].
        repeat split; try lia.
        -- intros _. specialize (IH2 (ltac:(eauto))). lia.
        -- destruct IH3 as [[-> ?]|(-> & ? & ?)]; [left|right]; split; auto; lia.
    + pose proof (refresh_retry_counts 40 (time_sleep 90 w)) as Hr.
      destruct (refresh_retry 40 (time_sleep 90 w)) as [[r1 w2] t1].
      specialize (IH w2).
      destruct (completion_loop locators n w2) as [[r w3] t2].
      destruct Hr as (_ & Hs & Hc & Hco & _).
      destruct IH as (IH1 & IH2 & IH3).
      rewrite !count_cons, !count_app, Hs, Hc, Hco. cbn [is_sleep is_click is_click_ok Nat.eqb].
      repeat split; try lia.
      * intros [? ?]. discriminate.
      * destruct IH3 as [[-> ?]|(-> & ? & ?)]; [left|right]; split; auto; lia.
Qed.

End AnyBrowser.

(** C1.  Whatever the browser does: when no click of the completion control
    succeeds during a run of the 240-attempt loop, the run ends by raising
    the one error [Exception('Next button never became available to
    click')], after exactly 240 attempts (240 sleeps of 90 seconds, 240
    clicks of the control); that error is a plain [Exception], not an
    instance of the element-not-found or driver fault classes. *)
Theorem C1_completion_loop_exhausted
    (W : Type) (B : Browser W) (locators : gmap string Locator)
    (next : Locator) (w : W) :
  locators !! "rhci.next" = Some next ->
  count is_click_ok (snd (completion_loop locators 240 w)) = 0 ->
  fst (fst (completion_loop locators 240 w))
    = Raise (Exn Exception "Next button never became available to click")
  /\ count (is_sleep 90) (snd (completion_loop locators 240 w)) = 240
  /\ count is_click (snd (completion_loop locators 240 w)) = 240
  /\ (forall C, C <> Exception -> issubclass Exception C = false).
Proof.
  intros Hnext Hfail.
  pose proof (completion_loop_spec locators 240 w) as Hspec.
  destruct (completion_loop locators 240 w) as [[r w'] tr].
  cbn [fst snd] in *.
  destruct Hspec as (_ & Hclicks & [[_ Hone]|(-> & _ & Hsleeps)]).
  - lia.
  - repeat split; auto.
    + rewrite Hclicks, Hsleeps; eauto.
    + intros C HC. destruct C; try reflexivity. contradiction.
Qed.


Lemma C1_completion_loop_exhausted_witness :
  fst (fst (completion_loop sample_locators 240 never_available))
    = Raise (Exn Exception "Next button never became available to click")
  /\ count (is_sleep 90)
       (snd (completion_loop sample_locators 240 never_available)) = 240
  /\ count is_click
       (snd (completion_loop sample_locators 240 never_available)) = 240
  /\ (forall C, C <> Exception -> issubclass Exception C = false).
Proof.
  apply (C1_completion_loop_exhausted Fake fake_browser sample_locators
           ("xpath", "//button[contains(., 'Next')]") never_available).
  - vm_compute. reflexivity.
  - vm_compute. reflexivity.
Defined.


(** ** The scripted browser in the loop *)

Section Scripted.

Variable locators : gmap string Locator.
Variable next : Locator.
Hypothesis Hnext : locators !! "rhci.next" = Some next.

(** Refreshing never consumes the click script. *)
Lemma fake_refresh_retry_clicks (n : nat) (f : Fake) :
  fk_clicks (snd (fst (refresh_retry n f))) = fk_clicks f.
Proof.
  revert f. induction n as [|n IH]; intros f; [reflexivity|].
  cbn [refresh_retry]. cbv [bind try_ refresh sleep].
  cbn [browser_refresh fake_browser time_sleep].
  unfold fake_refresh.
  destruct (fk_refreshes f) as [|[|] rest];
    [destruct (fk_refresh_default f)| |]; cbn [fake_answer is_ok].
  - reflexivity.
  - specialize (IH f). destruct (refresh_retry n f) as [[r f'] t]. exact IH.
  - reflexivity.
  - match goal with
    | |- context [refresh_retry n ?g] =>
        specialize (IH g); destruct (refresh_retry n g) as [[r f'] t]
    end.
    exact IH.
Qed.

(** [k] absent answers followed by a present one, within the budget: the
    loop succeeds at attempt [k + 1], having refreshed after each of the
    [k] failed attempts. *)
Lemma fake_completion_after_absent (k n : nat) (f : Fake) (cs : list bool) :
  fk_clicks f = repeat false k ++ true :: cs ->
  k < n ->
  match completion_loop locators n f with
  | (r, _, tr) =>
      r = Ok tt
      /\ count is_click tr = S k
      /\ count (is_sleep 90) tr = S k
      /\ k <= count is_refresh tr
      /\ count is_refresh tr <= 40 * k
      /\ count is_refresh tr <= k + count is_refresh_failed tr
  end.
Proof.
  revert n f. induction k as [|k IH]; intros n f Hcs Hlt.
  - destruct n as [|n]; [lia|].
    rewrite completion_loop_step, Hnext.
    cbn [base_click fake_browser time_sleep]. unfold fake_click.
    rewrite Hcs. cbn. repeat split; lia.
  - destruct n as [|n]; [lia|].
    rewrite completion_loop_step, Hnext.
    cbn [base_click fake_browser time_sleep]. unfold fake_click.
    rewrite Hcs. cbn [repeat app fake_answer].
    match goal with
    | |- context [refresh_retry 40 ?g] =>
        pose proof (refresh_retry_counts 40 g) as Hr;
        pose proof (fake_refresh_retry_clicks 40 g) as Hc;
        destruct (refresh_retry 40 g) as [[r1 f1] t1]
    end.
    cbn [fst snd fk_clicks] in Hc.
    specialize (IH n f1 Hc ltac:(lia)).
    destruct (completion_loop locators n f1) as [[r f2] t2].
    destruct Hr as (_ & Hs & Hcl & _ & _ & Hup & _ & H40 & H1).
    destruct IH as (-> & IHc & IHs & IHlo & IHhi & IHf).
    rewrite !count_cons, !count_app, Hs, Hcl.
    cbn [is_sleep is_click is_refresh is_refresh_failed Nat.eqb].
    specialize (H1 ltac:(lia)).
    repeat split; lia.
Qed.

End Scripted.

Lemma sample_next_lookup : sample_locators !! "rhci.next" = Some sample_next.
Proof. vm_compute. reflexivity. Qed.

(** Five failed refreshes, then a successful one. *)
Lemma scenario_refresh (cs : list bool) (cd d : bool) (pr : Locator -> bool) :
  refresh_retry 40
    {| fk_clicks := cs; fk_click_default := cd;
       fk_refreshes := [false; false; false; false; false; true];
       fk_refresh_default := d; fk_present := pr |}
  = (Ok tt,
     {| fk_clicks := cs; fk_click_default := cd; fk_refreshes := [];
        fk_refresh_default := d; fk_present := pr |},
     failed_refreshes 5 ++ [ERefresh true]).
Proof. reflexivity. Qed.

(** C2.  The refresh inside the completion loop is tried at most 40 times,
    every failed refresh being followed by a 15 second sleep; with the
    control absent and the refresh outcomes [fail]*5 + [success], the run
    performs exactly 5 failed refreshes, each with its back-off, then the
    successful one, and goes on with the next outer attempt. *)
Theorem C2_refresh_retry_bounded :
  (forall (W : Type) (B : Browser W) (w : W),
      exists (k : nat) (ok : bool) (w' : W),
        refresh_retry 40 w
        = (Ok tt, w',
           failed_refreshes k ++ (if ok then [ERefresh true] else []))
        /\ k <= 40 /\ (ok = false -> k = 40) /\ (ok = true -> k < 40))
  /\ (forall (d : bool) (pr : Locator -> bool),
        exists rest : list Event,
          snd (completion_loop sample_locators 240
                 {| fk_clicks := []; fk_click_default := false;
                    fk_refreshes := [false; false; false; false; false; true];
                    fk_refresh_default := d; fk_present := pr |})
          = [ESleep 90; EClick sample_next None false]
            ++ failed_refreshes 5
            ++ [ERefresh true]
            ++ [ESleep 90; EClick sample_next None false]
            ++ rest).
Proof.
  split.
  - intros W B w. apply refresh_retry_shape.
  - intros d pr.
    change 240 with (S (S 238)).
    rewrite completion_loop_step, sample_next_lookup.
    cbn [base_click fake_browser time_sleep fake_click fk_clicks
         fk_click_default fake_answer].
    rewrite scenario_refresh.
    rewrite completion_loop_step, sample_next_lookup.
    cbn [base_click fake_browser time_sleep fake_click fk_clicks
         fk_click_default fake_answer].
    match goal with
    | |- context [refresh_retry 40 ?g] =>
        destruct (refresh_retry 40 g) as [[r1 f1] t1]
    end.
    destruct (completion_loop sample_locators 238 f1) as [[r2 f2] t2].
    exists (t1 ++ t2). reflexivity.
Qed.

(** C3, as stated, fails: with the control absent three times and then
    present the loop does succeed at its fourth attempt, but it has
    refreshed the view three times, once after each failed attempt. *)
Lemma C3_zero_refreshes_counterexample :
  ~ (fst (fst (completion_loop sample_locators 240 available_at_fourth))
       = Ok tt
     /\ count is_click
          (snd (completion_loop sample_locators 240 available_at_fourth)) = 4
     /\ count is_refresh
          (snd (completion_loop sample_locators 240 available_at_fourth)) = 0).
Proof.
  intros (_ & _ & H). vm_compute in H. discriminate H.
Qed.

(** C3, amended.  For the availability sequence [absent]*3 + [present] and
    every behaviour of the refresh, the loop terminates successfully after
    exactly 4 outer attempts and performs at least 3 and at most 120
    refreshes, no more than 3 plus the number of failed ones: exactly 3
    when no refresh fails. *)
Theorem C3_success_at_fourth_attempt
    (locators : gmap string Locator) (next : Locator)
    (rs : list bool) (cd d : bool) (pr : Locator -> bool) :
  locators !! "rhci.next" = Some next ->
  let run :=
    completion_loop locators 240
      {| fk_clicks := [false; false; false; true]; fk_click_default := cd;
         fk_refreshes := rs; fk_refresh_default := d; fk_present := pr |} in
  fst (fst run) = Ok tt
  /\ count is_click (snd run) = 4
  /\ count (is_sleep 90) (snd run) = 4
  /\ 3 <= count is_refresh (snd run) <= 120
  /\ count is_refresh (snd run) <= 3 + count is_refresh_failed (snd run).
Proof.
  intros Hnext run.
  pose proof (fake_completion_after_absent locators next Hnext 3 240
                {| fk_clicks := [false; false; false; true];
                   fk_click_default := cd; fk_refreshes := rs;
                   fk_refresh_default := d; fk_present := pr |}
                [] eq_refl ltac:(lia)) as Hrun.
  subst run.
  destruct (completion_loop locators 240 _) as [[r f] tr]. cbn [fst snd].
  destruct Hrun as (-> & ? & ? & ? & ? & ?). repeat split; lia.
Qed.

Lemma C3_success_at_fourth_attempt_witness :
  let run := completion_loop sample_locators 240 available_at_fourth in
  fst (fst run) = Ok tt
  /\ count is_click (snd run) = 4
  /\ count (is_sleep 90) (snd run) = 4
  /\ 3 <= count is_refresh (snd run) <= 120
  /\ count is_refresh (snd run) <= 3 + count is_refresh_failed (snd run).
Proof.
  apply (C3_success_at_fourth_attempt sample_locators sample_next
           [] false true (fun _ => false)).
  vm_compute. reflexivity.
Defined.

Example C3_exactly_three_refreshes :
  count is_refresh
    (snd (completion_loop sample_locators 240 available_at_fourth)) = 3.
Proof. vm_compute. reflexivity. Qed.

(** ** Optional confirmation fields *)

(** Case analysis on every registry lookup and browser answer of a goal. *)
Ltac run_cases :=
  repeat first
    [ reflexivity
    | match goal with
      | |- context [match ?x with _ => _ end] =>
          lazymatch x with
          | context [match _ with _ => _ end] => fail
          | _ => destruct x eqn:?; cbn [is_ok fst snd app bool_decide] in *
          end
      end ].

Section OptionalFields.

Context {W : Type} `{Browser W}.
Variable locators : gmap string Locator.

(** What an optional field does, by the answer of the existence check. *)
Lemma optional_field_run (name : string) (loc : Locator) (v : PyVal) (w : W) :
  locators !! name = Some loc ->
  optional_field locators name v w
  = match base_wait_until_element loc (Some 5) w with
    | (None, w1) => (Ok tt, w1, [EWait loc (Some 5) false])
    | (Some _, w1) =>
        match base_text_field_update loc v w1 with
        | (r, w2) =>
            (r, w2, [EWait loc (Some 5) true; ETextUpdate loc v (is_ok r)])
        end
    end.
Proof.
  intros Hloc.
  cbv [optional_field bind locator wait_until_element text_field_update ret].
  rewrite Hloc.
  destruct (base_wait_until_element loc (Some 5) w) as [[e|] w1].
  - rewrite bool_decide_true by eauto.
    destruct (base_text_field_update loc v w1) as [[[]|x] w2]; reflexivity.
  - rewrite bool_decide_false by (intros [? ?]; discriminate). reflexivity.
Qed.

End OptionalFields.

(** C7.  The confirmation fields of the RHEV and CloudForms pages are
    optional fields: each page is the sequence of its steps in which the
    confirm-root-password and confirm-admin-password fields are handled by
    a non-fatal existence check with a five second timeout; when the check
    finds nothing the field is skipped without any failure, nothing being
    entered, and when it finds the field the value of the primary field is
    entered into it. *)
Theorem C7_optional_confirmation_fields
    (W : Type) (B : Browser W) (locators : gmap string Locator) :
  (forall (pw dc cl cpu : PyVal) (w : W),
      _page_rhev_configuration locators pw dc cl cpu w
      = (l <- locator locators "rhci.rhev_root_pass" ;;
         e <- wait_until_element l None ;;
         (if bool_decide (is_Some e) then
            l <- locator locators "rhci.rhev_root_pass" ;;
            text_field_update l pw ;;
            optional_field locators "rhci.confirm_rhev_root_pass" pw ;;
            l <- locator locators "rhci.rhevm_adminpass" ;;
            text_field_update l pw ;;
            optional_field locators "rhci.confirm_rhevm_adminpass" pw ;;
            update_if_given locators "rhci.datacenter_name" dc ;;
            update_if_given locators "rhci.cluster_name" cl ;;
            update_if_given locators "rhci.cpu_type" cpu
          else ret tt) ;;
         l <- locator locators "rhci.next" ;;
         click l None) w)
  /\ (forall (install : Locator) (root_pw admin_pw : PyVal) (w : W),
        _page_cloudforms_configuration locators install root_pw admin_pw w
        = (e <- wait_until_element install None ;;
           (if bool_decide (is_Some e) then click install None else ret tt) ;;
           l <- locator locators "rhci.next" ;;
           click l None ;;
           l <- locator locators "rhci.cfme_root_password" ;;
           wait_until_element l None ;;
           l <- locator locators "rhci.cfme_root_password" ;;
           text_field_update l root_pw ;;
           optional_field locators "rhci.confirm_cfme_root_password" root_pw ;;
           l <- locator locators "rhci.cfme_admin_password" ;;
           text_field_update l admin_pw ;;
           optional_field locators "rhci.confirm_cfme_admin_password"
             admin_pw ;;
           l <- locator locators "rhci.next" ;;
           click l None) w)
  /\ (forall (name : string) (loc : Locator) (v : PyVal) (w : W),
        locators !! name = Some loc ->
        optional_field locators name v w
        = match base_wait_until_element loc (Some 5) w with
          | (None, w1) => (Ok tt, w1, [EWait loc (Some 5) false])
          | (Some _, w1) =>
              match base_text_field_update loc v w1 with
              | (r, w2) =>
                  (r, w2,
                   [EWait loc (Some 5) true; ETextUpdate loc v (is_ok r)])
              end
          end).
Proof.
  split; [|split].
  - intros pw dc cl cpu w.
    cbv [_page_rhev_configuration optional_field bind locator
         wait_until_element text_field_update click ret].
    run_cases.
  - intros install root_pw admin_pw w.
    cbv [_page_cloudforms_configuration optional_field bind locator
         wait_until_element text_field_update click ret].
    run_cases.
  - intros name loc v w Hloc. apply optional_field_run. exact Hloc.
Qed.

Lemma C7_optional_confirmation_fields_witness :
  optional_field sample_locators "rhci.confirm_rhev_root_pass" (PStr "secret")
    (page_showing (fun _ => false))
  = (Ok tt, page_showing (fun _ => false),
     [EWait ("id", "confirm_rhev_root_pass") (Some 5) false]).
Proof.
  etransitivity.
  - apply (proj2 (proj2 (C7_optional_confirmation_fields
                           Fake fake_browser sample_locators))
             "rhci.confirm_rhev_root_pass" ("id", "confirm_rhev_root_pass")).
    vm_compute. reflexivity.
  - reflexivity.
Defined.

(** ** Locator interpolation *)

(** A character other than [%] is copied. *)
Lemma py_format_literal (c : ascii) (s : string) (args : list string) :
  Ascii.eqb c "%"%char = false ->
  py_format (String c s) args
  = match py_format s args with
    | Ok r => Ok (String c r)
    | Raise e => Raise e
    end.
Proof. intros Hc. cbn [py_format]. rewrite Hc. reflexivity. Qed.

Lemma py_format_no_percent (s : string) :
  no_percent s = true -> py_format s [] = Ok s.
Proof.
  induction s as [|c s IH]; [reflexivity|].
  cbn [no_percent]. intros Hs.
  apply andb_prop in Hs as [Hc Hs]. apply negb_true_iff in Hc.
  rewrite (py_format_literal c s [] Hc), (IH Hs). reflexivity.
Qed.

Lemma py_format_single (pre post a : string) :
  no_percent pre = true ->
  no_percent post = true ->
  py_format (pre +:+ "%s" +:+ post) [a] = Ok (pre +:+ a +:+ post).
Proof.
  intros Hpre Hpost. induction pre as [|c pre IH].
  - change (py_format ("" +:+ "%s" +:+ post) [a])
      with (match py_format post [] with
            | Ok s => Ok (a +:+ s)
            | Raise e => Raise e
            end).
    rewrite (py_format_no_percent post Hpost). reflexivity.
  - cbn [no_percent] in Hpre. apply andb_prop in Hpre as [Hc Hpre].
    apply negb_true_iff in Hc.
    change (String c pre +:+ "%s" +:+ post)
      with (String c (pre +:+ "%s" +:+ post)).
    rewrite (py_format_literal c _ [a] Hc), (IH Hpre). reflexivity.
Qed.

(** An expression without placeholder takes no argument. *)
Lemma py_format_no_placeholder (s a : string) :
  no_percent s = true ->
  py_format s [a]
  = Raise (Exn TypeError
             "not all arguments converted during string formatting").
Proof.
  induction s as [|c s IH]; [reflexivity|].
  cbn [no_percent]. intros Hs.
  apply andb_prop in Hs as [Hc Hs]. apply negb_true_iff in Hc.
  rewrite (py_format_literal c s [a] Hc), (IH Hs). reflexivity.
Qed.

(** C9, as stated, fails: a registered locator whose expression has no
    placeholder (such as the one of the Next button, which the wizard
    clicks as it is) makes [interp_loc] raise [TypeError] instead of
    returning a pair. *)
Lemma C9_interp_loc_counterexample :
  sample_locators !! "rhci.next"
    = Some ("xpath", "//button[contains(., 'Next')]")
  /\ interp_loc sample_locators "rhci.next" (PStr "x")
     = Raise (Exn TypeError
                "not all arguments converted during string formatting").
Proof. split; vm_compute; reflexivity. Qed.

(** C9, amended.  For every registered locator whose expression holds
    exactly one [%s] placeholder and no other [%], and every interpolation
    value, [interp_loc] returns the registered strategy unchanged and the
    expression with the value in place of the placeholder; for [None] and
    the other falsey values the empty string is put there. *)
Theorem C9_interp_loc
    (locators : gmap string Locator) (name strategy pre post : string)
    (v : PyVal) :
  locators !! name = Some (strategy, pre +:+ "%s" +:+ post) ->
  no_percent pre = true ->
  no_percent post = true ->
  interp_loc locators name v
  = Ok (strategy,
        pre +:+ (if truthy v then py_str v else "") +:+ post).
Proof.
  intros Hloc Hpre Hpost. unfold interp_loc. rewrite Hloc. cbn [fst snd].
  rewrite (py_format_single pre post _ Hpre Hpost).
  unfold py_or. destruct (truthy v); reflexivity.
Qed.

Lemma C9_interp_loc_witness :
  interp_loc sample_locators "rhci.env_path" (PStr "Library")
  = Ok ("xpath", "//label[contains(., 'Library')]")
  /\ interp_loc sample_locators "rhci.env_path" PNone
     = Ok ("xpath", "//label[contains(., '')]").
Proof.
  split.
  - apply (C9_interp_loc sample_locators "rhci.env_path" "xpath"
             "//label[contains(., '" "')]" (PStr "Library"));
      vm_compute; reflexivity.
  - apply (C9_interp_loc sample_locators "rhci.env_path" "xpath"
             "//label[contains(., '" "')]" PNone);
      vm_compute; reflexivity.
Defined.

(* --------------------------------------------------------------------- *)
(** ** GPG keys                                                           *)
(* --------------------------------------------------------------------- *)

Import Gpgkey.

(** The search criteria read [key:"value"]. *)
Lemma search_criteria_format (key value : string) :
  py_format search_format [key; value]
  = Ok (key +:+ ":" +:+ String dquote (value +:+ String dquote "")).
Proof. reflexivity. Qed.

(** C4.  [GPGKey.exists] lists the keys of the organization with the search
    option [key:"value"] when a search tuple is given and with no search
    option otherwise, and returns the result of that listing with its
    output replaced by the first row when there is one and left empty when
    the filter matched nothing: it holds one record, or none when the
    listing is empty. *)
Theorem C4_exists_at_most_one
    (execute : string -> bool -> Result (list Row))
    (construct : string -> string -> gmap string PyVal -> string)
    (organization_id : PyVal) (tuple_search : option (string * string)) :
  let options : gmap string PyVal :=
    match tuple_search with
    | None => ∅
    | Some (key, value) =>
        {[ "search" :=
             PStr (key +:+ ":" +:+ String dquote (value +:+ String dquote "")) ]}
    end in
  let listed := GPGKey_list execute construct organization_id (Some options) in
  exists result : Result Stdout,
    GPGKey_exists execute construct organization_id tuple_search = Ok result
    /\ return_code result = return_code listed
    /\ stderr result = stderr listed
    /\ stdout result
       = match stdout listed with
         | [] => Rows []
         | row :: _ => OneRow row
         end
    /\ records (stdout result) = Nat.min 1 (length (stdout listed)).
Proof.
  intros options listed. unfold GPGKey_exists, exists_options.
  assert (Hrec : forall rows : list Row,
             records (match rows with
                      | [] => Rows []
                      | row :: _ => OneRow row
                      end) = Nat.min 1 (length rows)).
  { intros [|row rows]; reflexivity. }
  destruct tuple_search as [[key value]|].
  - rewrite search_criteria_format. eexists. split; [reflexivity|].
    cbn [return_code stderr stdout]. subst listed options.
    split; [reflexivity|]. split; [reflexivity|]. split; [reflexivity|].
    apply Hrec.
  - eexists. split; [reflexivity|].
    cbn [return_code stderr stdout]. subst listed options.
    split; [reflexivity|]. split; [reflexivity|]. split; [reflexivity|].
    apply Hrec.
Qed.

(** C8, as stated, fails: a caller that passes a mapping holding
    [per-page=10000] of its own has that option passed to the command,
    although an options mapping was given. *)
Lemma C8_caller_per_page_counterexample :
  list_options (PInt 1) (Some {["per-page" := PInt 10000]}) !! "per-page"
  = Some (PInt 10000)
  /\ list_options (PInt 1) (Some {["per-page" := PInt 10000]})
     !! "organization-id"
     = Some (PInt 1)
  /\ ~ (forall (organization_id : PyVal)
               (options : option (gmap string PyVal)),
          list_options organization_id options !! "per-page"
          = Some (PInt 10000)
          <-> options = None).
Proof.
  assert (Hpage : list_options (PInt 1)
                    (Some {["per-page" := PInt 10000]}) !! "per-page"
                  = Some (PInt 10000)) by (vm_compute; reflexivity).
  split; [exact Hpage|]. split; [vm_compute; reflexivity|].
  intros Hiff. apply Hiff in Hpage. discriminate Hpage.
Qed.

(** C8, amended.  The options [GPGKey.list] passes to the command always
    bind [organization-id] to the given id.  They hold [per-page=10000]
    exactly when no options mapping is given or the mapping of the caller
    holds that entry itself: [list] puts the option in only when no
    mapping is given, a mapping of the caller going through with the
    [per-page] entry it has or has not.  [GPGKey.exists] always gives a
    mapping, without [per-page], so that on its path no [per-page] is
    passed. *)
Theorem C8_list_options
    (execute : string -> bool -> Result (list Row))
    (construct : string -> string -> gmap string PyVal -> string) :
  (forall organization_id options,
      GPGKey_list execute construct organization_id options
      = execute
          (construct "gpg" "list" (list_options organization_id options))
          true)
  /\ (forall organization_id options,
        list_options organization_id options !! "organization-id"
        = Some organization_id)
  /\ (forall organization_id options,
        (list_options organization_id options !! "per-page"
           = Some (PInt 10000)
         /\ (options ≫= (fun m : gmap string PyVal => m !! "per-page"))
            = None)
        <-> options = None)
  /\ (forall organization_id options,
        list_options organization_id options !! "per-page"
        = Some (PInt 10000)
        <-> options = None
            \/ exists m : gmap string PyVal,
                 options = Some m /\ m !! "per-page" = Some (PInt 10000))
  /\ (forall organization_id (m : gmap string PyVal),
        list_options organization_id (Some m) !! "per-page"
        = m !! "per-page")
  /\ (forall organization_id tuple_search,
        exists m : gmap string PyVal,
          exists_options tuple_search = Ok m
          /\ GPGKey_exists execute construct organization_id tuple_search
             = Ok (let result :=
                     execute
                       (construct "gpg" "list"
                          (list_options organization_id (Some m))) true in
                   {| return_code := return_code result;
                      stdout := match stdout result with
                                | [] => Rows []
                                | row :: _ => OneRow row
                                end;
                      stderr := stderr result |})
          /\ list_options organization_id (Some m) !! "per-page" = None
          /\ list_options organization_id (Some m) !! "organization-id"
             = Some organization_id).
Proof.
  split; [reflexivity|]. split; [|split; [|split; [|split]]].
  - intros org options. unfold list_options. apply lookup_insert_eq.
  - intros org [m|]; unfold list_options; cbn [mbind option_bind].
    + rewrite lookup_insert_ne by discriminate. split.
      * intros [H1 H2]. congruence.
      * discriminate.
    + split; [reflexivity|]. intros _. split; [|reflexivity].
      rewrite lookup_insert_ne by discriminate. apply lookup_insert_eq.
  - intros org [m|]; unfold list_options;
      rewrite lookup_insert_ne by discriminate.
    + split.
      * intros Hm. right. exists m. split; [reflexivity|exact Hm].
      * intros [Hnone|(m' & Hsome & Hm)]; [discriminate Hnone|].
        injection Hsome as <-. exact Hm.
    + split; [left; reflexivity|]. intros _. apply lookup_insert_eq.
  - intros org m. unfold list_options.
    apply lookup_insert_ne. discriminate.
  - intros org [[key value]|]; unfold GPGKey_exists, exists_options.
    + rewrite search_criteria_format. eexists. split; [reflexivity|].
      split; [reflexivity|]. unfold list_options. split.
      * rewrite !lookup_insert_ne by discriminate. apply lookup_empty.
      * apply lookup_insert_eq.
    + eexists. split; [reflexivity|]. split; [reflexivity|].
      unfold list_options. split.
      * rewrite lookup_insert_ne by discriminate. apply lookup_empty.
      * apply lookup_insert_eq.
Qed.

(* --------------------------------------------------------------------- *)
(** ** Content providers                                                  *)
(* --------------------------------------------------------------------- *)

Module ContentProps.

Import Content.

Section AnyDriver.

Context {W : Type} `{Driver W}.
Variable L : Locators.

(** The fallback address, by the provider type. *)
Lemma fallback_url_run (t : string) (w : W) :
  exists url : string,
    fallback_url t w = (Ok url, w, [])
    /\ (str_contains "custom" t = true -> url = drv_current_url w)
    /\ (str_contains "custom" t = false ->
        str_contains "redhat" t = true ->
        url = drv_current_url w +:+ "/redhat_provider")
    /\ (str_contains "custom" t = false ->
        str_contains "redhat" t = false ->
        str_contains "filters" t = true ->
        url = drv_base_url +:+ "/filters")
    /\ (str_contains "custom" t = false ->
        str_contains "redhat" t = false ->
        str_contains "filters" t = false ->
        url = drv_base_url +:+ "/gpg_keys").
Proof.
  unfold fallback_url.
  destruct (str_contains "custom" t);
    [|destruct (str_contains "redhat" t);
      [|destruct (str_contains "filters" t)]];
    eexists; (split; [reflexivity|]);
    repeat split; intros; congruence.
Qed.

End AnyDriver.



(** C6 does not hold of [delete_custom_provider]: the remove link is
    clicked without having been asserted.  On a page that lists the
    provider but does not show its remove link the operation ends in the
    [AttributeError] of a method call on [None], not in a named
    assertion failure. *)
Theorem C6_remove_link_not_asserted :
  delete_custom_provider sample_locators "ACME" page_without_remove_link
  = (Raise (Exn AttributeError "'NoneType' object has no attribute 'click'"),
     page_without_remove_link,
     [ ETab "//a[.='Content Management']" true;
       EWait "//a[.='Content Providers']" true;
       EHover (Ok tt);
       EWait "//a[contains(@href,'custom')]" true;
       EClick 2 (Ok tt);
       EClick 11 (Ok tt);
       EWait "//a[@data-url='/providers/39']" false ]).
Proof. vm_compute. reflexivity. Qed.

End ContentProps.

(* --------------------------------------------------------------------- *)
(** ** Data factory                                                       *)
(* --------------------------------------------------------------------- *)

Module DatafactoryProps.

Import Datafactory.

(** Unfolds a data creator down to the draws from the random source and
    names the result of each draw. *)
Ltac draw_all :=
  cbv [datacheck bind ret raise string_of string_up_to];
  repeat match goal with
         | |- context [gen_string ?t ?n ?r] =>
             let s := fresh "s" in
             let r' := fresh "r" in
             destruct (gen_string t n r) as [s r']
         end.

Section AnySource.

Context {R : Type} `{Random R}.

(** A choice from a non-empty sequence is one of its elements. *)
Lemma random_choice_in {A : Type} (x0 : A) (seq : list A) (r : R) :
  exists (x : A) (r' : R),
    random_choice (x0 :: seq) r = (Ok x, r', []) /\ In x (x0 :: seq).
Proof.
  unfold random_choice. destruct (random_raw r) as [n r'].
  exists (nth (n mod length (x0 :: seq)) (x0 :: seq) x0), r'.
  split; [reflexivity|].
  apply nth_In. apply Nat.mod_upper_bound. discriminate.
Qed.

(** With [run_one_datapoint] off the decorator changes nothing. *)
Lemma datacheck_off {A : Type} (func : M R Event (list A)) (r : R) :
  datacheck false func r = func r.
Proof.
  unfold datacheck, bind, ret.
  destruct (func r) as [[[l|e] r'] t]; [|reflexivity].
  rewrite app_nil_r. reflexivity.
Qed.

(** With [run_one_datapoint] on, a data set that is not empty is cut down
    to one of its elements. *)
Lemma datacheck_on {A : Type} (func : M R Event (list A)) (r r1 : R)
    (x0 : A) (l : list A) (t : list Event) :
  func r = (Ok (x0 :: l), r1, t) ->
  exists (x : A) (r2 : R),
    datacheck true func r = (Ok [x], r2, t) /\ In x (x0 :: l).
Proof.
  intros Hf. unfold datacheck, bind. rewrite Hf.
  destruct (random_choice_in x0 l r1) as (x & r2 & -> & Hin).
  exists x, r2. cbn. rewrite !app_nil_r. auto.
Qed.

(** The undecorated body of [invalid_names_list] yields seven strings. *)
Lemma invalid_names_list_off (r : R) :
  exists (s1 s2 s3 s4 s5 s6 s7 : string) (r1 : R),
    invalid_names_list false r
    = (Ok [PStr s1; PStr s2; PStr s3; PStr s4; PStr s5; PStr s6; PStr s7],
       r1, []).
Proof.
  unfold invalid_names_list. draw_all. cbn.
  do 8 eexists. reflexivity.
Qed.

Lemma invalid_names_list_ok (one : bool) (r : R) :
  exists (names : list PyVal) (r1 : R),
    invalid_names_list one r = (Ok names, r1, [])
    /\ length names = (if one then 1 else 7).
Proof.
  destruct one.
  - destruct (invalid_names_list_off r)
      as (s1 & s2 & s3 & s4 & s5 & s6 & s7 & r1 & Hoff).
    unfold invalid_names_list in *. rewrite datacheck_off in Hoff.
    destruct (datacheck_on _ _ _ _ _ _ Hoff) as (x & r2 & -> & _).
    exists [x], r2. auto.
  - destruct (invalid_names_list_off r)
      as (s1 & s2 & s3 & s4 & s5 & s6 & s7 & r1 & ->).
    do 2 eexists. split; reflexivity.
Qed.

End AnySource.

(** C10, as stated, fails when [settings.run_one_datapoint] is on: the
    decorator then cuts the list down to one element drawn from it, so the
    result for 'ui' is not the two blank strings followed by the
    invalid-names list. *)
Lemma C10_one_datapoint_counterexample :
  invalid_values_list true (PStr "ui") 0
    = (Ok [PStr "alphanumeric"], 9, [])
  /\ ~ (exists names : list PyVal,
          [PStr "alphanumeric"] = [PStr ""; PStr " "] ++ names).
Proof.
  split; [vm_compute; reflexivity|].
  intros [names Hnames]. discriminate Hnames.
Qed.

(** C10, amended.  [invalid_values_list] raises [InvalidArgumentError]
    exactly when its argument is none of 'api', 'cli', 'ui' and [None].
    Otherwise, with [settings.run_one_datapoint] off, the result for 'ui'
    is ['', ' '] followed by the invalid-names list and for 'api', 'cli'
    and [None] it is ['', ' ', '\t'] followed by the invalid-names list;
    with the setting on, the result is a single element of that list. *)
Theorem C10_invalid_values_list
    (R : Type) (Rand : Random R) (one : bool) (interface : PyVal) (r : R) :
  ((exists r' : R,
       invalid_values_list one interface r
       = (Raise (Exn InvalidArgumentError
                   "Valid interface values are api, cli, ui only"), r', []))
   <-> interface ∉ [PStr "api"; PStr "cli"; PStr "ui"; PNone])
  /\ (interface ∈ [PStr "api"; PStr "cli"; PStr "ui"; PNone] ->
      exists (names : list PyVal) (r1 : R),
        invalid_names_list one r = (Ok names, r1, [])
        /\ let full :=
             (if bool_decide (interface = PStr "ui")
              then [PStr ""; PStr " "]
              else [PStr ""; PStr " "; PStr tab]) ++ names in
           if one then
             exists (x : PyVal) (r2 : R),
               invalid_values_list one interface r = (Ok [x], r2, [])
               /\ In x full
           else invalid_values_list one interface r = (Ok full, r1, [])).
Proof.
  assert (Hbody : interface ∈ [PStr "api"; PStr "cli"; PStr "ui"; PNone] ->
            exists (names : list PyVal) (r1 : R),
              invalid_names_list one r = (Ok names, r1, [])
              /\ invalid_values_list_func one interface r
                 = (Ok ((if bool_decide (interface = PStr "ui")
                         then [PStr ""; PStr " "]
                         else [PStr ""; PStr " "; PStr tab]) ++ names),
                    r1, [])).
  { intros Hin. destruct (invalid_names_list_ok one r) as (names & r1 & Hn & _).
    exists names, r1. split; [exact Hn|].
    unfold invalid_values_list_func, known_interface.
    rewrite bool_decide_true by exact Hin. cbn [negb].
    destruct (bool_decide (interface = PStr "ui"));
      unfold bind; rewrite Hn; reflexivity. }
  split.
  - split.
    + intros [r' Hrun] Hin.
      destruct (Hbody Hin) as (names & r1 & _ & Hf).
      unfold invalid_values_list in Hrun. destruct one.
      * destruct (bool_decide (interface = PStr "ui"));
          destruct (datacheck_on _ _ _ _ _ _ Hf) as (x & r2 & Hd & _);
          rewrite Hd in Hrun; discriminate Hrun.
      * rewrite datacheck_off, Hf in Hrun. discriminate Hrun.
    + intros Hout. exists r.
      unfold invalid_values_list, datacheck, bind,
        invalid_values_list_func, known_interface.
      rewrite bool_decide_false by exact Hout. reflexivity.
  - intros Hin. destruct (Hbody Hin) as (names & r1 & Hn & Hf).
    exists names, r1. split; [exact Hn|]. cbv zeta.
    unfold invalid_values_list. destruct one.
    + destruct (bool_decide (interface = PStr "ui"));
        destruct (datacheck_on _ _ _ _ _ _ Hf) as (x & r2 & Hd & Hx);
        exists x, r2; auto.
    + rewrite datacheck_off. exact Hf.
Qed.

Lemma C10_invalid_values_list_witness :
  exists (names : list PyVal) (r1 : nat),
    invalid_names_list false 0 = (Ok names, r1, [])
    /\ invalid_values_list false (PStr "ui") 0
       = (Ok ([PStr ""; PStr " "] ++ names), r1, []).
Proof.
  destruct (proj2 (C10_invalid_values_list nat counter_random false
                     (PStr "ui") 0))
    as (names & r1 & Hn & Hrun).
  - apply (bool_decide_unpack _). vm_compute. exact I.
  - exists names, r1. split; [exact Hn | exact Hrun].
Defined.

End DatafactoryProps.

(* ===================================================================== *)
(** * Further properties of the wizard                                    *)
(* ===================================================================== *)

Module RhciFacts.

Import Rhci RhciPages.

Lemma slept_app (a b : list Event) :
  (slept (a ++ b) = slept a + slept b)%Z.
Proof.
  induction a as [|e a IH]; [reflexivity|].
  destruct e; cbn [app slept]; rewrite IH; lia.
Qed.

Lemma slept_failed_refreshes (k : nat) :
  (slept (failed_refreshes k) = 15 * Z.of_nat k)%Z.
Proof.
  induction k as [|k IH]; [reflexivity|].
  cbn [failed_refreshes slept]. rewrite IH. lia.
Qed.

Section AnyBrowser.

Context {W : Type} `{Browser W}.
Variable locators : gmap string Locator.

Lemma refresh_retry_slept (n : nat) (w : W) :
  (slept (snd (refresh_retry n w)) <= 15 * Z.of_nat n)%Z.
Proof.
  destruct (refresh_retry_shape n w) as (k & ok & w' & -> & Hk & _).
  cbn [snd]. rewrite slept_app, slept_failed_refreshes.
  destruct ok; cbn [slept]; lia.
Qed.

Lemma completion_loop_slept (n : nat) (w : W) :
  (slept (snd (completion_loop locators n w)) <= Z.of_nat n * 690)%Z.
Proof.
  revert w. induction n as [|n IH]; intros w; [cbn; lia|].
  rewrite completion_loop_step.
  destruct (locators !! "rhci.next") as [l|].
  - destruct (base_click l None (time_sleep 90 w)) as [[[]|e] w1].
    + cbn. lia.
    + pose proof (refresh_retry_slept 40 w1) as Hr.
      destruct (refresh_retry 40 w1) as [[r1 w2] t1].
      specialize (IH w2).
      destruct (completion_loop locators n w2) as [[r w3] t2].
      cbn [snd slept] in *. rewrite slept_app. lia.
  - pose proof (refresh_retry_slept 40 (time_sleep 90 w)) as Hr.
    destruct (refresh_retry 40 (time_sleep 90 w)) as [[r1 w2] t1].
    specialize (IH w2).
    destruct (completion_loop locators n w2) as [[r w3] t2].
    cbn [snd slept] in *. rewrite slept_app. lia.
Qed.

(** A run that ends well ends with its only successful click. *)
Lemma completion_loop_last (n : nat) (w : W) :
  fst (fst (completion_loop locators n w)) = Ok tt ->
  exists (pre : list Event) (l : Locator),
    snd (completion_loop locators n w) = pre ++ [EClick l None true]
    /\ count is_click_ok pre = 0.
Proof.
  revert w. induction n as [|n IH]; intros w; [discriminate|].
  rewrite completion_loop_step.
  destruct (locators !! "rhci.next") as [l|].
  - destruct (base_click l None (time_sleep 90 w)) as [[[]|e] w1].
    + intros _. exists [ESleep 90], l. split; reflexivity.
    + pose proof (refresh_retry_counts 40 w1) as Hr.
      destruct (refresh_retry 40 w1) as [[r1 w2] t1].
      specialize (IH w2).
      destruct (completion_loop locators n w2) as [[r w3] t2].
      cbn [fst snd] in *. intros Hok.
      destruct (IH Hok) as (pre & l' & -> & Hpre).
      exists (ESleep 90 :: EClick l None false :: t1 ++ pre), l'.
      split.
      * cbn [app]. rewrite <- app_assoc. reflexivity.
      * destruct Hr as (_ & _ & _ & Hco & _).
        rewrite !count_cons, count_app, Hco, Hpre. reflexivity.
  - pose proof (refresh_retry_counts 40 (time_sleep 90 w)) as Hr.
    destruct (refresh_retry 40 (time_sleep 90 w)) as [[r1 w2] t1].
    specialize (IH w2).
    destruct (completion_loop locators n w2) as [[r w3] t2].
    cbn [fst snd] in *. intros Hok.
    destruct (IH Hok) as (pre & l' & -> & Hpre).
    exists (ESleep 90 :: t1 ++ pre), l'.
    split.
    + cbn [app]. rewrite <- app_assoc. reflexivity.
    + destruct Hr as (_ & _ & _ & Hco & _).
      rewrite !count_cons, count_app, Hco, Hpre. reflexivity.
Qed.

(** Without the locator of the completion control no click is made. *)
Lemma completion_loop_no_locator (n : nat) (w : W) :
  locators !! "rhci.next" = None ->
  count is_click (snd (completion_loop locators n w)) = 0.
Proof.
  intros Hnone. revert w. induction n as [|n IH]; intros w; [reflexivity|].
  rewrite completion_loop_step, Hnone.
  pose proof (refresh_retry_counts 40 (time_sleep 90 w)) as Hr.
  destruct (refresh_retry 40 (time_sleep 90 w)) as [[r1 w2] t1].
  specialize (IH w2).
  destruct (completion_loop locators n w2) as [[r w3] t2].
  cbn [snd] in *. destruct Hr as (_ & _ & Hc & _).
  rewrite count_cons, count_app, Hc, IH. reflexivity.
Qed.

End AnyBrowser.

(** X1.  [_page_review_deployment] has four ways to end, whatever the
    browser does: normally; with the error of the used up polling budget;
    with the [KeyError] of a registry without the Deploy button, before
    anything is done; or with the failure of the click on Deploy, nothing
    else having been done.  A fault of the browser during the polling (a
    failed click on Next, a failed refresh) never leaves the function. *)
Theorem X1_review_deployment_outcomes
    (W : Type) (B : Browser W) (locators : gmap string Locator) (w : W) :
  let run := _page_review_deployment locators w in
  fst (fst run) = Ok tt
  \/ fst (fst run)
     = Raise (Exn Exception "Next button never became available to click")
  \/ (locators !! "rhci.deploy" = None
      /\ fst (fst run) = Raise (Exn KeyError "rhci.deploy")
      /\ snd run = [])
  \/ (exists (deploy : Locator) (e : exn),
         locators !! "rhci.deploy" = Some deploy
         /\ fst (fst run) = Raise e
         /\ snd run = [EClick deploy (Some 300) false]).
Proof.
  cbv zeta. unfold _page_review_deployment, bind, locator, click.
  destruct (locators !! "rhci.deploy") as [deploy|].
  - destruct (base_click deploy (Some 300) w) as [[[]|e] w1].
    + pose proof (completion_loop_spec locators 240 w1) as Hspec.
      destruct (completion_loop locators 240 w1) as [[r w2] tr].
      cbn [fst snd is_ok].
      destruct Hspec as (_ & _ & [[-> _]|[-> _]]); auto.
    + right. right. right. exists deploy, e. auto.
  - right. right. left. auto.
Qed.

(** X2.  A run of the completion loop that ends well has made between 1
    and 240 attempts, and its last interaction is the one click that
    succeeded: nothing is done after the completion control was clicked. *)
Theorem X2_completion_success_shape
    (W : Type) (B : Browser W) (locators : gmap string Locator) (w : W) :
  fst (fst (completion_loop locators 240 w)) = Ok tt ->
  (exists (pre : list Event) (l : Locator),
      snd (completion_loop locators 240 w) = pre ++ [EClick l None true]
      /\ count is_click_ok pre = 0)
  /\ 1 <= count (is_sleep 90) (snd (completion_loop locators 240 w)) <= 240.
Proof.
  intros Hok. split; [apply completion_loop_last; exact Hok|].
  pose proof (completion_loop_spec locators 240 w) as Hspec.
  pose proof (completion_loop_no_locator locators 240 w) as Hnone.
  destruct (completion_loop_last locators 240 w Hok) as (pre & l & Htr & _).
  destruct (completion_loop locators 240 w) as [[r w'] tr].
  cbn [fst snd] in *. subst r.
  destruct Hspec as (Hle & Hclicks & [[_ Hone]|[Hr _]]); [|discriminate].
  split; [|exact Hle].
  assert (Hclicked : 1 <= count is_click tr).
  { rewrite Htr, count_app. cbn. lia. }
  destruct (locators !! "rhci.next") as [next|].
  - rewrite <- Hclicks by eauto. exact Hclicked.
  - specialize (Hnone eq_refl). lia.
Qed.

Lemma X2_completion_success_shape_witness :
  (exists (pre : list Event) (l : Locator),
      snd (completion_loop sample_locators 240 available_at_fourth)
      = pre ++ [EClick l None true]
      /\ count is_click_ok pre = 0)
  /\ 1 <= count (is_sleep 90)
            (snd (completion_loop sample_locators 240 available_at_fourth))
       <= 240.
Proof.
  apply (X2_completion_success_shape Fake fake_browser sample_locators
           available_at_fourth).
  vm_compute. reflexivity.
Defined.

(** X3.  The time slept during the completion loop is at most
    240 * (90 + 40 * 15) = 165600 seconds (46 hours), whatever the browser does, and
    a browser on which nothing ever works makes the loop sleep that long. *)
Theorem X3_completion_sleep_budget :
  (forall (W : Type) (B : Browser W) (locators : gmap string Locator)
          (w : W),
      (slept (snd (completion_loop locators 240 w)) <= 165600)%Z)
  /\ slept (snd (completion_loop sample_locators 240 nothing_works))
     = 165600%Z.
Proof.
  split.
  - intros W B locators w.
    pose proof (completion_loop_slept locators 240 w). lia.
  - vm_compute. reflexivity.
Qed.

(** ** Pages with a loop *)

Lemma clicked_app (a b : list Event) :
  clicked (a ++ b) = clicked a ++ clicked b.
Proof.
  induction a as [|e a IH]; [reflexivity|].
  destruct e; cbn [app clicked]; rewrite IH; reflexivity.
Qed.

Lemma found_locators_app (a b : list Event) :
  found_locators (a ++ b) = found_locators a ++ found_locators b.
Proof.
  induction a as [|e a IH]; [reflexivity|].
  destruct e as [| | ? ? [|] | |]; cbn [app found_locators]; rewrite IH;
    reflexivity.
Qed.

Section Loops.

Context {W : Type} `{Browser W}.
Variable locators : gmap string Locator.

Lemma for_each_cons {A : Type} (x : A) (xs : list A)
    (body : A -> M W Event unit) (w : W) :
  for_each (x :: xs) body w
  = match body x w with
    | (Ok _, w1, t1) =>
        match for_each xs body w1 with
        | (r, w2, t2) => (r, w2, t1 ++ t2)
        end
    | (Raise e, w1, t1) => (Raise e, w1, t1)
    end.
Proof. reflexivity. Qed.

Lemma check_subscription_run (loc : Locator) (w : W) :
  check_subscription loc w
  = match base_wait_until_element loc None w with
    | (Some _, w1) =>
        match base_click loc None w1 with
        | (r, w2) => (r, w2, [EWait loc None true; EClick loc None (is_ok r)])
        end
    | (None, w1) => (Ok tt, w1, [EWait loc None false])
    end.
Proof.
  unfold check_subscription, bind, wait_until_element, click, ret.
  destruct (base_wait_until_element loc None w) as [[e|] w1].
  - rewrite bool_decide_true by eauto.
    destruct (base_click loc None w1) as [[[]|x] w2]; reflexivity.
  - rewrite bool_decide_false by (intros [? ?]; discriminate). reflexivity.
Qed.

Lemma click_run (loc : Locator) (timeout : option nat) (w : W) :
  click loc timeout w
  = match base_click loc timeout w with
    | (r, w') => (r, w', [EClick loc timeout (is_ok r)])
    end.
Proof. reflexivity. Qed.

(** The loop over the subscriptions clicks what it found, nothing else. *)
Lemma subscriptions_loop (locs : list Locator) (w : W) :
  clicked (snd (for_each locs check_subscription w))
  = found_locators (snd (for_each locs check_subscription w))
  /\ incl (found_locators (snd (for_each locs check_subscription w))) locs.
Proof.
  revert w. induction locs as [|loc locs IH]; intros w.
  - cbn. split; [reflexivity|]. intros x [].
  - rewrite for_each_cons, check_subscription_run.
    destruct (base_wait_until_element loc None w) as [[e|] w1].
    + destruct (base_click loc None w1) as [[[]|x] w2]; cbn [is_ok].
      * specialize (IH w2).
        destruct (for_each locs check_subscription w2) as [[r w3] t].
        cbn [fst snd app clicked found_locators] in *.
        destruct IH as [-> Hincl]. split; [reflexivity|].
        intros x [<-|Hx]; [left; reflexivity|right; auto].
      * cbn. split; [reflexivity|]. intros y [<-|[]]. left. reflexivity.
    + specialize (IH w1).
      destruct (for_each locs check_subscription w1) as [[r w3] t].
      cbn [fst snd app clicked found_locators] in *.
      destruct IH as [-> Hincl]. split; [reflexivity|].
      intros x Hx. right. auto.
Qed.

(** A loop of clicks goes through the locators in order and stops at the
    first click that fails. *)
Lemma clicks_loop (locs : list Locator) (w : W) :
  exists k : nat,
    clicked (snd (for_each locs (fun loc => click loc None) w))
    = firstn k locs
    /\ k <= length locs
    /\ (fst (fst (for_each locs (fun loc => click loc None) w)) = Ok tt ->
        k = length locs
        /\ count is_click_ok
             (snd (for_each locs (fun loc => click loc None) w))
           = length locs)
    /\ (fst (fst (for_each locs (fun loc => click loc None) w)) <> Ok tt ->
        S (count is_click_ok
             (snd (for_each locs (fun loc => click loc None) w))) = k).
Proof.
  revert w. induction locs as [|loc locs IH]; intros w.
  - exists 0. cbn. repeat split; auto. intros Hne. contradiction.
  - rewrite for_each_cons, click_run.
    destruct (base_click loc None w) as [[[]|x] w1]; cbn [is_ok].
    + destruct (IH w1) as (k & Hc & Hk & Hok & Hne).
      destruct (for_each locs _ w1) as [[r w2] t].
      cbn [fst snd app] in *.
      exists (S k). cbn [clicked firstn length]. rewrite Hc.
      split; [reflexivity|]. split; [lia|].
      rewrite count_cons. cbn [is_click_ok].
      split.
      * intros Hr. destruct (Hok Hr) as [-> ->]. lia.
      * intros Hr. specialize (Hne Hr). lia.
    + exists 1. cbn. repeat split; auto; try lia; intros; try discriminate.
Qed.

(** A computation followed by [self.click(locators[name])]. *)
Lemma then_click_named {A : Type} (m : M W Event A) (name : string) (w : W) :
  (m ;; click_named locators name) w
  = match m w with
    | (Ok _, w1, t1) =>
        match locators !! name with
        | None => (Raise (Exn KeyError name), w1, t1)
        | Some l =>
            match base_click l None w1 with
            | (r, w2) => (r, w2, t1 ++ [EClick l None (is_ok r)])
            end
        end
    | (Raise e, w1, t1) => (Raise e, w1, t1)
    end.
Proof.
  unfold bind, click_named, locator, click, bind.
  destruct (m w) as [[[a|e] w1] t1]; [|reflexivity].
  destruct (locators !! name) as [l|].
  - destruct (base_click l None w1) as [r w2]. reflexivity.
  - rewrite app_nil_r. reflexivity.
Qed.

End Loops.

(** X4.  [_page_select_subscriptions] clicks a subscription only after
    having found it: whatever the browser does, the clicked locators are
    the found ones, in order, all among the given ones, followed by Next
    when the page gets that far, which it does when it returns normally. *)
Theorem X4_select_subscriptions
    (W : Type) (B : Browser W) (locators : gmap string Locator)
    (sub_check_locs : list Locator) (w : W) :
  exists tail : list Locator,
    clicked (snd (_page_select_subscriptions locators sub_check_locs w))
    = found_locators
        (snd (_page_select_subscriptions locators sub_check_locs w))
      ++ tail
    /\ incl (found_locators
               (snd (_page_select_subscriptions locators sub_check_locs w)))
            sub_check_locs
    /\ (tail = []
        \/ exists next : Locator,
             tail = [next] /\ locators !! "rhci.next" = Some next)
    /\ (fst (fst (_page_select_subscriptions locators sub_check_locs w))
          = Ok tt ->
        length tail = 1).
Proof.
  unfold _page_select_subscriptions. rewrite then_click_named.
  pose proof (subscriptions_loop sub_check_locs w) as [Hc Hincl].
  destruct (for_each sub_check_locs check_subscription w)
    as [[[[]|e] w1] t1]; cbn [fst snd] in *.
  - destruct (locators !! "rhci.next") as [next|] eqn:Hnext.
    + destruct (base_click next None w1) as [r w2]. cbn [fst snd].
      exists [next]. rewrite clicked_app, found_locators_app, Hc.
      cbn. rewrite app_nil_r. repeat split; eauto.
    + exists []. cbn [fst snd]. rewrite app_nil_r.
      repeat split; auto. discriminate.
  - exists []. rewrite app_nil_r. repeat split; auto. discriminate.
Qed.

Example select_subscriptions_skips_absent :
  clicked
    (snd (_page_select_subscriptions sample_locators
            [("id", "sub_1"); ("id", "sub_2"); ("id", "sub_3")]
            (page_showing
               (fun l => negb (String.eqb (snd l) "sub_2")))))
  = [("id", "sub_1"); ("id", "sub_3"); sample_next].
Proof. vm_compute. reflexivity. Qed.

(** Computations that run alike can stand for one another in a sequence. *)
Lemma bind_cong {W E A B : Type} (m m' : M W E A) (k : A -> M W E B) :
  (forall w, m w = m' w) -> forall w, bind m k w = bind m' k w.
Proof. intros Hm w. unfold bind. rewrite Hm. reflexivity. Qed.

(** Clicks in a row, then a click on a registered locator. *)
Lemma clicks_then_click_named
    (W : Type) (B : Browser W) (locators : gmap string Locator)
    (name : string) (last : Locator) (locs : list Locator) (w : W) :
  locators !! name = Some last ->
  exists k : nat,
    clicked (snd ((for_each locs (fun loc => click loc None) ;;
                   click_named locators name) w))
    = firstn k (locs ++ [last])
    /\ (fst (fst ((for_each locs (fun loc => click loc None) ;;
                   click_named locators name) w)) = Ok tt ->
        k = S (length locs)
        /\ count is_click_ok
             (snd ((for_each locs (fun loc => click loc None) ;;
                    click_named locators name) w))
           = k)
    /\ (fst (fst ((for_each locs (fun loc => click loc None) ;;
                   click_named locators name) w)) <> Ok tt ->
        S (count is_click_ok
             (snd ((for_each locs (fun loc => click loc None) ;;
                    click_named locators name) w)))
        = k).
Proof.
  intros Hnext.
  rewrite then_click_named, Hnext.
  destruct (clicks_loop locs w) as (k & Hc & Hk & Hok & Hne).
  destruct (for_each locs _ w) as [[[[]|e] w1] t1];
    cbn [fst snd] in *.
  - destruct (Hok eq_refl) as [-> Hcount].
    destruct (base_click last None w1) as [r w2]. cbn [fst snd].
    exists (S (length locs)).
    rewrite clicked_app, Hc, firstn_all, count_app, Hcount.
    split.
    + replace (S (length locs))
        with (length (locs ++ [last]))
        by (rewrite length_app; cbn; lia).
      rewrite firstn_all. reflexivity.
    + destruct r as [[]|x]; cbn; split; intros; try lia;
        try discriminate; try contradiction.
  - exists k. rewrite Hc. split.
    + rewrite firstn_app. replace (k - length locs) with 0 by lia.
      cbn. rewrite app_nil_r. reflexivity.
    + split; [discriminate|]. intros _. apply Hne. discriminate.
Qed.

(** X5.  [_page_rhev_hypervisor_selection] clicks the hypervisors in the
    given order and then Next, and stops at the first click that fails:
    the clicked locators are a prefix of the given ones followed by Next,
    the whole of it when the page returns normally, and all clicks but the
    last one of a failed run succeeded. *)
Theorem X5_hypervisor_selection
    (W : Type) (B : Browser W) (locators : gmap string Locator)
    (next : Locator) (rhevh_mac_locs : list Locator) (w : W) :
  locators !! "rhci.next" = Some next ->
  exists k : nat,
    clicked (snd (_page_rhev_hypervisor_selection locators rhevh_mac_locs w))
    = firstn k (rhevh_mac_locs ++ [next])
    /\ (fst (fst (_page_rhev_hypervisor_selection locators rhevh_mac_locs w))
          = Ok tt ->
        k = S (length rhevh_mac_locs)
        /\ count is_click_ok
             (snd (_page_rhev_hypervisor_selection locators
                     rhevh_mac_locs w))
           = k)
    /\ (fst (fst (_page_rhev_hypervisor_selection locators rhevh_mac_locs w))
          <> Ok tt ->
        S (count is_click_ok
             (snd (_page_rhev_hypervisor_selection locators
                     rhevh_mac_locs w)))
        = k).
Proof.
  intros Hnext. unfold _page_rhev_hypervisor_selection.
  apply clicks_then_click_named. exact Hnext.
Qed.

Lemma X5_hypervisor_selection_witness :
  exists k : nat,
    clicked
      (snd (_page_rhev_hypervisor_selection sample_locators
              [("id", "mac_1"); ("id", "mac_2")]
              (page_showing (fun _ => true))))
    = firstn k ([("id", "mac_1"); ("id", "mac_2")] ++ [sample_next])
    /\ k = 3.
Proof.
  destruct (X5_hypervisor_selection Fake fake_browser sample_locators
              sample_next [("id", "mac_1"); ("id", "mac_2")]
              (page_showing (fun _ => true)) eq_refl)
    as (k & Hclicked & Hok & _).
  exists k. split; [exact Hclicked|].
  apply Hok. vm_compute. reflexivity.
Defined.

(** X6.  On a page where every click succeeds: when the root password
    field of the RHEV configuration page is not there, the page enters
    nothing and still clicks Next; when the data domain field of the RHEV
    storage page is not there, that page enters nothing and returns
    without clicking Next. *)
Theorem X6_absent_primary_field
    (locators : gmap string Locator) (root next domain storage : Locator)
    (pr : Locator -> bool)
    (pw dc cl cpu dn da dp en ea ep : PyVal) :
  locators !! "rhci.rhev_root_pass" = Some root ->
  locators !! "rhci.next" = Some next ->
  locators !! "rhci.data_domain_name" = Some domain ->
  pr root = false ->
  pr domain = false ->
  _page_rhev_configuration locators pw dc cl cpu (page_showing pr)
    = (Ok tt, page_showing pr,
       [EWait root None false; EClick next None true])
  /\ _page_rhev_storage_configuration locators dn da dp en ea ep storage
       (page_showing pr)
     = (Ok tt, page_showing pr,
        EWait storage None (pr storage)
          :: (if pr storage then [EClick storage None true] else [])
          ++ [EWait domain None false]).
Proof.
  intros Hroot Hnext Hdomain Hpr Hpd. split.
  - cbv [_page_rhev_configuration bind locator wait_until_element click ret].
    rewrite Hroot, Hnext.
    cbn [base_wait_until_element base_click fake_browser page_showing
         fk_present fake_click fk_clicks fk_click_default fake_answer].
    rewrite Hpr. reflexivity.
  - cbv [_page_rhev_storage_configuration bind locator wait_until_element
         click ret].
    rewrite Hdomain.
    cbn [base_wait_until_element base_click fake_browser page_showing
         fk_present fake_click fk_clicks fk_click_default fake_answer].
    destruct (pr storage);
      cbn [bool_decide decide_rel is_Some_dec];
      cbn [base_wait_until_element base_click fake_browser page_showing
           fk_present fake_click fk_clicks fk_click_default fake_answer];
      rewrite Hpd; reflexivity.
Qed.

Lemma X6_absent_primary_field_witness :
  _page_rhev_configuration sample_locators (PStr "secret") PNone PNone PNone
    (page_showing (fun _ => false))
    = (Ok tt, page_showing (fun _ => false),
       [EWait ("id", "rhev_root_pass") None false;
        EClick sample_next None true])
  /\ _page_rhev_storage_configuration wizard_locators
       PNone PNone PNone PNone PNone PNone ("id", "storage_nfs")
       (page_showing (fun _ => false))
     = (Ok tt, page_showing (fun _ => false),
        [EWait ("id", "storage_nfs") None false;
         EWait ("id", "data_domain_name") None false]).
Proof.
  split.
  - apply (X6_absent_primary_field wizard_locators
             ("id", "rhev_root_pass") sample_next ("id", "data_domain_name")
             ("id", "storage_nfs") (fun _ => false)
             (PStr "secret") PNone PNone PNone
             PNone PNone PNone PNone PNone PNone);
      vm_compute; reflexivity.
  - apply (X6_absent_primary_field wizard_locators
             ("id", "rhev_root_pass") sample_next ("id", "data_domain_name")
             ("id", "storage_nfs") (fun _ => false)
             (PStr "secret") PNone PNone PNone
             PNone PNone PNone PNone PNone PNone);
      vm_compute; reflexivity.
Defined.

(** X7.  When every product has a locator, [_page_software_selection]
    clicks the products in the given order and then Select, and stops at
    the first click that fails. *)
Theorem X7_software_selection
    (W : Type) (B : Browser W) (locators : gmap string Locator)
    (select : Locator) (products : list string) (locs : list Locator)
    (w : W) :
  Forall2
    (fun prod loc =>
       interp_loc locators "rhci.product_select" (PStr prod) = Ok loc)
    products locs ->
  locators !! "rhci.select" = Some select ->
  exists k : nat,
    clicked (snd (_page_software_selection locators products w))
    = firstn k (locs ++ [select])
    /\ (fst (fst (_page_software_selection locators products w)) = Ok tt ->
        k = S (length products)
        /\ count is_click_ok
             (snd (_page_software_selection locators products w)) = k)
    /\ (fst (fst (_page_software_selection locators products w)) <> Ok tt ->
        S (count is_click_ok
             (snd (_page_software_selection locators products w))) = k).
Proof.
  intros Hlocs Hselect. unfold _page_software_selection.
  assert (Hloop : forall w0,
             for_each products
               (fun prod =>
                  l <- lift (interp_loc locators "rhci.product_select"
                               (PStr prod)) ;;
                  click l None) w0
             = for_each locs (fun loc => click loc None) w0).
  { induction Hlocs as [|prod loc products locs Hloc _ IH]; intros w0;
      [reflexivity|].
    rewrite !for_each_cons. unfold bind at 1, lift at 1. rewrite Hloc.
    destruct (click loc None w0) as [[[[]|e] w1] t1]; cbn [app].
    - rewrite IH. reflexivity.
    - reflexivity. }
  assert (Hlen : length products = length locs)
    by (eapply Forall2_length; exact Hlocs).
  rewrite Hlen.
  destruct (clicks_then_click_named W B locators "rhci.select" select locs w
              Hselect) as (k & Hc & Hok & Hne).
  exists k.
  rewrite (bind_cong _ _ (fun _ => click_named locators "rhci.select")
             Hloop w).
  auto.
Qed.

Lemma X7_software_selection_witness :
  exists k : nat,
    clicked
      (snd (_page_software_selection wizard_locators ["rhev"; "cloudforms"]
              (page_showing (fun _ => true))))
    = firstn k
        ([("xpath", "//span[@id='is_rhev']");
          ("xpath", "//span[@id='is_cloudforms']")]
         ++ [("xpath", "//button[.='Select']")])
    /\ k = 3.
Proof.
  destruct (X7_software_selection Fake fake_browser wizard_locators
              ("xpath", "//button[.='Select']") ["rhev"; "cloudforms"]
              [("xpath", "//span[@id='is_rhev']");
               ("xpath", "//span[@id='is_cloudforms']")]
              (page_showing (fun _ => true)))
    as (k & Hclicked & Hok & _).
  - repeat constructor.
  - vm_compute. reflexivity.
  - exists k. split; [exact Hclicked|].
    apply Hok. vm_compute. reflexivity.
Defined.

End RhciFacts.

(* ===================================================================== *)
(** * Further properties of locator interpolation                         *)
(* ===================================================================== *)

Module InterpFacts.

Import Rhci Placeholders.

Lemma py_format_conversion (c d : ascii) (s : string) (args : list string) :
  Ascii.eqb c "%"%char = true ->
  py_format (String c (String d s)) args
  = if Ascii.eqb d "s"%char then
      match args with
      | [] =>
          Raise (Exn TypeError "not enough arguments for format string")
      | a :: args' =>
          match py_format s args' with
          | Ok r => Ok (a +:+ r)
          | Raise e => Raise e
          end
      end
    else if Ascii.eqb d "%"%char then
      match py_format s args with
      | Ok r => Ok (String "%"%char r)
      | Raise e => Raise e
      end
    else Raise (Exn ValueError "unsupported format character").
Proof. intros Hc. cbn [py_format]. rewrite Hc. reflexivity. Qed.

Lemma placeholders_conversion (c d : ascii) (s : string) :
  Ascii.eqb c "%"%char = true ->
  placeholders (String c (String d s))
  = if Ascii.eqb d "s"%char then S <$> placeholders s
    else if Ascii.eqb d "%"%char then placeholders s
    else None.
Proof. intros Hc. cbn [placeholders]. rewrite Hc. reflexivity. Qed.

Lemma placeholders_literal (c : ascii) (s : string) :
  Ascii.eqb c "%"%char = false ->
  placeholders (String c s) = placeholders s.
Proof. intros Hc. cbn [placeholders]. rewrite Hc. reflexivity. Qed.

(** Formatting succeeds exactly when there is one argument for each
    placeholder. *)
Lemma py_format_ok_iff (fmt : string) :
  (forall args,
      is_ok (py_format fmt args) = true
      <-> placeholders fmt = Some (length args))
  /\ (forall c args,
        is_ok (py_format (String c fmt) args) = true
        <-> placeholders (String c fmt) = Some (length args)).
Proof.
  induction fmt as [|d fmt [IH1 IH2]].
  - split.
    + intros [|a args]; cbn; split; intros; try reflexivity; discriminate.
    + intros c [|a args]; cbn; destruct (Ascii.eqb c "%"%char); cbn;
        split; intros; try reflexivity; discriminate.
  - split; [exact (IH2 d)|].
    intros c args. destruct (Ascii.eqb c "%"%char) eqn:Hc.
    + rewrite (py_format_conversion c d fmt args Hc),
        (placeholders_conversion c d fmt Hc).
      destruct (Ascii.eqb d "s"%char).
      * destruct args as [|a args].
        -- cbn. destruct (placeholders fmt); cbn; split; intros;
             discriminate.
        -- cbn [length].
           etransitivity; [|etransitivity; [apply (IH1 args)|]].
           ++ destruct (py_format fmt args); cbn [is_ok]; tauto.
           ++ destruct (placeholders fmt) as [n|]; cbn; split; intros Hx;
                try discriminate; injection Hx as Hx; f_equal; lia.
      * destruct (Ascii.eqb d "%"%char).
        -- etransitivity; [|apply (IH1 args)].
           destruct (py_format fmt args); cbn [is_ok]; tauto.
        -- cbn. split; intros; discriminate.
    + rewrite (py_format_literal c _ args Hc), (placeholders_literal c _ Hc).
      etransitivity; [|apply (IH2 d args)].
      destruct (py_format (String d fmt) args); cbn [is_ok]; tauto.
Qed.

(** A well-formed expression without placeholder takes no argument. *)
Lemma py_format_surplus (fmt : string) :
  (forall a,
      placeholders fmt = Some 0 ->
      py_format fmt [a]
      = Raise (Exn TypeError
                 "not all arguments converted during string formatting"))
  /\ (forall c a,
        placeholders (String c fmt) = Some 0 ->
        py_format (String c fmt) [a]
        = Raise (Exn TypeError
                   "not all arguments converted during string formatting")).
Proof.
  induction fmt as [|d fmt [IH1 IH2]].
  - split; [reflexivity|].
    intros c a. cbn. destruct (Ascii.eqb c "%"%char); [discriminate|].
    reflexivity.
  - split; [exact (IH2 d)|].
    intros c a. destruct (Ascii.eqb c "%"%char) eqn:Hc.
    + rewrite (py_format_conversion c d fmt [a] Hc),
        (placeholders_conversion c d fmt Hc).
      destruct (Ascii.eqb d "s"%char).
      * destruct (placeholders fmt); discriminate.
      * destruct (Ascii.eqb d "%"%char); [|discriminate].
        intros Hp. rewrite (IH1 a Hp). reflexivity.
    + rewrite (py_format_literal c _ [a] Hc), (placeholders_literal c _ Hc).
      intros Hp. rewrite (IH2 d a Hp). reflexivity.
Qed.

Lemma simple_format_conversion (c d : ascii) (s : string) :
  Ascii.eqb c "%"%char = true ->
  simple_format (String c (String d s))
  = (Ascii.eqb d "s"%char || Ascii.eqb d "%"%char) && simple_format s.
Proof. intros Hc. cbn [simple_format]. rewrite Hc. reflexivity. Qed.

Lemma simple_format_literal (c : ascii) (s : string) :
  Ascii.eqb c "%"%char = false ->
  simple_format (String c s) = simple_format s.
Proof. intros Hc. cbn [simple_format]. rewrite Hc. reflexivity. Qed.

(** With fewer arguments than placeholders the formatting stops at the
    first placeholder left without one. *)
Lemma py_format_shortage (fmt : string) :
  (forall args n,
      placeholders fmt = Some n -> length args < n ->
      py_format fmt args
      = Raise (Exn TypeError "not enough arguments for format string"))
  /\ (forall c args n,
        placeholders (String c fmt) = Some n -> length args < n ->
        py_format (String c fmt) args
        = Raise (Exn TypeError "not enough arguments for format string")).
Proof.
  induction fmt as [|d fmt [IH1 IH2]].
  - split.
    + intros args n. cbn. intros [= <-] Hl. lia.
    + intros c args n. cbn. destruct (Ascii.eqb c "%"%char); [discriminate|].
      intros [= <-] Hl. lia.
  - split; [exact (IH2 d)|].
    intros c args n. destruct (Ascii.eqb c "%"%char) eqn:Hc.
    + rewrite (py_format_conversion c d fmt args Hc),
        (placeholders_conversion c d fmt Hc).
      destruct (Ascii.eqb d "s"%char).
      * destruct (placeholders fmt) as [k|] eqn:Hk; cbn; [|discriminate].
        intros [= <-] Hl. destruct args as [|a args]; [reflexivity|].
        cbn [length] in Hl. rewrite (IH1 args k eq_refl) by lia. reflexivity.
      * destruct (Ascii.eqb d "%"%char); [|discriminate].
        intros Hp Hl. rewrite (IH1 args n Hp Hl). reflexivity.
    + rewrite (py_format_literal c _ args Hc), (placeholders_literal c _ Hc).
      intros Hp Hl. rewrite (IH2 d args n Hp Hl). reflexivity.
Qed.

(** On the fragment, the formatting fails for a wrong number of arguments
    or for a [%] that ends the string, and for nothing else. *)
Lemma py_format_simple_errors (fmt : string) :
  (forall args e,
      simple_format fmt = true -> py_format fmt args = Raise e ->
      e = Exn TypeError "not all arguments converted during string formatting"
      \/ e = Exn TypeError "not enough arguments for format string"
      \/ e = Exn ValueError "incomplete format")
  /\ (forall c args e,
        simple_format (String c fmt) = true ->
        py_format (String c fmt) args = Raise e ->
        e = Exn TypeError
              "not all arguments converted during string formatting"
        \/ e = Exn TypeError "not enough arguments for format string"
        \/ e = Exn ValueError "incomplete format").
Proof.
  induction fmt as [|d fmt [IH1 IH2]].
  - split.
    + intros [|a args] e _; cbn; intros [= <-]. left. reflexivity.
    + intros c [|a args] e _; cbn; destruct (Ascii.eqb c "%"%char); cbn;
        intros [= <-]; auto.
  - split; [exact (IH2 d)|].
    intros c args e. destruct (Ascii.eqb c "%"%char) eqn:Hc.
    + rewrite (py_format_conversion c d fmt args Hc),
        (simple_format_conversion c d fmt Hc).
      intros Hs. apply andb_prop in Hs as [Hd Hs].
      destruct (Ascii.eqb d "s"%char).
      * destruct args as [|a args]; [intros [= <-]; auto|].
        destruct (py_format fmt args) eqn:Hf; [discriminate|].
        intros [= <-]. exact (IH1 args _ Hs Hf).
      * destruct (Ascii.eqb d "%"%char); [|discriminate Hd].
        destruct (py_format fmt args) eqn:Hf; [discriminate|].
        intros [= <-]. exact (IH1 args _ Hs Hf).
    + rewrite (py_format_literal c _ args Hc), (simple_format_literal c _ Hc).
      intros Hs.
      destruct (py_format (String d fmt) args) eqn:Hf; [discriminate|].
      intros [= <-]. exact (IH2 d args _ Hs Hf).
Qed.

(** X8.  For a registered expression of the fragment of [%] that is
    modelled (conversions [%s] and [%%] only) and a value that is [None],
    a boolean, an integer or a string: [interp_loc] returns a locator
    exactly when the name is registered and the expression has one [%s]
    placeholder, and the locator has the registered strategy.  An
    unregistered name is [KeyError(name)]; an expression without
    placeholder or with more than one is a [TypeError], whatever the
    value; nothing else is raised but the [ValueError] of a [%] that ends
    the expression. *)
Theorem X8_interp_loc_succeeds_iff
    (locators : gmap string Locator) (name : string) (v : PyVal) :
  simple_locator locators name = true ->
  (is_ok (interp_loc locators name v) = true
   <-> exists l : Locator,
         locators !! name = Some l /\ placeholders (snd l) = Some 1)
  /\ (forall loc : Locator,
        interp_loc locators name v = Ok loc ->
        exists l : Locator, locators !! name = Some l /\ fst loc = fst l)
  /\ (locators !! name = None ->
      interp_loc locators name v = Raise (Exn KeyError name))
  /\ (forall l : Locator,
        locators !! name = Some l ->
        placeholders (snd l) = Some 0 ->
        interp_loc locators name v
        = Raise (Exn TypeError
                   "not all arguments converted during string formatting"))
  /\ (forall (l : Locator) (n : nat),
        locators !! name = Some l ->
        placeholders (snd l) = Some (S (S n)) ->
        interp_loc locators name v
        = Raise (Exn TypeError "not enough arguments for format string"))
  /\ (forall e : exn,
        interp_loc locators name v = Raise e ->
        e = Exn KeyError name
        \/ e = Exn TypeError
                 "not all arguments converted during string formatting"
        \/ e = Exn TypeError "not enough arguments for format string"
        \/ e = Exn ValueError "incomplete format").
Proof.
  unfold simple_locator, interp_loc, Locator in *. cbv zeta. intros Hsimple.
  split; [|split; [|split; [|split; [|split]]]].
  - destruct (locators !! name) as [l|].
    + pose proof (proj1 (py_format_ok_iff (snd l))
                    [py_str (py_or v (PStr ""))]) as Hiff.
      destruct (py_format (snd l) [py_str (py_or v (PStr ""))]);
        cbn [is_ok length] in *; split.
      * intros _. exists l. split; [reflexivity|]. apply Hiff. reflexivity.
      * reflexivity.
      * discriminate.
      * intros (l' & [= <-] & Hp). apply Hiff in Hp. discriminate.
    + cbn. split; [discriminate|]. intros (l & Hl & _). discriminate.
  - intros loc. destruct (locators !! name) as [l|]; [|discriminate].
    destruct (py_format (snd l) _); [|discriminate].
    intros [= <-]. exists l. auto.
  - intros ->. reflexivity.
  - intros l Hl Hp. rewrite Hl.
    rewrite (proj1 (py_format_surplus (snd l)) _ Hp). reflexivity.
  - intros l n Hl Hp. rewrite Hl.
    rewrite (proj1 (py_format_shortage (snd l)) _ _ Hp) by (cbn; lia).
    reflexivity.
  - intros e. destruct (locators !! name) as [l|].
    + destruct (py_format (snd l) [py_str (py_or v (PStr ""))]) eqn:Hf;
        [discriminate|].
      intros [= <-]. right.
      exact (proj1 (py_format_simple_errors (snd l)) _ _ Hsimple Hf).
    + intros [= <-]. left. reflexivity.
Qed.

Lemma X8_interp_loc_succeeds_iff_witness :
  is_ok (interp_loc sample_locators "rhci.env_path" (PStr "Library")) = true.
Proof.
  apply (proj1 (X8_interp_loc_succeeds_iff sample_locators "rhci.env_path"
                  (PStr "Library") eq_refl)).
  exists ("xpath", "//label[contains(., '%s')]").
  split; vm_compute; reflexivity.
Defined.

(** [interp_loc] does not tell the falsey values apart: [None], [False],
    [0] and the empty string all give what the empty string gives. *)
Lemma interp_loc_falsey
    (locators : gmap string Locator) (name : string) (v : PyVal) :
  truthy v = false ->
  interp_loc locators name v = interp_loc locators name (PStr "").
Proof.
  intros Hv. unfold interp_loc, py_or. cbv zeta. rewrite Hv. reflexivity.
Qed.

End InterpFacts.

(* ===================================================================== *)
(** * Further properties of the content page object                       *)
(* ===================================================================== *)

Module ContentFacts.

Import Content ContentNotions.

(** ** Splitting *)

Lemma split_on_cons (sep c : ascii) (s : string) :
  split_on sep (String c s)
  = if Ascii.eqb c sep then "" :: split_on sep s
    else match split_on sep s with
         | [] => [String c ""]
         | p :: ps => String c p :: ps
         end.
Proof. reflexivity. Qed.

Lemma split_on_not_nil (sep : ascii) (s : string) : split_on sep s <> [].
Proof.
  induction s as [|c s IH]; [discriminate|].
  rewrite split_on_cons. destruct (Ascii.eqb c sep); [discriminate|].
  destruct (split_on sep s); [contradiction|discriminate].
Qed.

(** No piece holds the separator. *)
Lemma split_on_pieces (sep : ascii) (s : string) :
  Forall (fun piece => occurs sep piece = false) (split_on sep s).
Proof.
  induction s as [|c s IH]; [repeat constructor|].
  rewrite split_on_cons. destruct (Ascii.eqb c sep) eqn:Hc.
  - constructor; [reflexivity|exact IH].
  - destruct (split_on sep s) as [|p ps] eqn:E.
    + exfalso. eapply split_on_not_nil. exact E.
    + inversion IH as [|? ? Hp Hps]; subst.
      constructor; [|exact Hps].
      cbn [occurs]. rewrite Hc, Hp. reflexivity.
Qed.

Lemma last_in {A : Type} (l : list A) (d : A) : l <> [] -> In (List.last l d) l.
Proof.
  induction l as [|x l IH]; [contradiction|]. intros _.
  destruct l as [|y l]; [left; reflexivity|].
  right. apply IH. discriminate.
Qed.

(** The last piece holds no separator. *)
Lemma last_piece (sep : ascii) (s : string) :
  occurs sep (List.last (split_on sep s) "") = false.
Proof.
  pose proof (split_on_pieces sep s) as Hall.
  rewrite Forall_forall in Hall. apply Hall.
  apply list_elem_of_In. apply last_in. apply split_on_not_nil.
Qed.

(** After the last separator comes the last piece. *)
Lemma last_piece_suffix (sep : ascii) (pre post : string) :
  occurs sep post = false ->
  List.last (split_on sep (pre +:+ String sep post)) "" = post.
Proof.
  intros Hpost.
  assert (Hfree : split_on sep post = [post]).
  { clear pre. induction post as [|c post IH]; [reflexivity|].
    cbn [occurs] in Hpost. apply orb_false_elim in Hpost as [Hc Hpost].
    rewrite split_on_cons, Hc, (IH Hpost). reflexivity. }
  induction pre as [|c pre IH].
  - change ("" +:+ String sep post) with (String sep post).
    rewrite split_on_cons, Ascii.eqb_refl, Hfree. reflexivity.
  - change (String c pre +:+ String sep post)
      with (String c (pre +:+ String sep post)).
    rewrite split_on_cons.
    destruct (split_on sep (pre +:+ String sep post)) as [|p ps] eqn:E.
    + exfalso. eapply split_on_not_nil. exact E.
    + destruct (Ascii.eqb c sep).
      * exact IH.
      * destruct ps as [|q ps]; [|exact IH].
        (* a single piece cannot hold the separator of the string *)
        exfalso. clear IH.
        assert (Hin : occurs sep p = false).
        { pose proof (split_on_pieces sep (pre +:+ String sep post)) as Hall.
          rewrite E in Hall. inversion Hall; assumption. }
        assert (Hlen : forall s, length (split_on sep s) = 1 ->
                                 occurs sep s = false).
        { clear. induction s as [|d s IHs]; [reflexivity|].
          rewrite split_on_cons. cbn [occurs].
          destruct (Ascii.eqb d sep) eqn:Hd.
          - cbn [length]. intros Hl.
            pose proof (split_on_not_nil sep s) as Hn.
            destruct (split_on sep s); [contradiction|discriminate].
          - destruct (split_on sep s) as [|p0 ps0] eqn:E0.
            + exfalso. eapply split_on_not_nil. exact E0.
            + cbn [length]. intros Hl. apply IHs. cbn [length]. exact Hl. }
        assert (Hocc : occurs sep (pre +:+ String sep post) = true).
        { clear. induction pre as [|d pre IHp].
          - change ("" +:+ String sep post) with (String sep post).
            cbn [occurs]. rewrite Ascii.eqb_refl. reflexivity.
          - change (String d pre +:+ String sep post)
              with (String d (pre +:+ String sep post)).
            cbn [occurs]. rewrite IHp. apply orb_true_r. }
        rewrite Hlen in Hocc; [discriminate|]. rewrite E. reflexivity.
Qed.

(** A sequence that ends well went well through its first part. *)
Lemma bind_ok {W E A B : Type} (m : M W E A) (k : A -> M W E B) (w : W) :
  is_ok (fst (fst (bind m k w))) = true ->
  exists (a : A) (w1 : W) (t1 : list E),
    m w = (Ok a, w1, t1) /\ is_ok (fst (fst (k a w1))) = true.
Proof.
  unfold bind. destruct (m w) as [[[a|e] w1] t1]; [|discriminate].
  intros Hk. exists a, w1, t1. split; [reflexivity|].
  destruct (k a w1) as [[r w2] t2]. exact Hk.
Qed.

Section AnyDriver.

Context {W : Type} `{Driver W}.
Variable L : Locators.

(** Looking for an element instead of a name finds nothing: the loop
    raises as soon as there is a provider to compare with. *)
Lemma provider_loop_element (e : WebElement) (providers : list WebElement)
    (w : W) :
  forall found w' t,
    provider_loop L (OElem e) providers w = (Ok found, w', t) ->
    found = (None, None).
Proof.
  destruct providers as [|provider rest]; intros found w' t.
  - cbn. intros [= <- _ _]. reflexivity.
  - cbn [provider_loop].
    unfold bind, format, lift, find_element_by_xpath, text, obj_in, raise.
    destruct (py_format (PROVIDER_BY_TITLE L) [obj_str (OElem e)]);
      [|discriminate].
    destruct (drv_find_element_by_xpath provider a w); discriminate.
Qed.

Lemma get_provider_element (e : WebElement) (w : W) :
  forall found w' t,
    _get_provider_by_name L (OElem e) w = (Ok found, w', t) ->
    found = (None, None).
Proof.
  intros found w' t. unfold _get_provider_by_name, bind at 1.
  unfold find_elements_by_xpath.
  destruct (provider_loop L (OElem e) _ w) as [[[f|x] w1] t1] eqn:Hloop;
    [|discriminate].
  intros [= <- _ _]. eapply provider_loop_element. exact Hloop.
Qed.

(** What the loop of [_get_provider_by_name] returns for a name. *)
Lemma provider_loop_name (name : string) (providers : list WebElement)
    (w : W) :
  forall r w' t,
    provider_loop L (OStr name) providers w = (r, w', t) ->
    w' = w /\ t = []
    /\ (forall we id,
          r = Ok (Some we, id) ->
          str_contains name (drv_text we w) = true
          /\ exists block attr xpath,
               In block providers
               /\ py_format (PROVIDER_BY_TITLE L) [name] = Ok xpath
               /\ drv_find_element_by_xpath block xpath w = Ok we
               /\ drv_get_attribute block "id" w = Some attr
               /\ id = Some (List.last (split_on "_" attr) ""))
    /\ (forall id,
          r = Ok (None, id) ->
          id = None
          /\ Forall
               (fun block =>
                  exists we xpath,
                    py_format (PROVIDER_BY_TITLE L) [name] = Ok xpath
                    /\ drv_find_element_by_xpath block xpath w = Ok we
                    /\ str_contains name (drv_text we w) = false)
               providers).
Proof.
  induction providers as [|block rest IH]; intros r w' t.
  - cbn. intros [= <- <- <-].
    split; [reflexivity|]. split; [reflexivity|]. split.
    + intros we id [=].
    + intros id [= <-]. split; [reflexivity|constructor].
  - cbn [provider_loop].
    unfold bind at 1, format at 1, lift at 1. cbn [obj_str].
    destruct (py_format (PROVIDER_BY_TITLE L) [name]) as [xpath|x] eqn:Hfmt.
    2:{ intros [= <- <- <-].
        split; [reflexivity|]. split; [reflexivity|].
        split; intros; discriminate. }
    unfold bind at 1, find_element_by_xpath at 1.
    destruct (drv_find_element_by_xpath block xpath w) as [we|x] eqn:Hfind.
    2:{ intros [= <- <- <-].
        split; [reflexivity|]. split; [reflexivity|].
        split; intros; discriminate. }
    unfold bind at 1, text at 1. unfold bind at 1, obj_in at 1, ret at 1.
    destruct (str_contains name (drv_text we w)) eqn:Hin.
    + unfold bind at 1, get_attribute at 1.
      destruct (drv_get_attribute block "id" w) as [attr|] eqn:Hattr.
      * cbn. intros [= <- <- <-].
        split; [reflexivity|]. split; [reflexivity|]. split.
        -- intros we0 id0 [= <- <-]. split; [exact Hin|].
           exists block, attr, xpath.
           repeat split; auto; left; reflexivity.
        -- intros id0 [=].
      * cbn. intros [= <- <- <-].
        split; [reflexivity|]. split; [reflexivity|].
        split; intros; discriminate.
    + destruct (provider_loop L (OStr name) rest w) as [[r1 w1] t1] eqn:Hrest.
      destruct (IH r1 w1 t1 eq_refl) as (-> & -> & Hsome & Hnone).
      cbn. intros [= <- <- <-].
      split; [reflexivity|]. split; [reflexivity|]. split.
      * intros we0 id0 Hr.
        destruct (Hsome we0 id0 Hr) as (Hc & b & a & x & Hb & Hrest').
        split; [exact Hc|].
        exists b, a, x. split; [right; exact Hb|exact Hrest'].
      * intros id0 Hr. destruct (Hnone id0 Hr) as [Hid Hall].
        split; [exact Hid|]. constructor; [|exact Hall].
        exists we, xpath. auto.
Qed.

(** The lookups of the driver raise no [IndexError]. *)
Hypothesis Hdrv :
  forall block xpath w x,
    drv_find_element_by_xpath block xpath w = Raise x ->
    exn_cls x <> IndexError.

(** What the loop of [_get_product_by_name] returns for a name. *)
Lemma product_loop_name (name : string) (products : list WebElement)
    (w : W) :
  forall r w' t,
    product_loop L (OStr name) products w = (r, w', t) ->
    w' = w /\ t = []
    /\ (forall we id,
          r = Ok (Some we, id) ->
          str_contains name (drv_text we w) = true
          /\ exists block link url,
               In block products
               /\ drv_find_element_by_xpath block (PRODUCT L) w = Ok we
               /\ drv_find_element_by_xpath block (PRODUCT_ID L) w = Ok link
               /\ drv_get_attribute link "data-url" w = Some url
               /\ split_on "/" url !! 5 = id)
    /\ (forall id, r = Ok (None, id) -> id = None)
    /\ (forall e,
          r = Raise e ->
          exn_cls e = IndexError ->
          exists block link url,
            In block products
            /\ drv_find_element_by_xpath block (PRODUCT_ID L) w = Ok link
            /\ drv_get_attribute link "data-url" w = Some url
            /\ length (split_on "/" url) <= 5).
Proof.
  induction products as [|block rest IH]; intros r w' t.
  - cbn. intros [= <- <- <-].
    split; [reflexivity|]. split; [reflexivity|]. split; [|split].
    + intros we id [=].
    + intros id [= <-]. reflexivity.
    + intros e [=].
  - cbn [product_loop].
    unfold bind at 1, find_element_by_xpath at 1.
    destruct (drv_find_element_by_xpath block (PRODUCT L) w)
      as [we|x] eqn:Hfind.
    2:{ intros [= <- <- <-].
        split; [reflexivity|]. split; [reflexivity|].
        split; [|split]; intros; try discriminate.
        match goal with Hx : Raise _ = Raise _ |- _ => injection Hx as <- end.
        exfalso. apply (Hdrv block (PRODUCT L) w x Hfind).
        assumption. }
    unfold bind at 1, text at 1. unfold bind at 1, obj_in at 1, ret at 1.
    destruct (str_contains name (drv_text we w)) eqn:Hin.
    + unfold bind at 1, find_element_by_xpath at 1.
      destruct (drv_find_element_by_xpath block (PRODUCT_ID L) w)
        as [link|x] eqn:Hlink.
      2:{ intros [= <- <- <-].
          split; [reflexivity|]. split; [reflexivity|].
          split; [|split]; intros; try discriminate.
          match goal with
          | Hx : Raise _ = Raise _ |- _ => injection Hx as <-
          end.
          exfalso. apply (Hdrv block (PRODUCT_ID L) w x Hlink).
          assumption. }
      unfold bind at 1, get_attribute at 1.
      destruct (drv_get_attribute link "data-url" w) as [url|] eqn:Hurl.
      * destruct (split_on "/" url !! 5) as [id|] eqn:Hid.
        -- cbn. intros [= <- <- <-].
           split; [reflexivity|]. split; [reflexivity|]. split; [|split].
           ++ intros we0 id0 [= <- <-]. split; [exact Hin|].
              exists block, link, url.
              repeat split; auto; left; reflexivity.
           ++ intros id0 [=].
           ++ intros e [=].
        -- cbn. intros [= <- <- <-].
           split; [reflexivity|]. split; [reflexivity|]. split; [|split].
           ++ intros we0 id0 [=].
           ++ intros id0 [=].
           ++ intros e _ _. exists block, link, url.
              repeat split; auto; try (left; reflexivity).
              apply lookup_ge_None. exact Hid.
      * cbn. intros [= <- <- <-].
        split; [reflexivity|]. split; [reflexivity|].
        split; [|split]; intros; try discriminate.
        match goal with Hx : Raise _ = Raise _ |- _ => injection Hx as <- end.
        discriminate.
    + destruct (product_loop L (OStr name) rest w) as [[r1 w1] t1] eqn:Hrest.
      destruct (IH r1 w1 t1 eq_refl) as (-> & -> & Hsome & Hnone & Hidx).
      cbn. intros [= <- <- <-].
      split; [reflexivity|]. split; [reflexivity|]. split; [|split].
      * intros we0 id0 Hr.
        destruct (Hsome we0 id0 Hr) as (Hc & b & l & u & Hb & Hrest').
        split; [exact Hc|].
        exists b, l, u. split; [right; exact Hb|exact Hrest'].
      * exact Hnone.
      * intros e Hr Hcls.
        destruct (Hidx e Hr Hcls) as (b & l & u & Hb & Hrest').
        exists b, l, u. split; [right; exact Hb|exact Hrest'].
Qed.

End AnyDriver.

(** X10.  [_get_provider_by_name] only reads the page: it leaves the
    session as it is and performs no interaction.  When it returns an
    element, the name is contained in the text of that element, which was
    found under one of the listed provider blocks, and the id is the part
    of the block's [id] attribute after its last underscore, so an id
    without underscore; when it returns no element it returns no id, and
    every listed block had a title element whose text lacks the name. *)
Theorem X10_get_provider_by_name
    (W : Type) (D : Driver W) (L : Locators) (name : string) (w w' : W)
    (r : outcome (option WebElement * option string)) (t : list Event) :
  _get_provider_by_name L (OStr name) w = (r, w', t) ->
  w' = w /\ t = []
  /\ (forall we id,
        r = Ok (Some we, id) ->
        str_contains name (drv_text we w) = true
        /\ exists block attr xpath,
             In block (drv_find_elements_by_xpath (PROVIDERS L) w)
             /\ py_format (PROVIDER_BY_TITLE L) [name] = Ok xpath
             /\ drv_find_element_by_xpath block xpath w = Ok we
             /\ drv_get_attribute block "id" w = Some attr
             /\ id = Some (List.last (split_on "_" attr) "")
             /\ occurs "_" (List.last (split_on "_" attr) "") = false)
  /\ (forall id,
        r = Ok (None, id) ->
        id = None
        /\ Forall
             (fun block =>
                exists we xpath,
                  py_format (PROVIDER_BY_TITLE L) [name] = Ok xpath
                  /\ drv_find_element_by_xpath block xpath w = Ok we
                  /\ str_contains name (drv_text we w) = false)
             (drv_find_elements_by_xpath (PROVIDERS L) w)).
Proof.
  unfold _get_provider_by_name, bind at 1, find_elements_by_xpath.
  destruct (provider_loop L (OStr name) _ w) as [[r1 w1] t1] eqn:Hloop.
  destruct (provider_loop_name L name _ w r1 w1 t1 Hloop)
    as (-> & -> & Hsome & Hnone).
  cbn [app]. intros [= <- <- <-].
  split; [reflexivity|]. split; [reflexivity|]. split.
  - intros we id Hr.
    destruct (Hsome we id Hr)
      as (Hc & b & a & x & Hb & Hf & Hfind & Ha & Hid).
    split; [exact Hc|].
    exists b, a, x. repeat split; auto. apply last_piece.
  - intros id Hr. apply (Hnone id Hr).
Qed.

Lemma X10_get_provider_by_name_witness :
  str_contains "ACME" (drv_text 11 page_without_remove_link) = true
  /\ exists block attr xpath,
       In block
          (drv_find_elements_by_xpath (PROVIDERS sample_locators)
             page_without_remove_link)
       /\ py_format (PROVIDER_BY_TITLE sample_locators) ["ACME"] = Ok xpath
       /\ drv_find_element_by_xpath block xpath page_without_remove_link
          = Ok 11
       /\ drv_get_attribute block "id" page_without_remove_link = Some attr
       /\ Some "39" = Some (List.last (split_on "_" attr) "")
       /\ occurs "_" (List.last (split_on "_" attr) "") = false.
Proof.
  apply (proj1 (proj2 (proj2
           (X10_get_provider_by_name Page page_driver sample_locators "ACME"
              page_without_remove_link page_without_remove_link
              (Ok (Some 11, Some "39")) [] eq_refl)))
           11 (Some "39") eq_refl).
Defined.

(** X19.  [_get_product_by_name] only reads the page.  When it returns an
    element, the name is contained in its text and the id is the sixth
    piece of the [data-url] attribute of the product's link, cut at the
    slashes; when it returns no element it returns no id.  It raises
    [IndexError] only for a matching product whose [data-url] has fewer
    than six pieces (the driver itself raising none). *)
Theorem X19_get_product_by_name
    (W : Type) (D : Driver W) (L : Locators) (name : string) (w w' : W)
    (r : outcome (option WebElement * option string)) (t : list Event) :
  (forall block xpath w0 x,
      drv_find_element_by_xpath block xpath w0 = Raise x ->
      exn_cls x <> IndexError) ->
  _get_product_by_name L (OStr name) w = (r, w', t) ->
  w' = w /\ t = []
  /\ (forall we id,
        r = Ok (Some we, id) ->
        str_contains name (drv_text we w) = true
        /\ exists block link url,
             In block (drv_find_elements_by_xpath (PRODUCTS L) w)
             /\ drv_find_element_by_xpath block (PRODUCT L) w = Ok we
             /\ drv_find_element_by_xpath block (PRODUCT_ID L) w = Ok link
             /\ drv_get_attribute link "data-url" w = Some url
             /\ split_on "/" url !! 5 = id)
  /\ (forall id, r = Ok (None, id) -> id = None)
  /\ (forall e,
        r = Raise e ->
        exn_cls e = IndexError ->
        exists block link url,
          In block (drv_find_elements_by_xpath (PRODUCTS L) w)
          /\ drv_find_element_by_xpath block (PRODUCT_ID L) w = Ok link
          /\ drv_get_attribute link "data-url" w = Some url
          /\ length (split_on "/" url) <= 5).
Proof.
  intros Hdrv.
  unfold _get_product_by_name, bind at 1, find_elements_by_xpath.
  destruct (product_loop L (OStr name) _ w) as [[r1 w1] t1] eqn:Hloop.
  destruct (product_loop_name L Hdrv name _ w r1 w1 t1 Hloop)
    as (-> & -> & Hsome & Hnone & Hidx).
  cbn [app]. intros [= <- <- <-]. auto.
Qed.

Lemma X19_get_product_by_name_witness :
  str_contains "Zoo" (drv_text 21 page_with_product) = true
  /\ exists block link url,
       In block
          (drv_find_elements_by_xpath (PRODUCTS sample_locators)
             page_with_product)
       /\ drv_find_element_by_xpath block (PRODUCT sample_locators)
            page_with_product = Ok 21
       /\ drv_find_element_by_xpath block (PRODUCT_ID sample_locators)
            page_with_product = Ok link
       /\ drv_get_attribute link "data-url" page_with_product = Some url
       /\ split_on "/" url !! 5 = Some "13".
Proof.
  apply (proj1 (proj2 (proj2
           (X19_get_product_by_name Page page_driver sample_locators "Zoo"
              page_with_product page_with_product
              (Ok (Some 21, Some "13")) []
              ltac:(cbn; intros block xpath w0 x;
                    destruct (assoc2 block xpath (pg_children w0));
                    [discriminate|intros [= <-]; discriminate])
              eq_refl)))
           21 (Some "13") eq_refl).
Defined.

(** Every element-not-found fault is a driver fault. *)
Lemma no_such_element_is_driver_fault (c : exn_class) :
  issubclass c NoSuchElementException = true ->
  issubclass c WebDriverException = true.
Proof. destruct c; cbn; intros; try discriminate; reflexivity. Qed.

(** X11.  What [select_content_provider] does with an exception of its
    native interaction.  One that is no [WebDriverException], such as the
    assertion failure for a provider type that is not on the page, leaves
    the operation as it is, nothing being done after it.  A
    [NoSuchElementException] is a [WebDriverException] and is taken by the
    first handler, the navigation to the fallback address: the handler
    written for it, which would fail the test with "Could not select the
    ... content type", never runs. *)
Theorem X11_select_content_provider_handlers
    (W : Type) (D : Driver W) (L : Locators)
    (t : string) (w w1 w2 : W) (link : option WebElement)
    (e : exn) (tr : list Event) :
  drv_wait_until_element (SUB_HEADER_CONTENT_PROVIDER L) w = (link, w1) ->
  native_interaction L link t w1 = (Raise e, w2, tr) ->
  (issubclass (exn_cls e) WebDriverException = false ->
   select_content_provider L t w
   = (Raise e, w2,
      EWait (SUB_HEADER_CONTENT_PROVIDER L) (bool_decide (is_Some link))
        :: tr))
  /\ (issubclass (exn_cls e) NoSuchElementException = true ->
      exists url : string,
        select_content_provider L t w
        = (fst (drv_get url w2), snd (drv_get url w2),
           EWait (SUB_HEADER_CONTENT_PROVIDER L) (bool_decide (is_Some link))
             :: tr ++ [EGet url (fst (drv_get url w2))])).
Proof.
  intros Hwait Hnative. split.
  - intros Hcls.
    unfold select_content_provider, bind at 1, wait_until_element.
    rewrite Hwait. unfold try_except. rewrite Hnative.
    cbn [find_clause]. rewrite Hcls.
    assert (Hno : issubclass (exn_cls e) NoSuchElementException = false).
    { destruct (issubclass (exn_cls e) NoSuchElementException) eqn:Hn;
        [|reflexivity].
      apply no_such_element_is_driver_fault in Hn. congruence. }
    rewrite Hno. reflexivity.
  - intros Hcls. apply no_such_element_is_driver_fault in Hcls.
    destruct (ContentProps.fallback_url_run (W := W) t w2) as (url & Hurl & _).
    exists url.
    unfold select_content_provider, bind at 1, wait_until_element.
    rewrite Hwait. unfold try_except. rewrite Hnative.
    cbn [find_clause]. rewrite Hcls.
    unfold bind, navigate. rewrite Hurl.
    destruct (drv_get url w2) as [r w3]. reflexivity.
Qed.

Lemma X11_select_content_provider_handlers_witness :
  select_content_provider sample_locators "filters" page_without_remove_link
  = (Raise (Exn AssertionError
              "Could not locate the content provider type.: is None"),
     page_without_remove_link,
     [ EWait "//a[.='Content Providers']" true;
       EHover (Ok tt);
       EWait "//a[contains(@href,'filters')]" false ]).
Proof.
  apply (proj1 (X11_select_content_provider_handlers Page page_driver
                  sample_locators "filters"
                  page_without_remove_link page_without_remove_link
                  page_without_remove_link (Some 1)
                  (Exn AssertionError
                     "Could not locate the content provider type.: is None")
                  [EHover (Ok tt);
                   EWait "//a[contains(@href,'filters')]" false]
                  eq_refl eq_refl)).
  reflexivity.
Defined.

(** X12.  Every operation of the page object starts by opening the
    Content Management tab and gives up when that fails: the named
    assertion failure is raised and the page is not touched any further. *)
Theorem X12_tab_not_accessible
    (W : Type) (D : Driver W) (L : Locators) (w w1 : W)
    (name product version arch component manifest : string) (force : bool) :
  drv_select_tab (HEADER_CONTENT_MANAGEMENT L) w = (false, w1) ->
  let failed : outcome unit * W * list Event :=
    (Raise (Exn AssertionError
              "Could not access the Content Management tab."),
     w1, [ETab (HEADER_CONTENT_MANAGEMENT L) false]) in
  add_custom_provider L name w = failed
  /\ delete_custom_provider L name w = failed
  /\ add_product_to_provider L name product w = failed
  /\ delete_product_from_provider L name product w = failed
  /\ red_hat_provider L manifest force w = failed
  /\ enable_repository L product version arch component w = failed.
Proof.
  intros Htab failed. subst failed.
  repeat split;
    match goal with
    | |- ?op = _ =>
        let f := eval cbv delta [add_custom_provider delete_custom_provider
                                 add_product_to_provider
                                 delete_product_from_provider
                                 red_hat_provider enable_repository] in op in
        change op with f
    end;
    cbv beta; unfold bind at 1, go_to_content_tab, select_tab;
    rewrite Htab; reflexivity.
Qed.

Lemma X12_tab_not_accessible_witness :
  delete_custom_provider sample_locators "ACME"
    {| pg_tab := false; pg_present := []; pg_elements := [];
       pg_children := []; pg_text := []; pg_attributes := [];
       pg_hover := Ok tt; pg_click := Ok tt; pg_url := "" |}
  = (Raise (Exn AssertionError
              "Could not access the Content Management tab."),
     {| pg_tab := false; pg_present := []; pg_elements := [];
        pg_children := []; pg_text := []; pg_attributes := [];
        pg_hover := Ok tt; pg_click := Ok tt; pg_url := "" |},
     [ETab "//a[.='Content Management']" false]).
Proof.
  apply (proj1 (proj2 (X12_tab_not_accessible Page page_driver
                         sample_locators
                         {| pg_tab := false; pg_present := [];
                            pg_elements := []; pg_children := [];
                            pg_text := []; pg_attributes := [];
                            pg_hover := Ok tt; pg_click := Ok tt;
                            pg_url := "" |}
                         {| pg_tab := false; pg_present := [];
                            pg_elements := []; pg_children := [];
                            pg_text := []; pg_attributes := [];
                            pg_hover := Ok tt; pg_click := Ok tt;
                            pg_url := "" |}
                         "ACME" "" "" "" "" "" true eq_refl))).
Defined.

(** X9.  [add_custom_provider] cannot end well, whatever the page does:
    its parameter [provider_name] is rebound to the Name field, so that
    the final lookup searches for that element instead of the name, finds
    nothing (or raises), and the closing assertion fails. *)
Theorem X9_add_custom_provider_never_succeeds
    (W : Type) (D : Driver W) (L : Locators) (provider_name : string)
    (w : W) :
  is_ok (fst (fst (add_custom_provider L provider_name w))) = false.
Proof.
  apply not_true_is_false. intros Hok.
  unfold add_custom_provider in Hok.
  repeat
    (apply bind_ok in Hok as (? & ? & ? & ? & Hok);
     try match goal with
         | x : (option WebElement * option string)%type |- _ => destruct x
         end).
  repeat match goal with
         | Hf : fail_if_none ?o _ _ = (Ok _, _, _) |- _ =>
             destruct o; [clear Hf | discriminate Hf]
         end.
  match goal with
  | Hg : _get_provider_by_name L (of_element (Some ?e)) _ = _ |- _ =>
      apply get_provider_element in Hg; injection Hg as -> ->
  end.
  discriminate Hok.
Qed.

(** ** Interactions with [None] *)

Lemma py_format_error (fmt : string) :
  (forall args e, py_format fmt args = Raise e ->
                  exn_cls e <> AttributeError)
  /\ (forall c args e, py_format (String c fmt) args = Raise e ->
                       exn_cls e <> AttributeError).
Proof.
  induction fmt as [|d fmt [IH1 IH2]].
  - split.
    + intros [|a args] e; cbn; intros [= <-]; discriminate.
    + intros c [|a args] e; cbn; destruct (Ascii.eqb c "%"%char); cbn;
        intros [= <-]; discriminate.
  - split; [exact (IH2 d)|].
    intros c args e. destruct (Ascii.eqb c "%"%char) eqn:Hc.
    + rewrite (InterpFacts.py_format_conversion c d fmt args Hc).
      destruct (Ascii.eqb d "s"%char).
      * destruct args as [|a args]; [intros [= <-]; discriminate|].
        destruct (py_format fmt args) eqn:Hf; [discriminate|].
        intros [= <-]. eapply IH1. exact Hf.
      * destruct (Ascii.eqb d "%"%char).
        -- destruct (py_format fmt args) eqn:Hf; [discriminate|].
           intros [= <-]. eapply IH1. exact Hf.
        -- intros [= <-]. discriminate.
    + rewrite (py_format_literal c _ args Hc).
      destruct (py_format (String d fmt) args) eqn:Hf; [discriminate|].
      intros [= <-]. eapply IH2. exact Hf.
Qed.

Lemma none_call_class (e : exn) :
  none_call e -> exn_cls e = AttributeError.
Proof. intros [-> | [-> | ->]]; reflexivity. Qed.

Lemma null_call_none_call (e : exn) : null_call e -> none_call e.
Proof. intros [-> | ->]; [left | right; left]; reflexivity. Qed.

Lemma driver_raises_no_weaken {W : Type} `{Driver W} (P Q : exn -> Prop) :
  (forall e, P e -> Q e) -> driver_raises_no Q -> driver_raises_no P.
Proof.
  intros HPQ (Hc & Hs & Hh & Hg & Hf).
  split; [|split; [|split; [|split]]].
  - intros e w x w' Hx HPx. exact (Hc e w x w' Hx (HPQ x HPx)).
  - intros e k w x w' Hx HPx. exact (Hs e k w x w' Hx (HPQ x HPx)).
  - intros o w x w' Hx HPx. exact (Hh o w x w' Hx (HPQ x HPx)).
  - intros u w x w' Hx HPx. exact (Hg u w x w' Hx (HPQ x HPx)).
  - intros e p w x Hx HPx. exact (Hf e p w x Hx (HPQ x HPx)).
Qed.

Section Safety.

Context {W : Type} `{Driver W}.
Variable L : Locators.

(** The kind of exception looked at: some of the calls on [None]. *)
Variable P : exn -> Prop.
Hypothesis HP : forall e, P e -> none_call e.
Hypothesis Hdriver : driver_raises_no P.

Lemma other_class (e : exn) : exn_cls e <> AttributeError -> ~ P e.
Proof. intros Hc HPe. apply Hc, none_call_class, HP, HPe. Qed.

Lemma safe_ret {A : Type} (a : A) : safe_for (W := W) P (ret a).
Proof. intros w w' e t [=]. Qed.

Lemma safe_raise {A : Type} (e : exn) :
  ~ P e -> safe_for (W := W) (A := A) P (raise e).
Proof. intros He w w' x t [= <- _ _]. exact He. Qed.

Lemma safe_bind {A B : Type} (m : M W Event A) (k : A -> M W Event B) :
  safe_for P m -> (forall a, safe_for P (k a)) -> safe_for P (bind m k).
Proof.
  intros Hm Hk w w' e t. unfold bind.
  destruct (m w) as [[[a|x] w1] t1] eqn:Em.
  - destruct (k a w1) as [[r w2] t2] eqn:Ek. intros [= -> _ _].
    eapply Hk. exact Ek.
  - intros [= <- _ _]. eapply Hm. exact Em.
Qed.

Lemma safe_fail (msg : string) : safe_for (W := W) P (fail msg).
Proof. apply safe_raise. apply other_class. discriminate. Qed.

(** After the assertion the element is there. *)
Lemma safe_asserted {A B : Type} (o : option A) (msg : string)
    (k : M W Event B) :
  (forall a, o = Some a -> safe_for P k) ->
  safe_for P (fail_if_none o msg ;; k).
Proof.
  intros Hk. destruct o as [a|].
  - apply safe_bind; [apply safe_ret|].
    intros _. eapply Hk. reflexivity.
  - intros w w' e t. unfold bind, fail_if_none, fail, raise.
    intros [= <- _ _]. apply other_class. discriminate.
Qed.

Lemma safe_fail_if_none {A : Type} (o : option A) (msg : string) :
  safe_for (W := W) P (fail_if_none o msg).
Proof. destruct o; [apply safe_ret|apply safe_fail]. Qed.

Lemma safe_fail_unless_none (o : option WebElement) (msg : string) :
  safe_for (W := W) P (fail_unless_none o msg).
Proof. destruct o; [apply safe_fail|apply safe_ret]. Qed.

Lemma safe_assert_true (b : bool) (msg : string) :
  safe_for (W := W) P (assert_true b msg).
Proof. destruct b; [apply safe_ret|apply safe_fail]. Qed.

Lemma safe_format (fmt : string) (args : list string) :
  safe_for (W := W) P (format fmt args).
Proof.
  intros w w' e t. unfold format, lift. intros [= Hf _ _].
  apply other_class. eapply (proj1 (py_format_error fmt)). exact Hf.
Qed.

Lemma safe_select_tab (h : string) : safe_for P (select_tab h).
Proof.
  intros w w' e t. unfold select_tab.
  destruct (drv_select_tab h w). discriminate.
Qed.

Lemma safe_go_to_content_tab : safe_for P (go_to_content_tab L).
Proof. apply safe_select_tab. Qed.

Lemma safe_wait (x : string) : safe_for P (wait_until_element x).
Proof.
  intros w w' e t. unfold wait_until_element.
  destruct (drv_wait_until_element x w). discriminate.
Qed.

Lemma safe_click (el : WebElement) : safe_for P (click (Some el)).
Proof.
  intros w w' e t. cbn.
  destruct (drv_click el w) as [r w1] eqn:Ec. intros [= -> _ _].
  eapply (proj1 Hdriver). exact Ec.
Qed.

Lemma safe_send_keys (el : WebElement) (k : Obj) :
  safe_for P (send_keys (Some el) k).
Proof.
  intros w w' e t. cbn.
  destruct (drv_send_keys el k w) as [r w1] eqn:Ec. intros [= -> _ _].
  eapply (proj1 (proj2 Hdriver)). exact Ec.
Qed.

(** The hover is the driver's, on an element or on [None]. *)
Lemma safe_hover (o : option WebElement) : safe_for P (hover o).
Proof.
  intros w w' e t. unfold hover.
  destruct (drv_hover o w) as [r w1] eqn:Ec. intros [= -> _ _].
  eapply (proj1 (proj2 (proj2 Hdriver))). exact Ec.
Qed.

Lemma safe_navigate (u : string) : safe_for P (navigate u).
Proof.
  intros w w' e t. unfold navigate.
  destruct (drv_get u w) as [r w1] eqn:Ec. intros [= -> _ _].
  eapply (proj1 (proj2 (proj2 (proj2 Hdriver)))). exact Ec.
Qed.

Lemma safe_find_element (el : WebElement) (x : string) :
  safe_for P (find_element_by_xpath el x).
Proof.
  intros w w' e t. unfold find_element_by_xpath. intros [= Hf _ _].
  eapply (proj2 (proj2 (proj2 (proj2 Hdriver)))). exact Hf.
Qed.

Lemma safe_find_elements (x : string) :
  safe_for (W := W) P (find_elements_by_xpath x).
Proof. intros w w' e t [=]. Qed.

Lemma safe_text (el : WebElement) : safe_for (W := W) P (text el).
Proof. intros w w' e t [=]. Qed.

Lemma safe_current_url : safe_for (W := W) P current_url.
Proof. intros w w' e t [=]. Qed.

(** Reading an attribute of an element that is there. *)
Lemma safe_get_attribute (el : WebElement) (n : string) :
  safe_for (W := W) P (get_attribute (Some el) n).
Proof. intros w w' e t [=]. Qed.

Lemma safe_obj_in (o : Obj) (s : string) :
  safe_for (W := W) P (obj_in o s).
Proof.
  destruct o as [|s0|el]; intros w w' e t; cbn; try (intros [=]; fail);
    intros [= <- _ _]; apply other_class; discriminate.
Qed.

Lemma safe_try_except {A : Type} (m : M W Event A)
    (clauses : list (exn_class * (exn -> M W Event A))) :
  safe_for P m ->
  Forall (fun clause => forall e, safe_for P (snd clause e)) clauses ->
  safe_for P (try_except m clauses).
Proof.
  intros Hm Hcl w w' e t. unfold try_except.
  destruct (m w) as [[[a|x] w1] t1] eqn:Em; [discriminate|].
  destruct (find_clause x clauses) as [h|] eqn:Ef.
  - assert (Hh : forall e0, safe_for P (h e0)).
    { clear -Hcl Ef. induction clauses as [|[C h'] rest IH];
        [discriminate|].
      cbn in Ef. inversion Hcl as [|? ? Hhead Hrest]; subst.
      destruct (issubclass (exn_cls x) C).
      - injection Ef as <-. exact Hhead.
      - apply IH; assumption. }
    destruct (h x w1) as [[r w2] t2] eqn:Eh. intros [= -> _ _].
    eapply Hh. exact Eh.
  - intros [= <- _ _]. eapply Hm. exact Em.
Qed.

(** The [AttributeError] of a [split] on [None] is none of the calls
    looked at. *)
Lemma safe_split_on_none {A : Type} :
  safe_for (W := W) (A := A) P
    (raise (Exn AttributeError "'NoneType' object has no attribute 'split'")).
Proof.
  apply safe_raise. intros HPe. apply HP in HPe.
  destruct HPe as [Hx | [Hx | Hx]]; discriminate Hx.
Qed.

(** One step of a proof that an operation is safe. *)
Ltac safe_step :=
  first
    [ apply safe_ret
    | apply safe_fail
    | apply safe_fail_if_none
    | apply safe_fail_unless_none
    | apply safe_assert_true
    | apply safe_format
    | apply safe_select_tab
    | apply safe_go_to_content_tab
    | apply safe_wait
    | apply safe_click
    | apply safe_send_keys
    | apply safe_hover
    | apply safe_navigate
    | apply safe_find_element
    | apply safe_find_elements
    | apply safe_text
    | apply safe_current_url
    | apply safe_get_attribute
    | apply safe_obj_in
    | apply safe_split_on_none
    | apply safe_asserted; intros ? ->
    | apply safe_bind; [|intros ?]
    | match goal with
      | |- safe_for _ (let (_, _) := ?p in _) => destruct p
      | |- safe_for _ (if ?b then _ else _) => destruct b
      end ].

Lemma safe_fallback_url (t : string) : safe_for P (fallback_url t).
Proof. unfold fallback_url. repeat safe_step. Qed.

Lemma safe_select_content_provider (t : string) :
  safe_for P (select_content_provider L t).
Proof.
  unfold select_content_provider, native_interaction.
  apply safe_bind; [apply safe_wait|]. intros link.
  apply safe_try_except.
  - repeat safe_step.
  - repeat constructor; cbn [snd]; intros e.
    + apply safe_bind; [apply safe_fallback_url|].
      intros url. apply safe_navigate.
    + repeat safe_step.
Qed.

Lemma safe_provider_loop (name : Obj) (providers : list WebElement) :
  safe_for P (provider_loop L name providers).
Proof.
  induction providers as [|p rest IH]; cbn [provider_loop];
    [apply safe_ret|].
  do 4 (apply safe_bind; [safe_step|intros ?]).
  match goal with |- safe_for _ (if ?b then _ else _) => destruct b end;
    [|exact IH].
  apply safe_bind; [safe_step|]. intros [id|]; safe_step.
Qed.

Lemma safe_get_provider (name : Obj) :
  safe_for P (_get_provider_by_name L name).
Proof.
  unfold _get_provider_by_name.
  apply safe_bind; [safe_step|]. intros ps.
  apply safe_provider_loop.
Qed.

Lemma safe_product_loop (name : Obj) (products : list WebElement) :
  safe_for P (product_loop L name products).
Proof.
  induction products as [|p rest IH]; cbn [product_loop];
    [apply safe_ret|].
  do 3 (apply safe_bind; [safe_step|intros ?]).
  match goal with |- safe_for _ (if ?b then _ else _) => destruct b end;
    [|exact IH].
  apply safe_bind; [safe_step|]. intros we_id.
  apply safe_bind; [safe_step|]. intros [url|]; [|safe_step].
  destruct (split_on "/" url !! 5); [apply safe_ret|].
  apply safe_raise. apply other_class. discriminate.
Qed.

Lemma safe_get_product (name : Obj) :
  safe_for P (_get_product_by_name L name).
Proof.
  unfold _get_product_by_name.
  apply safe_bind; [safe_step|]. intros ps.
  apply safe_product_loop.
Qed.

(** The steps of the operations below. *)
Ltac safe_op :=
  repeat first
    [ apply safe_select_content_provider
    | apply safe_get_provider
    | apply safe_get_product
    | safe_step ].

Lemma safe_add_custom_provider (name : string) :
  safe_for P (add_custom_provider L name).
Proof. unfold add_custom_provider. safe_op. Qed.

Lemma safe_delete_product_from_provider (name product : string) :
  safe_for P (delete_product_from_provider L name product).
Proof. unfold delete_product_from_provider. safe_op. Qed.

(** [enable_repository] reads the id of the product node without having
    asserted the node: it is safe for the other calls. *)
Lemma safe_enable_repository (product version arch component : string) :
  ~ P (Exn AttributeError
         "'NoneType' object has no attribute 'get_attribute'") ->
  safe_for P (enable_repository L product version arch component).
Proof.
  intros Hget. unfold enable_repository.
  repeat first
    [ apply safe_select_content_provider
    | match goal with
      | |- safe_for _ (bind (get_attribute ?o _) _) =>
          apply safe_bind;
          [destruct o; [apply safe_get_attribute|apply safe_raise, Hget]
          |intros ?]
      end
    | safe_step ].
Qed.

End Safety.

(** X13.  With a driver that does not itself raise the [AttributeError]
    of a [click], [send_keys] or [get_attribute] on [None] (it may raise
    anything else, as the hover over a link that is not there does),
    [select_content_provider], [add_custom_provider] and
    [delete_product_from_provider] never end in one: each element they
    have waited for is asserted before it is clicked or typed into.
    [enable_repository] asserts the elements it clicks as well, but reads
    the id of the product node without asserting the node: the one such
    error it can end in is that of [get_attribute], and it does so on a
    page that shows the product without that node. *)
Theorem X13_asserted_operations
    (W : Type) (D : Driver W) (L : Locators) :
  driver_raises_no none_call ->
  (forall t, safe_for none_call (select_content_provider L t))
  /\ (forall name, safe_for none_call (add_custom_provider L name))
  /\ (forall name product,
        safe_for none_call (delete_product_from_provider L name product))
  /\ (forall product version arch component (w w' : W) e t,
        enable_repository L product version arch component w
        = (Raise e, w', t) ->
        none_call e ->
        e = Exn AttributeError
              "'NoneType' object has no attribute 'get_attribute'")
  /\ enable_repository Content.sample_locators "RHEL" "6Server" "x86_64" "os"
       page_without_product_node
     = (Raise (Exn AttributeError
                 "'NoneType' object has no attribute 'get_attribute'"),
        page_without_product_node,
        [ ETab "//a[.='Content Management']" true;
          EWait "//a[.='Content Providers']" true;
          EHover (Ok tt);
          EWait "//a[contains(@href,'redhat')]" true;
          EClick 2 (Ok tt);
          EWait "//a[.='Enable Repositories']" true;
          EClick 3 (Ok tt);
          EWait "//span[.='RHEL']" true;
          EWait "//span[.='RHEL']/.." false ]).
Proof.
  intros Hdriver. split; [|split; [|split; [|split]]].
  - intros t.
    apply (safe_select_content_provider L none_call (fun e He => He) Hdriver).
  - intros name.
    apply (safe_add_custom_provider L none_call (fun e He => He) Hdriver).
  - intros name product.
    apply (safe_delete_product_from_provider L none_call (fun e He => He)
             Hdriver).
  - intros product version arch component w w' e t Hrun Hnone.
    assert (Hsafe : ~ null_call e).
    { eapply (safe_enable_repository L null_call null_call_none_call
                (driver_raises_no_weaken null_call none_call
                   null_call_none_call Hdriver)
                product version arch component).
      - intros [Hx | Hx]; discriminate Hx.
      - exact Hrun. }
    destruct Hnone as [-> | [-> | ->]].
    + exfalso. apply Hsafe. left. reflexivity.
    + exfalso. apply Hsafe. right. reflexivity.
    + reflexivity.
  - vm_compute. reflexivity.
Qed.

Lemma strict_driver_raises_no :
  @driver_raises_no Page strict_driver none_call.
Proof.
  unfold driver_raises_no. cbn. repeat split.
  - intros e w x w' Hx. discriminate Hx.
  - intros e k w x w' Hx. discriminate Hx.
  - intros [el|] w x w' Hx; [discriminate Hx|].
    injection Hx as <- _. intros [Hn | [Hn | Hn]]; discriminate Hn.
  - intros u w x w' Hx. discriminate Hx.
  - intros e p w x. destruct (assoc2 e p (pg_children w)); intros Hx;
      [discriminate Hx|].
    injection Hx as <-. intros [Hn | [Hn | Hn]]; discriminate Hn.
Defined.

Lemma X13_asserted_operations_witness :
  @delete_product_from_provider Page strict_driver Content.sample_locators
    "ACME" "Zoo" page_without_product_link
  = (Raise (Exn AssertionError
              "Failed to locate the Remove Product link.: is None"),
     page_without_product_link,
     [ ETab "//a[.='Content Management']" true;
       EWait "//a[.='Content Providers']" true;
       EHover (Ok tt);
       EWait "//a[contains(@href,'custom')]" true;
       EClick 2 (Ok tt);
       EClick 11 (Ok tt);
       EClick 21 (Ok tt);
       EWait "//a[@data-url='/providers/39/products']" false ])
  /\ ~ none_call
         (Exn AssertionError
            "Failed to locate the Remove Product link.: is None").
Proof.
  assert (Hrun :
    @delete_product_from_provider Page strict_driver Content.sample_locators
      "ACME" "Zoo" page_without_product_link
    = (Raise (Exn AssertionError
                "Failed to locate the Remove Product link.: is None"),
       page_without_product_link,
       [ ETab "//a[.='Content Management']" true;
         EWait "//a[.='Content Providers']" true;
         EHover (Ok tt);
         EWait "//a[contains(@href,'custom')]" true;
         EClick 2 (Ok tt);
         EClick 11 (Ok tt);
         EClick 21 (Ok tt);
         EWait "//a[@data-url='/providers/39/products']" false ]))
    by (vm_compute; reflexivity).
  split; [exact Hrun|].
  exact (proj1 (proj2 (proj2
           (X13_asserted_operations Page strict_driver
              Content.sample_locators strict_driver_raises_no)))
           "ACME" "Zoo" _ _ _ _ Hrun).
Defined.

(** X14.  [add_product_to_provider] and [red_hat_provider] do not have
    that property: the first types into the fields of the product form
    and the second clicks the button that submits the manifest without
    asserting them, and ends in the [AttributeError] when they are not on
    the page. *)
Theorem X14_unasserted_operations :
  add_product_to_provider sample_locators "ACME" "Zoo"
    page_without_product_form
  = (Raise (Exn AttributeError
              "'NoneType' object has no attribute 'send_keys'"),
     page_without_product_form,
     [ ETab "//a[.='Content Management']" true;
       EWait "//a[.='Content Providers']" true;
       EHover (Ok tt);
       EWait "//a[contains(@href,'custom')]" true;
       EClick 2 (Ok tt);
       EClick 11 (Ok tt);
       EWait "//a[@id='add_product']" true;
       EClick 3 (Ok tt);
       EWait "//input[@id='product_name']" false ])
  /\ red_hat_provider sample_locators "manifest.zip" true
       page_without_save_button
     = (Raise (Exn AttributeError
                 "'NoneType' object has no attribute 'click'"),
        page_without_save_button,
        [ ETab "//a[.='Content Management']" true;
          EWait "//a[.='Content Providers']" true;
          EHover (Ok tt);
          EWait "//a[contains(@href,'redhat')]" true;
          EClick 2 (Ok tt);
          EWait "//input[@id='provider_contents']" true;
          ESendKeys 3 (OStr "/tmp/manifest.zip") (Ok tt);
          EWait "//input[@id='force_import']" true;
          EClick 4 (Ok tt);
          EWait "//input[@id='upload_button']" false ])
  /\ ~ null_safe (W := Page)
         (add_product_to_provider sample_locators "ACME" "Zoo")
  /\ ~ null_safe (W := Page)
         (red_hat_provider sample_locators "manifest.zip" true).
Proof.
  assert (H1 : add_product_to_provider sample_locators "ACME" "Zoo"
                 page_without_product_form
               = (Raise (Exn AttributeError
                           "'NoneType' object has no attribute 'send_keys'"),
                  page_without_product_form,
                  [ ETab "//a[.='Content Management']" true;
                    EWait "//a[.='Content Providers']" true;
                    EHover (Ok tt);
                    EWait "//a[contains(@href,'custom')]" true;
                    EClick 2 (Ok tt);
                    EClick 11 (Ok tt);
                    EWait "//a[@id='add_product']" true;
                    EClick 3 (Ok tt);
                    EWait "//input[@id='product_name']" false ]))
    by (vm_compute; reflexivity).
  assert (H2 : red_hat_provider sample_locators "manifest.zip" true
                 page_without_save_button
               = (Raise (Exn AttributeError
                           "'NoneType' object has no attribute 'click'"),
                  page_without_save_button,
                  [ ETab "//a[.='Content Management']" true;
                    EWait "//a[.='Content Providers']" true;
                    EHover (Ok tt);
                    EWait "//a[contains(@href,'redhat')]" true;
                    EClick 2 (Ok tt);
                    EWait "//input[@id='provider_contents']" true;
                    ESendKeys 3 (OStr "/tmp/manifest.zip") (Ok tt);
                    EWait "//input[@id='force_import']" true;
                    EClick 4 (Ok tt);
                    EWait "//input[@id='upload_button']" false ]))
    by (vm_compute; reflexivity).
  split; [exact H1|]. split; [exact H2|]. split.
  - intros Hsafe. apply (Hsafe _ _ _ _ H1). right. reflexivity.
  - intros Hsafe. apply (Hsafe _ _ _ _ H2). left. reflexivity.
Qed.

(** On a page that shows all it is asked for, [enable_repository] clicks
    the tab, the product, the version, the architecture and the
    repository. *)
Example enable_repository_run :
  enable_repository sample_locators "RHEL" "6Server" "x86_64" "os"
    page_of_redhat
  = (Ok tt, page_of_redhat,
     [ ETab "//a[.='Content Management']" true;
       EWait "//a[.='Content Providers']" true;
       EHover (Ok tt);
       EWait "//a[contains(@href,'redhat')]" true;
       EClick 2 (Ok tt);
       EWait "//a[.='Enable Repositories']" true;
       EClick 3 (Ok tt);
       EWait "//span[.='RHEL']" true;
       EWait "//span[.='RHEL']/.." true;
       EClick 4 (Ok tt);
       EWait "//li[@id='rhel_7']//span[.='6Server']" true;
       EClick 6 (Ok tt);
       EWait "//li[@id='rhel_7']//li[.='6Server']//span[.='x86_64']" true;
       EClick 7 (Ok tt);
       EWait
         "//li[@id='rhel_7']//li[.='6Server']//li[.='x86_64']//label[.='os']"
         true;
       EClick 8 (Ok tt) ]).
Proof. vm_compute. reflexivity. Qed.

End ContentFacts.

(* ===================================================================== *)
(** * Further properties of the data factory                              *)
(* ===================================================================== *)

Module DatafactoryFacts.

Import Datafactory DatafactoryProps.

(** X15.  What [datacheck] does to a data creator.  With
    [settings.run_one_datapoint] off it returns the data set as it is.
    With the setting on, a data set that is not empty is replaced by a
    list of one of its own elements, and an empty one makes
    [random.choice] raise [IndexError]; a creator that raises keeps
    raising. *)
Theorem X15_datacheck
    (R : Type) (Rand : Random R) (A : Type)
    (func : M R Event (list A)) (r r1 : R)
    (res : outcome (list A)) (t : list Event) :
  func r = (res, r1, t) ->
  datacheck false func r = (res, r1, t)
  /\ match res with
     | Raise e => datacheck true func r = (Raise e, r1, t)
     | Ok [] =>
         datacheck true func r
         = (Raise (Exn IndexError "list index out of range"), r1, t)
     | Ok (x0 :: l) =>
         exists (x : A) (r2 : R),
           datacheck true func r = (Ok [x], r2, t) /\ In x (x0 :: l)
     end.
Proof.
  intros Hf. split.
  - rewrite datacheck_off. exact Hf.
  - destruct res as [[|x0 l]|e].
    + unfold datacheck, bind. rewrite Hf. cbn. rewrite app_nil_r.
      reflexivity.
    + eapply datacheck_on. exact Hf.
    + unfold datacheck, bind. rewrite Hf. reflexivity.
Qed.

Lemma X15_datacheck_witness :
  datacheck false (ret [1; 2; 3]) 0 = (Ok [1; 2; 3], 0, [])
  /\ exists (x : nat) (r2 : nat),
       datacheck true (ret [1; 2; 3]) 0 = (Ok [x], r2, [])
       /\ In x [1; 2; 3].
Proof.
  apply (X15_datacheck nat counter_random nat (ret [1; 2; 3]) 0 0
           (Ok [1; 2; 3]) [] eq_refl).
Defined.

Section AnySource.

Context {R : Type} `{Random R}.

(** A creator made of draws that cannot fail: its size with the setting
    off, one with the setting on. *)
Lemma datacheck_size {A : Type} (one : bool) (func : M R Event (list A))
    (n : nat) (r : R) :
  (exists l r1, func r = (Ok l, r1, []) /\ length l = S n) ->
  exists l r1,
    datacheck one func r = (Ok l, r1, [])
    /\ length l = (if one then 1 else S n).
Proof.
  intros (l & r1 & Hf & Hlen). destruct one.
  - destruct l as [|x0 l]; [discriminate|].
    destruct (datacheck_on func r r1 x0 l [] Hf) as (x & r2 & Hd & _).
    exists [x], r2. auto.
  - rewrite datacheck_off. exists l, r1. auto.
Qed.

Lemma randint_ok (a b : Z) (r : R) :
  (a <= b)%Z ->
  exists n r1, randint a b r = (Ok n, r1, []) /\ (a <= n <= b)%Z.
Proof.
  intros Hab. unfold randint.
  destruct (b <? a)%Z eqn:Hlt; [lia|].
  destruct (random_raw r) as [k r1].
  exists (a + Z.of_nat k mod (b - a + 1))%Z, r1.
  split; [reflexivity|].
  pose proof (Z.mod_pos_bound (Z.of_nat k) (b - a + 1)) as Hm. lia.
Qed.

Lemma string_up_to_ok (str_type : string) (upper : Z) (r : R) :
  (1 <= upper)%Z ->
  exists s r1, string_up_to str_type upper r = (Ok (PStr s), r1, []).
Proof.
  intros Hu. unfold string_up_to, bind.
  destruct (randint_ok 1 upper r Hu) as (n & r1 & -> & _).
  unfold string_of. destruct (gen_string str_type (Some n) r1) as [s r2].
  exists s, r2. reflexivity.
Qed.

Lemma string_up_to_empty (str_type : string) (upper : Z) (r : R) :
  (upper < 1)%Z ->
  exists e : exn,
    string_up_to str_type upper r = (Raise e, r, [])
    /\ exn_cls e = ValueError.
Proof.
  intros Hu. unfold string_up_to, bind, randint.
  destruct (upper <? 1)%Z eqn:Hlt; [|lia].
  eexists. split; reflexivity.
Qed.

End AnySource.

(** X16.  The data creators without argument never fail and, with
    [settings.run_one_datapoint] off, give 4 invalid ids, 7 invalid names,
    3 environment names, 2 labels and 4 user names; with the setting on
    each of them gives exactly one value. *)
Theorem X16_creator_sizes
    (R : Type) (Rand : Random R) (one : bool) (r : R) :
  (exists l r1, invalid_id_list one r = (Ok l, r1, [])
                /\ length l = if one then 1 else 4)
  /\ (exists l r1, invalid_names_list one r = (Ok l, r1, [])
                   /\ length l = if one then 1 else 7)
  /\ (exists l r1, valid_environments_list one r = (Ok l, r1, [])
                   /\ length l = if one then 1 else 3)
  /\ (exists l r1, valid_labels_list one r = (Ok l, r1, [])
                   /\ length l = if one then 1 else 2)
  /\ (exists l r1, valid_usernames_list one r = (Ok l, r1, [])
                   /\ length l = if one then 1 else 4).
Proof.
  repeat split.
  - apply datacheck_size. draw_all. do 2 eexists. split; reflexivity.
  - apply datacheck_size. draw_all. do 2 eexists. split; reflexivity.
  - apply datacheck_size. draw_all. do 2 eexists. split; reflexivity.
  - apply datacheck_size. unfold bind.
    destruct (string_up_to_ok "alphanumeric" 128 r ltac:(lia))
      as (s1 & r1 & ->).
    destruct (string_up_to_ok "alpha" 128 r1 ltac:(lia)) as (s2 & r2 & ->).
    do 2 eexists. split; reflexivity.
  - apply datacheck_size. draw_all. do 2 eexists. split; reflexivity.
Qed.

(** X17.  [valid_hosts_list] has room for a host name only when the domain
    name is at most 248 characters long: for a longer one the range of
    lengths is empty and [random.randint] raises [ValueError] before
    anything is generated; otherwise it gives three host names, or one
    with [settings.run_one_datapoint] on. *)
Theorem X17_valid_hosts_list
    (R : Type) (Rand : Random R) (one : bool) (domain_length : Z) (r : R) :
  ((248 < domain_length)%Z ->
   exists e : exn,
     valid_hosts_list one domain_length r = (Raise e, r, [])
     /\ exn_cls e = ValueError)
  /\ ((domain_length <= 248)%Z ->
      exists l r1,
        valid_hosts_list one domain_length r = (Ok l, r1, [])
        /\ length l = if one then 1 else 3).
Proof.
  split.
  - intros Hlong.
    destruct (string_up_to_empty "alphanumeric" (255 - 6 - domain_length) r
                ltac:(lia)) as (e & He & Hcls).
    exists e. split; [|exact Hcls].
    unfold valid_hosts_list, datacheck, bind at 1, bind at 1.
    rewrite He. reflexivity.
  - intros Hshort. apply datacheck_size. unfold bind.
    destruct (string_up_to_ok "alphanumeric" (255 - 6 - domain_length) r
                ltac:(lia)) as (s1 & r1 & ->).
    destruct (string_up_to_ok "alpha" (255 - 6 - domain_length) r1
                ltac:(lia)) as (s2 & r2 & ->).
    destruct (string_up_to_ok "numeric" (255 - 6 - domain_length) r2
                ltac:(lia)) as (s3 & r3 & ->).
    do 2 eexists. split; reflexivity.
Qed.

Lemma X17_valid_hosts_list_witness :
  exists e : exn,
    valid_hosts_list false 249 0 = (Raise e, 0, [])
    /\ exn_cls e = ValueError.
Proof.
  apply (proj1 (X17_valid_hosts_list nat counter_random false 249 0)).
  lia.
Defined.

Example valid_hosts_list_no_room :
  valid_hosts_list false 249 0
  = (Raise (Exn ValueError "empty range for randrange() (1,1, 0)"), 0, []).
Proof. vm_compute. reflexivity. Qed.

Section Strings.

Context {R : Type} `{Random R}.

(** The comprehension binds every string type. *)
Lemma strings_dict_ok (types : list string) (length : Z) (r : R) :
  exists (m : gmap string PyVal) (r1 : R),
    strings_dict types length r = (Ok m, r1, [])
    /\ dom m = list_to_set types.
Proof.
  revert r. induction types as [|ty types IH]; intros r.
  - exists ∅, r. split; [reflexivity|]. cbn. apply dom_empty_L.
  - cbn [strings_dict]. unfold bind at 1, string_of.
    destruct (gen_string ty (Some length) r) as [s r1].
    unfold bind at 1. destruct (IH r1) as (m & r2 & -> & Hdom).
    exists (<[ty := PStr s]> m), r2. split; [reflexivity|].
    rewrite dom_insert_L, Hdom. reflexivity.
Qed.

End Strings.

Lemma str_types_nodup : NoDup str_types.
Proof. apply (bool_decide_unpack _). vm_compute. exact I. Qed.

(** X18.  [generate_strings_list] gives one string for each of the seven
    string types.  When [remove_str] is given (and not empty) and either no
    bug id is given or the bug is open, the string of that type is left
    out, which makes six; [remove_str] then has to be one of the seven
    types, otherwise the [del] raises [KeyError].  With
    [settings.run_one_datapoint] on, one string is returned in place of the
    seven or six. *)
Theorem X18_generate_strings_list
    (R : Type) (Rand : Random R) (one : bool) (bz_bug_is_open : Z -> bool)
    (length : option Z) (remove_str : option string) (bug_id : option Z)
    (r : R) :
  let removes (key : string) : bool :=
    negb (String.eqb key "")
    && match bug_id with
       | None => true
       | Some id => bz_bug_is_open id
       end in
  match remove_str with
  | None =>
      exists l r1,
        generate_strings_list one bz_bug_is_open length remove_str bug_id r
        = (Ok l, r1, [])
        /\ List.length l = if one then 1 else 7
  | Some key =>
      if removes key then
        if bool_decide (key ∈ str_types) then
          exists l r1,
            generate_strings_list one bz_bug_is_open length remove_str
              bug_id r
            = (Ok l, r1, [])
            /\ List.length l = if one then 1 else 6
        else
          exists r1,
            generate_strings_list one bz_bug_is_open length remove_str
              bug_id r
            = (Raise (Exn KeyError key), r1, [])
      else
        exists l r1,
          generate_strings_list one bz_bug_is_open length remove_str bug_id r
          = (Ok l, r1, [])
          /\ List.length l = if one then 1 else 7
  end.
Proof.
  cbv zeta.
  assert (Hlen : exists n r0,
             (match length with
              | None => fun r => match gen_integer 3 30 r with
                                 | (n, r') => (Ok n, r', [])
                                 end
              | Some n => ret n
              end : M R Event Z) r = (Ok n, r0, [])).
  { destruct length as [n|]; [exists n, r; reflexivity|].
    destruct (gen_integer 3 30 r) as [n r0]. exists n, r0. reflexivity. }
  destruct Hlen as (n & r0 & Hlen).
  destruct (strings_dict_ok str_types n r0) as (m & r1 & Hdict & Hdom).
  assert (Hsize : size m = 7).
  { rewrite <- (size_dom (D := gset string)), Hdom.
    rewrite size_list_to_set by apply str_types_nodup. reflexivity. }
  assert (Hfull : forall m' : gmap string PyVal,
             List.length ((map_to_list m').*2) = size m').
  { intros m'. rewrite length_fmap. apply length_map_to_list. }
  unfold generate_strings_list.
  destruct remove_str as [key|].
  - destruct (negb (String.eqb key "")
              && match bug_id with
                 | None => true
                 | Some id => bz_bug_is_open id
                 end) eqn:Hrem.
    + destruct (bool_decide (key ∈ str_types)) eqn:Hkey.
      * apply bool_decide_eq_true in Hkey.
        assert (Hsome : is_Some (m !! key)).
        { apply elem_of_dom. rewrite Hdom. apply elem_of_list_to_set.
          exact Hkey. }
        destruct Hsome as [v Hv].
        apply (datacheck_size one _ 5).
        exists ((map_to_list (delete key m)).*2), r1. split.
        -- unfold generate_strings_list_func, bind. rewrite Hlen, Hdict.
           rewrite Hrem, Hv. reflexivity.
        -- rewrite Hfull, map_size_delete_Some by eauto.
           rewrite Hsize. reflexivity.
      * apply bool_decide_eq_false in Hkey.
        assert (Hnone : m !! key = None).
        { apply not_elem_of_dom. rewrite Hdom.
          rewrite elem_of_list_to_set. exact Hkey. }
        exists r1.
        unfold datacheck, bind at 1.
        unfold generate_strings_list_func, bind. rewrite Hlen, Hdict.
        rewrite Hrem, Hnone. reflexivity.
    + apply (datacheck_size one _ 6).
      exists ((map_to_list m).*2), r1. split.
      * unfold generate_strings_list_func, bind. rewrite Hlen, Hdict.
        rewrite Hrem. reflexivity.
      * rewrite Hfull. exact Hsize.
  - apply (datacheck_size one _ 6).
    exists ((map_to_list m).*2), r1. split.
    + unfold generate_strings_list_func, bind. rewrite Hlen, Hdict.
      reflexivity.
    + rewrite Hfull. exact Hsize.
Qed.

End DatafactoryFacts.

(* ===================================================================== *)
(** * Further properties of the whole wizard                              *)
(* ===================================================================== *)

Module WizardFacts.

Import Rhci RhciPages RhciWizard.

Lemma interp_loc_unregistered
    (locators : gmap string Locator) (name : string) (v : PyVal) :
  locators !! name = None ->
  interp_loc locators name v = Raise (Exn KeyError name).
Proof.
  unfold interp_loc, Locator in *. cbv zeta. intros ->. reflexivity.
Qed.

(** X20.  [create] builds its locators before it visits the first page:
    when the registry lacks one of the seven names it builds a locator
    from, whatever the arguments, [create] raises without having touched
    the browser. *)
Theorem X20_create_fails_fast
    (W : Type) (B : Browser W) (C : Clickable W)
    (locators : gmap string Locator) (a : CreateArgs) (w : W)
    (name : string) :
  In name dynamic_names ->
  locators !! name = None ->
  exists e : exn, create locators a w = (Raise e, w, []).
Proof.
  intros Hin Hnone.
  assert (Hdyn : exists e, dynamic_locators locators a = Raise e).
  { unfold dynamic_locators.
    repeat match goal with
           | |- exists e, match ?x with Ok _ => _ | Raise _ => _ end = _ =>
               let E := fresh "E" in
               destruct x eqn:E; [|eexists; reflexivity]
           end.
    exfalso.
    cbn in Hin.
    repeat match goal with
           | Hor : _ \/ _ |- _ => destruct Hor as [<-|Hor]
           | Hf : False |- _ => destruct Hf
           end;
      match goal with
      | E : interp_loc locators ?n _ = Ok _,
        Hn : locators !! ?n = None |- _ =>
          rewrite (interp_loc_unregistered locators n _ Hn) in E;
          discriminate E
      end. }
  destruct Hdyn as [e He]. exists e.
  unfold create, bind at 1, lift. rewrite He. reflexivity.
Qed.

Lemma X20_create_fails_fast_witness :
  exists e : exn,
    create sample_locators no_args (page_showing (fun _ => true))
    = (Raise e, page_showing (fun _ => true), []).
Proof.
  apply (X20_create_fails_fast Fake fake_browser fake_clickable
           sample_locators no_args (page_showing (fun _ => true))
           "rhci.active_view").
  - cbn. tauto.
  - vm_compute. reflexivity.
Defined.

(** ** Registration of the nodes *)

Lemma driver_item_interp (driver : PyVal) :
  interp_loc wizard_locators "rhci.node_driver_dropdown_item" driver
  = Ok (driver_item driver).
Proof.
  unfold interp_loc. cbv zeta.
  replace (wizard_locators !! "rhci.node_driver_dropdown_item")
    with (Some ("xpath", "//li[.='" +:+ "%s" +:+ "']"))
    by (vm_compute; reflexivity).
  cbn [fst snd].
  rewrite (py_format_single "//li[.='" "']" _ eq_refl eq_refl).
  unfold driver_item, py_or. destruct (truthy driver); reflexivity.
Qed.

Lemma driver_item_not_add_node (driver : PyVal) :
  bool_decide (driver_item driver = add_node) = false.
Proof. apply bool_decide_eq_false. discriminate. Qed.

Lemma driver_item_not_driver_select (driver : PyVal) :
  bool_decide (driver_item driver = driver_select) = false.
Proof. apply bool_decide_eq_false. discriminate. Qed.

Section OnePage.

Variable pr : Locator -> bool.

(** One node on a page where every click and entry succeeds. *)
Lemma register_each_cons (k : nat) (node : gmap string PyVal)
    (rest : list (gmap string PyVal)) :
  complete_node node ->
  exists (driver ip user pass mac : PyVal),
    node !! "driver" = Some driver
    /\ register_each wizard_locators k (node :: rest) (page_showing pr)
       = match register_each wizard_locators (S k) rest (page_showing pr)
         with
         | (r, f, t) =>
             (r, f,
              (if Nat.ltb 0 k then [EClick add_node None true] else [])
              ++ [ EClick driver_select None true;
                   EClick (driver_item driver) None true;
                   ETextUpdate ("id", "node_ip_address") ip true;
                   ETextUpdate ("id", "node_ipmi_user") user true;
                   ETextUpdate ("id", "node_ipmi_pass") pass true;
                   ETextUpdate ("id", "node_nic_mac_address") mac true ]
              ++ t)
         end.
Proof.
  intros ([driver Hd] & [ip Hip] & [user Hu] & [pass Hp] & [mac Hm]).
  exists driver, ip, user, pass, mac. split; [exact Hd|].
  cbn [register_each].
  unfold update_from, item, click_named, locator.
  rewrite Hd, Hip, Hu, Hp, Hm.
  replace (wizard_locators !! "rhci.node_add_node") with (Some add_node)
    by (vm_compute; reflexivity).
  replace (wizard_locators !! "rhci.node_driver_select")
    with (Some driver_select) by (vm_compute; reflexivity).
  replace (wizard_locators !! "rhci.node_ip_address")
    with (Some ("id", "node_ip_address")) by (vm_compute; reflexivity).
  replace (wizard_locators !! "rhci.node_ipmi_user")
    with (Some ("id", "node_ipmi_user")) by (vm_compute; reflexivity).
  replace (wizard_locators !! "rhci.node_ipmi_pass")
    with (Some ("id", "node_ipmi_pass")) by (vm_compute; reflexivity).
  replace (wizard_locators !! "rhci.node_nic_mac_address")
    with (Some ("id", "node_nic_mac_address")) by (vm_compute; reflexivity).
  destruct (Nat.ltb 0 k);
    cbv [bind ret lift raise];
    rewrite driver_item_interp;
    cbv [click text_field_update base_click base_text_field_update
         fake_browser page_showing fake_click fk_clicks fk_click_default
         fake_answer is_ok];
    change {| fk_clicks := []; fk_click_default := true;
              fk_refreshes := []; fk_refresh_default := true;
              fk_present := pr |}
      with (page_showing pr);
    destruct (register_each wizard_locators (S k) rest (page_showing pr))
      as [[r f] t];
    reflexivity.
Qed.

Lemma clicks_on_app (loc : Locator) (a b : list Event) :
  clicks_on loc (a ++ b) = clicks_on loc a + clicks_on loc b.
Proof.
  unfold clicks_on.
  rewrite RhciFacts.clicked_app, List.filter_app, length_app. reflexivity.
Qed.

(** The clicks and entries made for one node. *)
Lemma node_block_counts (again : bool) (driver ip user pass mac : PyVal) :
  let block :=
    (if again then [EClick add_node None true] else [])
    ++ [ EClick driver_select None true;
         EClick (driver_item driver) None true;
         ETextUpdate ("id", "node_ip_address") ip true;
         ETextUpdate ("id", "node_ipmi_user") user true;
         ETextUpdate ("id", "node_ipmi_pass") pass true;
         ETextUpdate ("id", "node_nic_mac_address") mac true ] in
  clicks_on add_node block = (if again then 1 else 0)
  /\ clicks_on driver_select block = 1
  /\ count is_click block = 2 + (if again then 1 else 0)
  /\ length block = 6 + (if again then 1 else 0).
Proof.
  cbv zeta. unfold clicks_on.
  destruct again; cbn [app clicked List.filter];
    rewrite ?driver_item_not_add_node, ?driver_item_not_driver_select;
    repeat split; reflexivity.
Qed.

(** The nodes from number [k] on. *)
Lemma register_each_run (nodes : list (gmap string PyVal)) :
  Forall complete_node nodes ->
  forall k : nat,
    exists tr : list Event,
      register_each wizard_locators k nodes (page_showing pr)
      = (Ok tt, page_showing pr, tr)
      /\ clicks_on add_node tr
         = (if Nat.ltb 0 k then length nodes else length nodes - 1)
      /\ clicks_on driver_select tr = length nodes
      /\ count is_click tr = 2 * length nodes + clicks_on add_node tr
      /\ length tr = 6 * length nodes + clicks_on add_node tr.
Proof.
  induction 1 as [|node rest Hnode _ IH]; intros k.
  - exists []. split; [reflexivity|]. destruct (Nat.ltb 0 k); auto.
  - destruct (register_each_cons k node rest Hnode)
      as (driver & ip & user & pass & mac & _ & ->).
    destruct (IH (S k)) as (tr & -> & Hadd & Hsel & Hclicks & Hlen).
    eexists. split; [reflexivity|].
    cbn [Nat.ltb Nat.leb] in Hadd.
    destruct (node_block_counts (Nat.ltb 0 k) driver ip user pass mac)
      as (Badd & Bsel & Bclicks & Blen).
    rewrite !app_assoc.
    rewrite (clicks_on_app add_node), (clicks_on_app driver_select),
      count_app, length_app.
    rewrite Badd, Bsel, Bclicks, Blen, Hadd, Hsel, Hclicks, Hlen, Hadd.
    destruct (Nat.ltb 0 k); cbn [length]; repeat split; lia.
Qed.

End OnePage.

(** X21.  On a page where every click and entry succeeds,
    [_page_register_nodes] registers nodes that have all their entries by
    clicking Add Node once for each node but the first, selecting a driver
    once for each node and making four entries for each node; it then
    clicks Register, waits up to 30 seconds for Next to be clickable and
    clicks Next. *)
Theorem X21_register_nodes
    (pr : Locator -> bool) (nodes : list (gmap string PyVal)) :
  Forall complete_node nodes ->
  exists tr : list Event,
    _page_register_nodes wizard_locators nodes (page_showing pr)
    = (Ok tt, page_showing pr,
       Interaction
         (EClick ("xpath", "//button[.='Register Nodes']") None true)
       :: List.map Interaction tr
       ++ [ Interaction
              (EClick ("xpath", "//button[.='Register']") None true);
            EWaitClickable sample_next (Some 30) (pr sample_next);
            Interaction (EClick sample_next None true) ])
    /\ clicks_on add_node tr = length nodes - 1
    /\ clicks_on driver_select tr = length nodes
    /\ count is_click tr = 2 * length nodes + (length nodes - 1)
    /\ length tr = 6 * length nodes + (length nodes - 1).
Proof.
  intros Hnodes.
  destruct (register_each_run pr nodes Hnodes 0)
    as (tr & Hrun & Hadd & Hsel & Hclicks & Hlen).
  cbn [Nat.ltb Nat.leb] in Hadd.
  exists tr. rewrite <- Hadd. repeat split; auto.
  unfold _page_register_nodes, click_named, locator.
  replace (wizard_locators !! "rhci.register_nodes")
    with (Some ("xpath", "//button[.='Register Nodes']"))
    by (vm_compute; reflexivity).
  replace (wizard_locators !! "node_register_nodes")
    with (Some ("xpath", "//button[.='Register']"))
    by (vm_compute; reflexivity).
  replace (wizard_locators !! "rhci.next") with (Some sample_next)
    by (vm_compute; reflexivity).
  cbv [bind page ret click base_click fake_browser page_showing fake_click
       fk_clicks fk_click_default fake_answer is_ok
       wait_until_element_is_clickable
       base_wait_until_element_is_clickable fake_clickable fk_present]
    in Hrun |- *.
  rewrite Hrun.
  destruct (pr sample_next); reflexivity.
Qed.

Lemma X21_register_nodes_witness :
  exists tr : list Event,
    _page_register_nodes wizard_locators
      [sample_node "10.0.0.1"; sample_node "10.0.0.2";
       sample_node "10.0.0.3"]
      (page_showing (fun _ => true))
    = (Ok tt, page_showing (fun _ => true),
       Interaction
         (EClick ("xpath", "//button[.='Register Nodes']") None true)
       :: List.map Interaction tr
       ++ [ Interaction
              (EClick ("xpath", "//button[.='Register']") None true);
            EWaitClickable sample_next (Some 30) true;
            Interaction (EClick sample_next None true) ])
    /\ clicks_on add_node tr = 2.
Proof.
  destruct (X21_register_nodes (fun _ => true)
              [sample_node "10.0.0.1"; sample_node "10.0.0.2";
               sample_node "10.0.0.3"])
    as (tr & Hrun & Hadd & _).
  - repeat constructor; vm_compute; eauto.
  - exists tr. split; [exact Hrun|exact Hadd].
Defined.

End WizardFacts.

(* ===================================================================== *)
(** * Further properties of the polling and of the GPG key listing        *)
(* ===================================================================== *)

Module PollingFacts.

Import Rhci.

(** X22.  In every run of the completion loop, whatever the browser does,
    each attempt that did not succeed is followed by at least one and at
    most 40 refreshes, and each failed refresh by exactly one sleep of 15
    seconds: with [a] attempts, [s] successful clicks and [r] refreshes,
    [a - s <= r <= 40 * (a - s)]. *)
Theorem X22_refreshes_per_failed_attempt
    (W : Type) (B : Browser W) (locators : gmap string Locator)
    (n : nat) (w : W) :
  count (is_sleep 90) (snd (completion_loop locators n w))
  <= count is_click_ok (snd (completion_loop locators n w))
     + count is_refresh (snd (completion_loop locators n w))
  /\ count is_refresh (snd (completion_loop locators n w))
     + 40 * count is_click_ok (snd (completion_loop locators n w))
     <= 40 * count (is_sleep 90) (snd (completion_loop locators n w))
  /\ count (is_sleep 15) (snd (completion_loop locators n w))
     = count is_refresh_failed (snd (completion_loop locators n w)).
Proof.
  revert w. induction n as [|n IH]; intros w.
  - cbn. lia.
  - rewrite completion_loop_step.
    destruct (locators !! "rhci.next") as [l|].
    + destruct (base_click l None (time_sleep 90 w)) as [[[]|e] w1].
      * cbn. lia.
      * pose proof (refresh_retry_counts 40 w1) as Hr.
        destruct (refresh_retry 40 w1) as [[r1 w2] t1].
        specialize (IH w2).
        destruct (completion_loop locators n w2) as [[r w3] t2].
        cbn [snd] in *.
        destruct Hr as (_ & Hs & _ & Hco & H15 & _ & _ & H40 & H1).
        specialize (H1 ltac:(lia)).
        rewrite !count_cons, !count_app, Hs, Hco, H15.
        cbn [is_sleep is_click_ok is_refresh is_refresh_failed Nat.eqb].
        lia.
    + pose proof (refresh_retry_counts 40 (time_sleep 90 w)) as Hr.
      destruct (refresh_retry 40 (time_sleep 90 w)) as [[r1 w2] t1].
      specialize (IH w2).
      destruct (completion_loop locators n w2) as [[r w3] t2].
      cbn [snd] in *.
      destruct Hr as (_ & Hs & _ & Hco & H15 & _ & _ & H40 & H1).
      specialize (H1 ltac:(lia)).
      rewrite !count_cons, !count_app, Hs, Hco, H15.
      cbn [is_sleep is_click_ok is_refresh is_refresh_failed Nat.eqb].
      lia.
Qed.

End PollingFacts.

Module GpgkeyFacts.

Import Gpgkey.

(** X23.  [GPGKey.list] hands the options of its caller on as they are
    but for [organization-id]: every other option keeps its value, none is
    added, and an [organization-id] the caller had put in is replaced by
    the argument.  Without options it passes exactly [per-page] and
    [organization-id]. *)
Theorem X23_list_options_pass_through
    (organization_id : PyVal) (m : gmap string PyVal) :
  (forall key : string,
      key <> "organization-id" ->
      list_options organization_id (Some m) !! key = m !! key)
  /\ (forall v : PyVal,
        list_options organization_id
          (Some (<["organization-id" := v]> m))
        = list_options organization_id (Some m))
  /\ dom (list_options organization_id (Some m))
     = {["organization-id"]} ∪ dom m
  /\ dom (list_options organization_id None)
     = {["organization-id"; "per-page"]}.
Proof.
  unfold list_options. split; [|split; [|split]].
  - intros key Hkey. apply lookup_insert_ne. congruence.
  - intros v. apply insert_insert_eq.
  - apply dom_insert_L.
  - rewrite !dom_insert_L, dom_empty_L. set_solver.
Qed.

Lemma X23_list_options_pass_through_witness :
  list_options (PInt 1) (Some {["search" := PStr "name:key"]}) !! "search"
  = Some (PStr "name:key").
Proof.
  rewrite (proj1 (X23_list_options_pass_through (PInt 1)
                    {["search" := PStr "name:key"]})).
  - reflexivity.
  - discriminate.
Defined.

End GpgkeyFacts.
